(** * leanix-utils: the snapshot client (snapshot.py)

    A shallow embedding of the [LeanIX] class of [snapshot/snapshot.py]:
    the constructor, [connect], the request gateway [access_leanix_api],
    [take_snapshot] and [download_surveys].  The remote API, the clock,
    the console and the file system are an explicit [World]; every method
    is a state transformer that either returns a value or raises a Python
    exception.

    What the model takes from outside the module: [requests] answers
    each call with the next response of a script, and a call made when
    the script is used up fails with [ConnectionError];
    [raise_for_status] raises [HTTPError] on the codes 400 to 599;
    [configparser] yields strings; opening and writing a file succeed.

    The file has three parts: the embedding, the vocabulary of the
    scenarios the properties speak about, and the properties. *)

From Stdlib Require Import ZArith Lia.
From Stdlib.Strings Require Import Byte.
From stdpp Require Import base gmap strings list fin_maps.

Local Open Scope string_scope.
Local Open Scope list_scope.
Local Set Warnings "-register-all".

(** ** Python values *)

(** The values that [json.loads] produces, which are also the values the
    client computes with: [None], booleans, integers, strings, lists and
    dictionaries (a parsed dictionary has one binding per key). *)
Inductive value : Type :=
| VNone
| VBool (b : bool)
| VInt (n : Z)
| VStr (s : string)
| VList (l : list value)
| VDict (kvs : list (string * value)).

(** Python's [dict] with string keys and string values (HTTP headers,
    proxy table, one section of the configuration). *)
Abbreviation dict := (gmap string string).

(** The exceptions the client can meet.  [HTTPError] is the only one its
    [except] clauses name. *)
Inductive exn : Type :=
| HTTPError (status : Z)
| ConnectionError
| JSONDecodeError
| KeyError (k : string)
| IndexError
| TypeError
| AttributeError.

(** Result of running a piece of Python: a value, a raised exception, or
    the bounded model of the [while] loop running out of steps (shown
    below never to happen). *)
Inductive outcome (A : Type) : Type :=
| Ok (a : A)
| Raise (e : exn)
| OutOfFuel.
Arguments Ok {A} a.
Arguments Raise {A} e.
Arguments OutOfFuel {A}.

Definition obind {A B} (m : outcome A) (k : A -> outcome B) : outcome B :=
  match m with
  | Ok a => k a
  | Raise e => Raise e
  | OutOfFuel => OutOfFuel
  end.

Declare Scope py_scope.
Delimit Scope py_scope with py.
Notation "x <~ m ;; k" := (obind m (fun x => k))
  (at level 100, m at next level, right associativity) : py_scope.

(** [x is True] *)
Definition py_is_True (v : value) : bool :=
  match v with
  | VBool true => true
  | _ => false
  end.

(** [v != s] for a string literal [s] *)
Definition py_ne_str (v : value) (s : string) : bool :=
  match v with
  | VStr t => negb (String.eqb t s)
  | _ => true
  end.

Fixpoint assoc (k : string) (kvs : list (string * value)) : option value :=
  match kvs with
  | [] => None
  | (k', v) :: rest => if String.eqb k k' then Some v else assoc k rest
  end.

(** [v[k]] for a string key *)
Definition py_getitem (v : value) (k : string) : outcome value :=
  match v with
  | VDict kvs =>
      match assoc k kvs with
      | Some x => Ok x
      | None => Raise (KeyError k)
      end
  | _ => Raise TypeError
  end.

(** [v[0]] *)
Definition py_getitem0 (v : value) : outcome value :=
  match v with
  | VList (x :: _) => Ok x
  | VList [] => Raise IndexError
  | VStr (String c _) => Ok (VStr (String c EmptyString))
  | VStr EmptyString => Raise IndexError
  | VDict _ => Raise (KeyError "0")
  | _ => Raise TypeError
  end.

Fixpoint chars (s : string) : list value :=
  match s with
  | EmptyString => []
  | String c s' => VStr (String c EmptyString) :: chars s'
  end.

(** the elements a [for x in v] visits *)
Definition py_iter (v : value) : outcome (list value) :=
  match v with
  | VList l => Ok l
  | VDict kvs => Ok (map (fun kv => VStr (fst kv)) kvs)
  | VStr s => Ok (chars s)
  | _ => Raise TypeError
  end.

(** [s + v] where [s] is a string: a [TypeError] unless [v] is one too *)
Definition py_str_add (s : string) (v : value) : outcome string :=
  match v with
  | VStr t => Ok (s +:+ t)
  | _ => Raise TypeError
  end.

(** [[f(x) for x in l]] *)
Fixpoint comprehension {A B} (f : A -> outcome B) (l : list A) : outcome (list B) :=
  match l with
  | [] => Ok []
  | x :: rest =>
      (y <~ f x ;;
       ys <~ comprehension f rest ;;
       Ok (y :: ys))%py
  end.

(** [s.replace(old, new)] for a non-empty [old]: the occurrences are
    replaced from left to right and do not overlap.  [skip] counts the
    characters of an occurrence still to be dropped. *)
Fixpoint replace_from (old new : string) (skip : nat) (s : string) : string :=
  match s with
  | EmptyString => EmptyString
  | String c s' =>
      match skip with
      | S k => replace_from old new k s'
      | O =>
          if String.prefix old s
          then new +:+ replace_from old new (String.length old - 1) s'
          else String c (replace_from old new 0 s')
      end
  end.

Definition replace (s old new : string) : string := replace_from old new 0 s.

(** ** The world around the client *)

(** What [requests] hands back: the status code, the body as [.json()]
    parses it ([None] when it is not JSON) and the body as bytes. *)
Record Response : Type := mkResponse {
  status_code : Z;
  json_body : option value;
  content : list byte
}.

(** One call of [requests.get/post/put] as [access_leanix_api] issues it.
    [rq_data] is the document handed to [json.dumps], when there is one. *)
Record Request : Type := mkRequest {
  rq_method : string;
  rq_url : string;
  rq_headers : option dict;
  rq_proxies : option dict;
  rq_params : list (string * value);
  rq_data : option value;
  rq_stream : bool
}.

(** The lines the client prints, one constructor per [print] statement. *)
Inductive message : Type :=
| MsgCreatingSnapshot
| MsgJobId (job_id : value)
| MsgWaiting
| MsgStatus (status processed total : value)
| MsgTimeoutExceeded
| MsgNotCompleted (status : value)
| MsgDownloading
| MsgWriting (filename : string)
| MsgSaved (filename : string)
| MsgSnapshotError (err : exn)
| MsgDownloadingSurveys
| MsgSurveyRun (survey run : string)
| MsgSurveysError (err : exn).

(** Everything the client does to the outside, in the order it does it. *)
Inductive event : Type :=
| EvAuth (url : string) (user password : string) (proxies : option dict)
| EvRequest (r : Request)
| EvPrint (m : message)
| EvSleep (seconds : Z)
| EvOpen (filename : string)
| EvWrite (filename : string) (chunk : list byte).

(** [pending] are the responses the server will give, in order; a request
    made when none is left fails at the transport level.  [today] is what
    [get_today_date] reads off the clock. *)
Record World : Type := mkWorld {
  pending : list Response;
  today : string;
  files : gmap string (list byte);
  trace : list event
}.

(** The fields of a [LeanIX] object. *)
Record LeanIX : Type := mkLeanIX {
  config : gmap string dict;
  instance : string;
  base_path : string;
  poll_url : string;
  apitoken : string;
  header : option dict;
  timeout : Z;
  proxies : option dict
}.

Record State : Type := mkState {
  self : LeanIX;
  world : World
}.

Definition with_header (h : option dict) (o : LeanIX) : LeanIX :=
  {| config := config o; instance := instance o; base_path := base_path o;
     poll_url := poll_url o; apitoken := apitoken o; header := h;
     timeout := timeout o; proxies := proxies o |}.

Definition with_pending (p : list Response) (w : World) : World :=
  {| pending := p; today := today w; files := files w; trace := trace w |}.

Definition with_files (f : gmap string (list byte)) (w : World) : World :=
  {| pending := pending w; today := today w; files := f; trace := trace w |}.

Definition with_event (e : event) (w : World) : World :=
  {| pending := pending w; today := today w; files := files w;
     trace := trace w ++ [e] |}.

(** ** The monad of methods: state and exceptions *)

Definition M (A : Type) : Type := State -> outcome A * State.

Definition ret {A} (a : A) : M A := fun st => (Ok a, st).

Definition bind {A B} (m : M A) (k : A -> M B) : M B :=
  fun st =>
    match m st with
    | (Ok a, st') => k a st'
    | (Raise e, st') => (Raise e, st')
    | (OutOfFuel, st') => (OutOfFuel, st')
    end.

Notation "x <- m ;; k" := (bind m (fun x => k))
  (at level 100, m at next level, right associativity) : py_scope.
Notation "m ;;; k" := (bind m (fun _ => k))
  (at level 100, right associativity) : py_scope.

Definition raise {A} (e : exn) : M A := fun st => (Raise e, st).

Definition lift {A} (o : outcome A) : M A := fun st => (o, st).

(** [try: body except requests.exceptions.HTTPError as err: handler] *)
Definition try_except_HTTPError {A} (body : M A) (handler : exn -> M A) : M A :=
  fun st =>
    match body st with
    | (Raise (HTTPError c), st') => handler (HTTPError c) st'
    | r => r
    end.

Definition get_self : M LeanIX := fun st => (Ok (self st), st).

(** The three ways a method changes the state. *)
Definition header_st (h : option dict) (st : State) : State :=
  {| self := with_header h (self st); world := world st |}.

Definition emit_st (e : event) (st : State) : State :=
  {| self := self st; world := with_event e (world st) |}.

Definition pending_st (p : list Response) (st : State) : State :=
  {| self := self st; world := with_pending p (world st) |}.

Definition files_st (f : gmap string (list byte)) (st : State) : State :=
  {| self := self st; world := with_files f (world st) |}.

Definition set_header (h : option dict) : M unit :=
  fun st => (Ok tt, header_st h st).

Definition emit (e : event) : M unit :=
  fun st => (Ok tt, emit_st e st).

Definition print (m : message) : M unit := emit (EvPrint m).

(** [time.sleep(n)] *)
Definition sleep (n : Z) : M unit := emit (EvSleep n).

(** the server's next answer *)
Definition receive : M Response :=
  fun st =>
    match pending (world st) with
    | [] => (Raise ConnectionError, st)
    | r :: rest => (Ok r, pending_st rest st)
    end.

(** The status codes on which [response.raise_for_status()] of
    [requests] raises: client and server errors. *)
Definition is_error (r : Response) : bool :=
  ((400 <=? status_code r) && (status_code r <? 600))%Z.

(** [response.raise_for_status()] *)
Definition raise_for_status (r : Response) : M unit :=
  if is_error r then raise (HTTPError (status_code r)) else ret tt.

(** [response.json()] *)
Definition json (r : Response) : outcome value :=
  match json_body r with
  | Some v => Ok v
  | None => Raise JSONDecodeError
  end.

(** ** The constructor *)

(** [config[section][key]], the configuration being given by the
    values its sections hold under the option names the module uses;
    [configparser] hands every value back as a string.  The values are
    taken as they stand: the interpolation of a percent sign and the
    errors of reading the file are not part of the model. *)
Definition config_get (cfg : gmap string dict) (section key : string) : outcome string :=
  match cfg !! section with
  | None => Raise (KeyError section)
  | Some sec =>
      match sec !! key with
      | None => Raise (KeyError key)
      | Some v => Ok v
      end
  end.

(** [LeanIX.__init__], from the parsed [config.ini]. *)
Definition __init__ (cfg : gmap string dict) : outcome LeanIX :=
  (hostname <~ config_get cfg "MANDATORY" "HOSTNAME" ;;
   token <~ config_get cfg "MANDATORY" "APITOKEN" ;;
   http_proxy <~ config_get cfg "MANDATORY" "HTTP_PROXY" ;;
   https_proxy <~ config_get cfg "MANDATORY" "HTTPS_PROXY" ;;
   proxy_required <~ config_get cfg "MANDATORY" "PROXY_REQUIRED" ;;
   Ok {| config := cfg;
         instance := hostname;
         base_path := "/services/pathfinder/v1";
         poll_url := "/services/poll/v2";
         apitoken := token;
         header := None;
         timeout := 7200;
         proxies :=
           if py_is_True (VStr proxy_required)
           then Some (<["https" := https_proxy]> {["http" := http_proxy]})
           else None |})%py.

(** ** [connect] *)

Definition connect : M unit :=
  (s <- get_self ;;
   let auth_url := instance s +:+ "/services/mtm/v1/oauth2/token" in
   emit (EvAuth auth_url "apitoken" (apitoken s) (proxies s)) ;;;
   response <- receive ;;
   raise_for_status response ;;;
   body <- lift (json response) ;;
   token <- lift (py_getitem body "access_token") ;;
   bearer <- lift (py_str_add "Bearer " token) ;;
   set_header (Some {["Authorization" := bearer]}))%py.

(** ** [get_today_date] *)

Definition get_today_date : M string := fun st => (Ok (today (world st)), st).

(** ** [access_leanix_api] *)

(** [requests.get], [requests.post], [requests.put] *)
Definition requests_call (method url : string) (headers proxies : option dict)
    (params : list (string * value)) (data : option value) (stream : bool) : M Response :=
  (emit (EvRequest {| rq_method := method; rq_url := url; rq_headers := headers;
                      rq_proxies := proxies; rq_params := params; rq_data := data;
                      rq_stream := stream |}) ;;;
   receive)%py.

Definition access_leanix_api (url method : string) (data : option value)
    (params : list (string * value)) (stream : bool) : M Response :=
  (s <- get_self ;;
   response <-
     (if String.eqb method "GET" then
        r <- requests_call "GET" url (header s) (proxies s) params data stream ;; ret (Some r)
      else if String.eqb method "POST" then
        r <- requests_call "POST" url (header s) (proxies s) params data stream ;; ret (Some r)
      else if String.eqb method "PUT" then
        r <- requests_call "PUT" url (header s) (proxies s) params data stream ;; ret (Some r)
      else ret None) ;;
   match response with
   | None => raise AttributeError
   | Some r => raise_for_status r ;;; ret r
   end)%py.

(** ** File output *)

(** [open(filename, 'wb')]: the file exists and is empty afterwards.
    The file system is taken to accept every name; an [open] that
    fails is not part of the model. *)
Definition open_wb (filename : string) : M unit :=
  fun st =>
    (Ok tt, emit_st (EvOpen filename)
              (files_st (<[filename := []]> (files (world st))) st)).

(** [file.write(chunk)] on a file opened by [open_wb] *)
Definition file_write (filename : string) (chunk : list byte) : M unit :=
  fun st =>
    let old := default [] (files (world st) !! filename) in
    (Ok tt, emit_st (EvWrite filename chunk)
              (files_st (<[filename := old ++ chunk]> (files (world st))) st)).

(** [response.iter_content(n)]: the body in pieces of [n] bytes, the last
    one possibly shorter; a streamed body may arrive in shorter pieces,
    which hold the same bytes in the same order.  [cur] is the piece
    being filled, in reverse, and [room] the bytes it still takes. *)
Fixpoint iter_content_from (n : nat) (cur : list byte) (room : nat) (l : list byte)
    : list (list byte) :=
  match l with
  | [] => match cur with [] => [] | _ => [rev cur] end
  | b :: l' =>
      match room with
      | O => rev cur :: iter_content_from n [b] (n - 1) l'
      | S room' => iter_content_from n (b :: cur) room' l'
      end
  end.

Definition iter_content (n : nat) (r : Response) : list (list byte) :=
  iter_content_from n [] n (content r).

(** [for x in l: body(x)] *)
Fixpoint for_each {A} (l : list A) (body : A -> M unit) : M unit :=
  match l with
  | [] => ret tt
  | x :: rest => (body x ;;; for_each rest body)%py
  end.

(** [self.header[k] = v] *)
Definition header_setitem (k v : string) : M unit :=
  (s <- get_self ;;
   match header s with
   | None => raise TypeError
   | Some h => set_header (Some (<[k := v]> h))
   end)%py.

(** [del self.header[k]] *)
Definition header_delitem (k : string) : M unit :=
  (s <- get_self ;;
   match header s with
   | None => raise TypeError
   | Some h =>
       match h !! k with
       | None => raise (KeyError k)
       | Some _ => set_header (Some (delete k h))
       end
   end)%py.

(** ** [take_snapshot] *)

(** The [while] loop of [take_snapshot].  It returns the loop variables
    [status], [waiting_since] and [workspace_id] as they are on exit.
    [fuel] bounds the number of iterations of the model only. *)
Fixpoint poll_loop (fuel : nat) (status_check_url : string)
    (status : value) (waiting_since : Z) (workspace_id : value)
    : M (value * Z * value) :=
  (s <- get_self ;;
   if py_ne_str status "DONE" && (waiting_since <? timeout s)%Z then
     match fuel with
     | O => fun st => (OutOfFuel, st)
     | S fuel' =>
         connect ;;;
         response <- access_leanix_api status_check_url "GET" None [] false ;;
         job_status_response <- lift (json response) ;;
         status' <- lift (d <~ py_getitem job_status_response "data" ;;
                          py_getitem d "status") ;;
         workspace_id' <- lift (d <~ py_getitem job_status_response "data" ;;
                                py_getitem d "workspaceId") ;;
         processed <- lift (d <~ py_getitem job_status_response "data" ;;
                            py_getitem d "processed") ;;
         total <- lift (d <~ py_getitem job_status_response "data" ;;
                        py_getitem d "total") ;;
         print (MsgStatus status' processed total) ;;;
         let waiting_since' := (waiting_since + 5)%Z in
         sleep 5 ;;;
         poll_loop fuel' status_check_url status' waiting_since' workspace_id'
     end
   else ret (status, waiting_since, workspace_id))%py.

(** Iterations that [waiting_since < timeout] can let through, starting
    from [waiting_since = 0] and adding 5 each time. *)
Definition poll_fuel (s : LeanIX) : nat := Z.to_nat ((timeout s + 4) / 5).

(** The body of [take_snapshot] in the parts its comments mark.  [s] is
    [self], read for the fields that no method assigns. *)

(** "trigger export", up to the URL the loop polls *)
Definition trigger_export (s : LeanIX) : M string :=
  (let trigger_export_url := instance s +:+ base_path s +:+ "/exports/fullExport" in
   response <- access_leanix_api trigger_export_url "POST" None
                 [("exportType", VStr "SNAPSHOT")] false ;;
   trigger_export_response <- lift (json response) ;;
   job_id <- lift (d <~ py_getitem trigger_export_response "data" ;;
                   py_getitem d "jobId") ;;
   print (MsgJobId job_id) ;;;
   print MsgWaiting ;;;
   (* check job status and wait for download key *)
   lift (u <~ py_str_add (instance s +:+ base_path s +:+ "/jobs/") job_id ;;
         Ok (u +:+ "/status")))%py.

(** "request and store data".  The [try] block yields [false] when it
    runs to its end and the handler yields [true] for its [return]. *)
Definition request_and_store_data (s : LeanIX) (workspace_id download_key : value)
    : M value :=
  (print MsgDownloading ;;;
   download_url <- lift (py_str_add (instance s +:+ base_path s +:+ "/exports/downloads/")
                           workspace_id) ;;
   header_setitem "Accept" "application/octet-stream" ;;;
   returned <- try_except_HTTPError
     (binary <- access_leanix_api download_url "GET" None [("key", download_key)] true ;;
      (* write to file *)
      template <- lift (config_get (config s) "OPTIONAL" "EXPORT_FILENAME") ;;
      cdate <- get_today_date ;;
      let filename := replace template "{cdate}" cdate in
      print (MsgWriting filename) ;;;
      (if (status_code binary =? 200)%Z then
         open_wb filename ;;;
         for_each (iter_content 1024 binary) (file_write filename)
       else ret tt) ;;;
      print (MsgSaved filename) ;;;
      ret false)
     (fun err =>
        print (MsgSnapshotError err) ;;;
        ret true) ;;
   if returned : bool then ret VNone
   else
     header_delitem "Accept" ;;;
     ret VNone)%py.

(** "request download key", and what follows it *)
Definition request_download_key (s : LeanIX) (workspace_id : value) : M value :=
  (let request_key_url := instance s +:+ base_path s +:+ "/exports" in
   let key_params := [("exportType", VStr "SNAPSHOT"); ("pageSize", VInt 1);
                      ("sorting", VStr "createdAt"); ("sortDirection", VStr "DESC")] in
   response <- access_leanix_api request_key_url "GET"
                 (Some (VDict [("exportType", VStr "SNAPSHOT")])) key_params false ;;
   data <- lift (json response) ;;
   status <- lift (d <~ py_getitem data "data" ;;
                   e <~ py_getitem0 d ;;
                   py_getitem e "status") ;;
   download_key <- lift (d <~ py_getitem data "data" ;;
                         e <~ py_getitem0 d ;;
                         py_getitem e "downloadKey") ;;
   if py_ne_str status "COMPLETED" then
     print (MsgNotCompleted status) ;;;
     ret (VBool false)
   else
     request_and_store_data s workspace_id download_key)%py.

Definition take_snapshot : M value :=
  (print MsgCreatingSnapshot ;;;
   s <- get_self ;;
   status_check_url <- trigger_export s ;;
   loop <- poll_loop (poll_fuel s) status_check_url VNone 0 VNone ;;
   let '(status, waiting_since, workspace_id) := loop in
   if (waiting_since >=? timeout s)%Z then
     print MsgTimeoutExceeded ;;;
     ret (VBool false)
   else
     request_download_key s workspace_id)%py.

(** ** [download_surveys] *)

(** The body of the inner loop, "get all run results", for one [run] of
    [survey]. *)
Definition get_run_result (s : LeanIX) (params : list (string * value))
    (survey run : value) : M unit :=
  (line <- lift (a <~ py_str_add "Survey " survey ;;
                 py_str_add (a +:+ " - Run ") run) ;;
   match survey, run with
   | VStr survey_id, VStr run_id =>
       print (MsgSurveyRun survey_id run_id) ;;;
       let result_url := instance s +:+ poll_url s +:+ "/pollRuns/" +:+ run_id
                         +:+ "/poll_results.xlsx" in
       file <- access_leanix_api result_url "GET" None params false ;;
       template <- lift (config_get (config s) "OPTIONAL" "SURVEY_FILENAME") ;;
       cdate <- get_today_date ;;
       let filename := replace (replace (replace template "{cdate}" cdate)
                                  "{id}" survey_id) "{run}" run_id in
       open_wb filename ;;;
       file_write filename (content file)
   | _, _ => raise TypeError
   end)%py.

(** The body of the outer loop, "get all survey runs", for one
    [survey]. *)
Definition get_survey_runs (s : LeanIX) (params : list (string * value))
    (survey : value) : M unit :=
  (run_url <- lift (u <~ py_str_add (instance s +:+ poll_url s +:+ "/polls/") survey ;;
                    Ok (u +:+ "/pollRuns")) ;;
   response <- access_leanix_api run_url "GET" None params false ;;
   body <- lift (json response) ;;
   runs <- lift (py_getitem body "data") ;;
   (* get all run results *)
   run_ids <- lift (ys <~ py_iter runs ;;
                    comprehension (fun y => py_getitem y "id") ys) ;;
   for_each run_ids (get_run_result s params survey))%py.

Definition download_surveys : M value :=
  (* get all survey ids *)
  (print MsgDownloadingSurveys ;;;
   s <- get_self ;;
   let request_url := instance s +:+ poll_url s +:+ "/polls" in
   workspace <- lift (config_get (config s) "MANDATORY" "WORKSPACEID") ;;
   let params := [("workspaceId", VStr workspace)] in
   try_except_HTTPError
     (response <- access_leanix_api request_url "GET" None params false ;;
      body <- lift (json response) ;;
      survey_ids <- lift (py_getitem body "data") ;;
      (* get all survey runs *)
      surveys <- lift (xs <~ py_iter survey_ids ;;
                       comprehension (fun x => py_getitem x "id") xs) ;;
      for_each surveys (get_survey_runs s params) ;;;
      ret VNone)
     (fun err =>
        print (MsgSurveysError err) ;;;
        ret VNone))%py.

(** ** The script at the end of the module *)

Definition main (cfg : gmap string dict) (w : World) : outcome value * option State :=
  match __init__ cfg with
  | Ok leanIX =>
      let '(r, st) :=
        (connect ;;;
         take_snapshot ;;;
         download_surveys)%py {| self := leanIX; world := w |} in
      (r, Some st)
  | Raise e => (Raise e, None)
  | OutOfFuel => (OutOfFuel, None)
  end.

(** * Scenarios

    The vocabulary in which the properties below are stated: what the
    server's answers look like, and what one round of the poll loop
    exchanges with it. *)

(** The methods [access_leanix_api] has a branch for. *)
Definition supported (method : string) : bool :=
  String.eqb method "GET" || String.eqb method "POST" || String.eqb method "PUT".

(** The request [access_leanix_api] sends when the object's header is
    [h] and its proxy table [px]. *)
Definition request_of (h px : option dict) (method url : string) (data : option value)
    (params : list (string * value)) (stream : bool) : Request :=
  {| rq_method := method; rq_url := url; rq_headers := h;
     rq_proxies := px; rq_params := params; rq_data := data;
     rq_stream := stream |}.

(** [body[k]], [body[k1][k2]] and [body[k1][0][k2]] of a response. *)
Definition field (r : Response) (k : string) : outcome value :=
  (b <~ json r ;; py_getitem b k)%py.

Definition field2 (r : Response) (k1 k2 : string) : outcome value :=
  (b <~ json r ;; d <~ py_getitem b k1 ;; py_getitem d k2)%py.

Definition field_first (r : Response) (k1 k2 : string) : outcome value :=
  (b <~ json r ;; d <~ py_getitem b k1 ;; e <~ py_getitem0 d ;; py_getitem e k2)%py.

(** The header [connect] installs for access token [t]. *)
Definition bearer_header (t : string) : dict :=
  {["Authorization" := "Bearer " +:+ t]}.

(** The token exchange [connect] performs for object [s]. *)
Definition auth_event (s : LeanIX) : event :=
  EvAuth (instance s +:+ "/services/mtm/v1/oauth2/token") "apitoken" (apitoken s) (proxies s).

(** [r] is a successful token exchange handing out access token [t]. *)
Definition token_response (r : Response) (t : string) : Prop :=
  is_error r = false /\ field r "access_token" = Ok (VStr t).

(** [r] is a successful export trigger announcing job [job_id]. *)
Definition trigger_response (r : Response) (job_id : string) : Prop :=
  is_error r = false /\ field2 r "data" "jobId" = Ok (VStr job_id).

(** [r] is a successful export listing whose first entry has the given
    status and download key. *)
Definition export_response (r : Response) (status download_key : value) : Prop :=
  is_error r = false /\
  field_first r "data" "status" = Ok status /\
  field_first r "data" "downloadKey" = Ok download_key.

(** One round of the poll loop, as the server sees it: its answer to the
    token exchange, and its answer to the status request, with what the
    client reads out of both. *)
Record Poll : Type := mkPoll {
  auth_response : Response;
  token : string;
  poll_response : Response;
  job_status : value;
  workspace : value;
  processed : value;
  total : value
}.

Definition poll_ok (p : Poll) : Prop :=
  token_response (auth_response p) (token p) /\
  is_error (poll_response p) = false /\
  field2 (poll_response p) "data" "status" = Ok (job_status p) /\
  field2 (poll_response p) "data" "workspaceId" = Ok (workspace p) /\
  field2 (poll_response p) "data" "processed" = Ok (processed p) /\
  field2 (poll_response p) "data" "total" = Ok (total p).

(** the job is not finished according to this round *)
Definition not_done (p : Poll) : Prop := py_ne_str (job_status p) "DONE" = true.

(** the job is finished according to this round *)
Definition done (p : Poll) : Prop := py_ne_str (job_status p) "DONE" = false.

(** The answers the server gives over the rounds [ps]. *)
Definition poll_script (ps : list Poll) : list Response :=
  flat_map (fun p => [auth_response p; poll_response p]) ps.

(** What the client does in round [p], polling [url]. *)
Definition poll_events (s : LeanIX) (url : string) (p : Poll) : list event :=
  [auth_event s;
   EvRequest (request_of (Some (bearer_header (token p))) (proxies s)
                "GET" url None [] false);
   EvPrint (MsgStatus (job_status p) (processed p) (total p));
   EvSleep 5].

(** The loop variables and the header after the rounds [ps]. *)
Definition status_after (status : value) (ps : list Poll) : value :=
  fold_left (fun _ p => job_status p) ps status.

Definition workspace_after (workspace_id : value) (ps : list Poll) : value :=
  fold_left (fun _ p => workspace p) ps workspace_id.

Definition header_after (h : option dict) (ps : list Poll) : option dict :=
  fold_left (fun _ p => Some (bearer_header (token p))) ps h.

(** State [st] after some steps of a method: the header is [h], the
    server has [rest] still to say, the files are [f], and the client
    has done [evs] since. *)
Definition evolved (h : option dict) (rest : list Response)
    (f : gmap string (list byte)) (evs : list event) (st : State) : State :=
  {| self := with_header h (self st);
     world := {| pending := rest;
                 today := today (world st);
                 files := f;
                 trace := trace (world st) ++ evs |} |}.

(** The URLs [take_snapshot] calls. *)
Definition trigger_url (s : LeanIX) : string :=
  instance s +:+ base_path s +:+ "/exports/fullExport".

Definition status_check_url (s : LeanIX) (job_id : string) : string :=
  ((instance s +:+ base_path s +:+ "/jobs/") +:+ job_id) +:+ "/status".

Definition lookup_url (s : LeanIX) : string :=
  instance s +:+ base_path s +:+ "/exports".

Definition download_url (s : LeanIX) (workspace_id : string) : string :=
  (instance s +:+ base_path s +:+ "/exports/downloads/") +:+ workspace_id.

(** What [take_snapshot] does up to its loop, under header [h]. *)
Definition trigger_events (s : LeanIX) (h : option dict) (job_id : string) : list event :=
  [EvPrint MsgCreatingSnapshot;
   EvRequest (request_of h (proxies s) "POST" (trigger_url s) None
                [("exportType", VStr "SNAPSHOT")] false);
   EvPrint (MsgJobId (VStr job_id));
   EvPrint MsgWaiting].

(** The export-metadata lookup, under header [h]. *)
Definition lookup_request (s : LeanIX) (h : option dict) : Request :=
  request_of h (proxies s) "GET" (lookup_url s)
    (Some (VDict [("exportType", VStr "SNAPSHOT")]))
    [("exportType", VStr "SNAPSHOT"); ("pageSize", VInt 1);
     ("sorting", VStr "createdAt"); ("sortDirection", VStr "DESC")] false.

(** The binary download, when the header was [h] before the download
    step. *)
Definition download_request (s : LeanIX) (h : dict) (workspace_id : string)
    (download_key : value) : Request :=
  request_of (Some (<["Accept" := "application/octet-stream"]> h)) (proxies s)
    "GET" (download_url s workspace_id) None [("key", download_key)] true.

(** With timeout [T], the rounds [pre] and then [p] all take place: the
    server answers each, the job is unfinished throughout [pre], and the
    elapsed-time counter is below [T] when round [p] starts. *)
Definition rounds (T : Z) (pre : list Poll) (p : Poll) : Prop :=
  Forall poll_ok (pre ++ [p]) /\
  Forall not_done pre /\
  (5 * Z.of_nat (length pre) < T)%Z.

(** The elapsed-time counter after [n] rounds. *)
Definition waited (n : nat) : Z := (5 * Z.of_nat n)%Z.

(** The header during the binary download. *)
Definition accept_header (h : dict) : dict :=
  <["Accept" := "application/octet-stream"]> h.

(** What the download step does when the server answers [binary]
    without an HTTP error: the snapshot goes to file [name] only on
    status 200. *)
Definition store_events (s : LeanIX) (h : dict) (workspace_id : string)
    (download_key : value) (name : string) (binary : Response) : list event :=
  [EvPrint MsgDownloading;
   EvRequest (download_request s h workspace_id download_key);
   EvPrint (MsgWriting name)] ++
  (if (status_code binary =? 200)%Z
   then EvOpen name :: map (EvWrite name) (iter_content 1024 binary)
   else []) ++
  [EvPrint (MsgSaved name)].

Definition stored_files (name : string) (binary : Response)
    (f : gmap string (list byte)) : gmap string (list byte) :=
  if (status_code binary =? 200)%Z then <[name := content binary]> f else f.

(** What the download step does when the server answers with an HTTP
    error [code]. *)
Definition failed_download_events (s : LeanIX) (h : dict) (workspace_id : string)
    (download_key : value) (code : Z) : list event :=
  [EvPrint MsgDownloading;
   EvRequest (download_request s h workspace_id download_key);
   EvPrint (MsgSnapshotError (HTTPError code))].

(** What [take_snapshot] does up to and including the metadata lookup,
    when the rounds were [ps] and the last token was [tok]. *)
Definition lookup_events (s : LeanIX) (h : option dict) (job_id : string)
    (ps : list Poll) (tok : string) : list event :=
  trigger_events s h job_id ++
  flat_map (poll_events s (status_check_url s job_id)) ps ++
  [EvRequest (lookup_request s (Some (bearer_header tok)))].

(** The run of [take_snapshot] from [st] gets as far as the binary
    download: the trigger is accepted, the job is reported done in round
    [p] with the counter still below the timeout, the workspace is [w],
    the newest export is COMPLETED with key [key], and the server's
    answer to the download is [binary]. *)
Definition reaches_download (st : State) (job_id : string) (pre : list Poll) (p : Poll)
    (w : string) (key : value) (binary : Response) (rest : list Response) : Prop :=
  exists r meta,
    pending (world st) = r :: poll_script (pre ++ [p]) ++ meta :: binary :: rest /\
    trigger_response r job_id /\
    rounds (timeout (self st)) pre p /\
    done p /\
    (waited (length pre + 1) < timeout (self st))%Z /\
    workspace p = VStr w /\
    export_response meta (VStr "COMPLETED") key.

(** The step of [take_snapshot] at which the server answers with an HTTP
    error. *)
Inductive stage : Type := AtTrigger | AtPoll | AtLookup | AtDownload.

(** The run of [take_snapshot] from [st] meets HTTP error [code] at the
    given stage, everything before having gone well. *)
Definition fails_at (sg : stage) (st : State) (code : Z) : Prop :=
  match sg with
  | AtTrigger =>
      exists r rest,
        pending (world st) = r :: rest /\
        is_error r = true /\ status_code r = code
  | AtPoll =>
      exists r job_id pre a t e rest,
        pending (world st) = r :: poll_script pre ++ a :: e :: rest /\
        trigger_response r job_id /\
        Forall poll_ok pre /\ Forall not_done pre /\
        (waited (length pre) < timeout (self st))%Z /\
        token_response a t /\
        is_error e = true /\ status_code e = code
  | AtLookup =>
      exists r job_id pre p meta rest,
        pending (world st) = r :: poll_script (pre ++ [p]) ++ meta :: rest /\
        trigger_response r job_id /\
        rounds (timeout (self st)) pre p /\
        done p /\
        (waited (length pre + 1) < timeout (self st))%Z /\
        is_error meta = true /\ status_code meta = code
  | AtDownload =>
      exists job_id pre p w key binary rest,
        reaches_download st job_id pre p w key binary rest /\
        is_error binary = true /\ status_code binary = code
  end.

(** ** Surveys *)

(** [[x["id"] for x in body["data"]]] of a response *)
Definition ids_of (r : Response) : outcome (list value) :=
  (b <~ json r ;;
   d <~ py_getitem b "data" ;;
   xs <~ py_iter d ;;
   comprehension (fun x => py_getitem x "id") xs)%py.

(** [r] is a successful listing of the surveys, or of the runs of a
    survey, with ids [ids]. *)
Definition listing_response (r : Response) (ids : list string) : Prop :=
  is_error r = false /\ ids_of r = Ok (map VStr ids).

(** A survey as the server presents it: the answer to its run listing,
    and for each run its id and the answer to its result download. *)
Record Survey : Type := mkSurvey {
  survey_id : string;
  runs_response : Response;
  results : list (string * Response)
}.

Definition result_ok (rr : string * Response) : Prop := is_error (snd rr) = false.

Definition survey_ok (sv : Survey) : Prop :=
  listing_response (runs_response sv) (map fst (results sv)) /\
  Forall result_ok (results sv).

Definition survey_script (sv : Survey) : list Response :=
  runs_response sv :: map snd (results sv).

(** The URLs [download_surveys] calls, and the name of a result file. *)
Definition surveys_url (s : LeanIX) : string :=
  instance s +:+ poll_url s +:+ "/polls".

Definition runs_url (s : LeanIX) (sid : string) : string :=
  ((instance s +:+ poll_url s +:+ "/polls/") +:+ sid) +:+ "/pollRuns".

Definition result_url (s : LeanIX) (rid : string) : string :=
  instance s +:+ poll_url s +:+ "/pollRuns/" +:+ rid +:+ "/poll_results.xlsx".

Definition survey_filename (template cdate sid rid : string) : string :=
  replace (replace (replace template "{cdate}" cdate) "{id}" sid) "{run}" rid.

Definition survey_request (s : LeanIX) (h : option dict) (ws url : string) : Request :=
  request_of h (proxies s) "GET" url None [("workspaceId", VStr ws)] false.

(** What the client does up to and including the request for the result
    of run [rid]. *)
Definition result_attempt (s : LeanIX) (h : option dict) (ws sid rid : string) : list event :=
  [EvPrint (MsgSurveyRun sid rid);
   EvRequest (survey_request s h ws (result_url s rid))].

(** What the client does for one run whose result it gets, and the files
    after it. *)
Definition run_events (s : LeanIX) (h : option dict) (ws template cdate sid : string)
    (rr : string * Response) : list event :=
  result_attempt s h ws sid (fst rr) ++
  [EvOpen (survey_filename template cdate sid (fst rr));
   EvWrite (survey_filename template cdate sid (fst rr)) (content (snd rr))].

Definition run_files (template cdate sid : string) (f : gmap string (list byte))
    (rr : string * Response) : gmap string (list byte) :=
  <[survey_filename template cdate sid (fst rr) := content (snd rr)]> f.

(** The same for the runs [rs] of survey [sid], for a whole survey, and
    for the surveys [svs]. *)
Definition runs_events (s : LeanIX) (h : option dict) (ws template cdate sid : string)
    (rs : list (string * Response)) : list event :=
  flat_map (run_events s h ws template cdate sid) rs.

Definition runs_files (template cdate sid : string) (rs : list (string * Response))
    (f : gmap string (list byte)) : gmap string (list byte) :=
  fold_left (run_files template cdate sid) rs f.

Definition survey_events (s : LeanIX) (h : option dict) (ws template cdate : string)
    (sv : Survey) : list event :=
  EvRequest (survey_request s h ws (runs_url s (survey_id sv))) ::
  runs_events s h ws template cdate (survey_id sv) (results sv).

Definition surveys_events (s : LeanIX) (h : option dict) (ws template cdate : string)
    (svs : list Survey) : list event :=
  flat_map (survey_events s h ws template cdate) svs.

Definition surveys_files (template cdate : string) (svs : list Survey)
    (f : gmap string (list byte)) : gmap string (list byte) :=
  fold_left (fun g sv => runs_files template cdate (survey_id sv) (results sv) g) svs f.

(** Where [download_surveys] meets an HTTP error: at the survey listing;
    at the run listing of survey [sid], the surveys [finished] having
    been downloaded; or at the result of run [rid] of survey [sid],
    whose runs [rs] have been downloaded as well. *)
Inductive survey_failure : Type :=
| ListingFails
| RunsFail (listing : Response) (finished : list Survey) (sid : string)
    (later : list string)
| ResultFails (listing : Response) (finished : list Survey) (sid : string)
    (later : list string)
    (runs : Response) (rs : list (string * Response)) (rid : string)
    (later_runs : list string).

(** The answers the server gives up to the error answer [e]. *)
Definition failure_script (fl : survey_failure) (e : Response) : list Response :=
  match fl with
  | ListingFails => [e]
  | RunsFail listing finished _ _ =>
      listing :: flat_map survey_script finished ++ [e]
  | ResultFails listing finished _ _ runs rs _ _ =>
      listing :: flat_map survey_script finished ++ runs :: map snd rs ++ [e]
  end.

(** The answers before the error are good ones. *)
Definition failure_ok (fl : survey_failure) : Prop :=
  match fl with
  | ListingFails => True
  | RunsFail listing finished sid later =>
      listing_response listing (map survey_id finished ++ sid :: later) /\
      Forall survey_ok finished
  | ResultFails listing finished sid later runs rs rid later_runs =>
      listing_response listing (map survey_id finished ++ sid :: later) /\
      Forall survey_ok finished /\
      listing_response runs (map fst rs ++ rid :: later_runs) /\
      Forall result_ok rs
  end.

(** What the client does up to and including the request that fails, and
    the files written by then. *)
Definition failure_events (s : LeanIX) (h : option dict) (ws template cdate : string)
    (fl : survey_failure) : list event :=
  EvPrint MsgDownloadingSurveys ::
  EvRequest (survey_request s h ws (surveys_url s)) ::
  match fl with
  | ListingFails => []
  | RunsFail _ finished sid _ =>
      surveys_events s h ws template cdate finished ++
      [EvRequest (survey_request s h ws (runs_url s sid))]
  | ResultFails _ finished sid _ _ rs rid _ =>
      surveys_events s h ws template cdate finished ++
      EvRequest (survey_request s h ws (runs_url s sid)) ::
      runs_events s h ws template cdate sid rs ++
      result_attempt s h ws sid rid
  end.

Definition failure_files (template cdate : string) (fl : survey_failure)
    (f : gmap string (list byte)) : gmap string (list byte) :=
  match fl with
  | ListingFails => f
  | RunsFail _ finished _ _ => surveys_files template cdate finished f
  | ResultFails _ finished sid _ _ rs _ _ =>
      runs_files template cdate sid rs (surveys_files template cdate finished f)
  end.

(** ** Runs that end *)

(** A computation that gives a value or raises, and leaves the
    object's timeout alone. *)
Definition steady {A} (m : M A) : Prop :=
  forall st, fst (m st) <> OutOfFuel /\ timeout (self (snd (m st))) = timeout (self st).

(** The same for code without state. *)
Definition defined {A} (o : outcome A) : Prop := o <> OutOfFuel.

(** A run that gave a value or raised, and ended with timeout [T]. *)
Definition bounded (T : Z) {A} (r : outcome A * State) : Prop :=
  fst r <> OutOfFuel /\ timeout (self (snd r)) = T.

(** ** What a method leaves alone, and what it returns *)

(** A method that, started in a state satisfying [I], ends in one; all
    it does meanwhile satisfies [P]; and a value it returns satisfies
    [Q]. *)
Definition keeps (I : State -> Prop) (P : event -> Prop) {A} (Q : A -> Prop)
    (m : M A) : Prop :=
  forall st, I st ->
    I (snd (m st)) /\
    (exists evs, trace (world (snd (m st))) = trace (world st) ++ evs /\ Forall P evs) /\
    (forall a, fst (m st) = Ok a -> Q a).

(** no condition on a returned value *)
Definition any {A} (a : A) : Prop := True.

(** A condition on states that looks neither at the events so far nor
    at the answers still to come. *)
Record stable (I : State -> Prop) : Prop := mkStable {
  stable_emit : forall e st, I st -> I (emit_st e st);
  stable_pending : forall p st, I st -> I (pending_st p st)
}.

(** A condition on states that does not look at the header. *)
Definition header_free (I : State -> Prop) : Prop :=
  forall h st, I st -> I (header_st h st).

(** A condition on states that allows writing to file [name]. *)
Definition allows_write (I : State -> Prop) (name : string) : Prop :=
  forall bytes st, I st -> I (files_st (<[name := bytes]> (files (world st))) st).

(** The seconds the client has slept in [evs]. *)
Fixpoint slept (evs : list event) : Z :=
  match evs with
  | [] => 0
  | EvSleep seconds :: rest => seconds + slept rest
  | _ :: rest => slept rest
  end.

(** anything but sleeping *)
Definition awake (e : event) : Prop :=
  match e with
  | EvSleep _ => False
  | _ => True
  end.

(** A method that keeps [I] and sleeps [n] seconds at most. *)
Definition sleeps_at_most (I : State -> Prop) (n : Z) {A} (m : M A) : Prop :=
  forall st, I st ->
    I (snd (m st)) /\
    exists evs, trace (world (snd (m st))) = trace (world st) ++ evs /\ (slept evs <= n)%Z.

(** The seconds of sleep that timeout [T] still has room for when the
    elapsed-time counter is [w]: five for each round that can start. *)
Definition budget (T w : Z) : Z := Z.max 0 (5 * ((T - w + 4) / 5)).

(** The timeout is [T] and the date is [d]. *)
Definition timeout_is (T : Z) (d : string) (st : State) : Prop :=
  timeout (self st) = T /\ today (world st) = d.

(** File [name] holds [v] and the date is [d]. *)
Definition file_is (name : string) (v : option (list byte)) (d : string) (st : State) : Prop :=
  files (world st) !! name = v /\ today (world st) = d.

(** What [download_surveys] may do for an object that is [s] when the
    method starts: print, write files, and send GET requests under the
    header and the proxy table of [s]; no token exchange, no sleep. *)
Definition survey_event (s : LeanIX) (e : event) : Prop :=
  match e with
  | EvRequest r =>
      rq_method r = "GET" /\ rq_headers r = header s /\ rq_proxies r = proxies s /\
      rq_data r = None /\ rq_stream r = false
  | EvAuth _ _ _ _ => False
  | EvSleep _ => False
  | EvPrint _ | EvOpen _ | EvWrite _ _ => True
  end.

(** The object is [s] and the date is [d]. *)
Definition object_is (s : LeanIX) (d : string) (st : State) : Prop :=
  self st = s /\ today (world st) = d.

(** character [c] occurs in [s] *)
Fixpoint mentions (c : Ascii.ascii) (s : string) : bool :=
  match s with
  | EmptyString => false
  | String c' s' => Ascii.eqb c c' || mentions c s'
  end.

(** the opening brace of the placeholders *)
Definition brace : Ascii.ascii := Eval cbv in Ascii.ascii_of_nat 123.

(** A request, if [e] is one, goes out with the Accept entry of the
    binary download. *)
Definition carries_accept (e : event) : Prop :=
  match e with
  | EvRequest r =>
      exists h, rq_headers r = Some h /\ h !! "Accept" = Some "application/octet-stream"
  | _ => True
  end.

(** Whatever [m] returns satisfies [Q]. *)
Definition returns {A} (Q : A -> Prop) (m : M A) : Prop :=
  forall st a, fst (m st) = Ok a -> Q a.

(** [e] names no file but [name]: neither where it opens or writes one,
    nor where it prints the name of one. *)
Definition names_only (name : string) (e : event) : Prop :=
  match e with
  | EvOpen n | EvWrite n _ => n = name
  | EvPrint (MsgWriting n) | EvPrint (MsgSaved n) => n = name
  | _ => True
  end.

(** The run listing of survey [sv] is requested. *)
Definition runs_request (s : LeanIX) (h : option dict) (ws : string) (sv : Survey) : event :=
  EvRequest (survey_request s h ws (runs_url s (survey_id sv))).

(** ** Examples of answers and states *)

(** A configuration that asks for the proxy. *)
Definition proxy_config : gmap string dict :=
  {[ "MANDATORY" :=
       {[ "HOSTNAME" := "https://eu.leanix.net";
          "APITOKEN" := "secret";
          "HTTP_PROXY" := "http://proxy.example:8080";
          "HTTPS_PROXY" := "http://proxy.example:8443";
          "PROXY_REQUIRED" := "True";
          "WORKSPACEID" := "ws-1" ]};
     "OPTIONAL" :=
       {[ "EXPORT_FILENAME" := "export_{cdate}.xlsx";
          "SURVEY_FILENAME" := "survey_{id}_{run}_{cdate}.xlsx" ]} ]}.

(** A world in which the server will give the answers [script]. *)
Definition world_of (script : list Response) : World :=
  {| pending := script; today := "2024-03-05"; files := ∅; trace := [] |}.

(** A JSON answer with status 200. *)
Definition json_response (v : value) : Response :=
  {| status_code := 200; json_body := Some v; content := [] |}.

Definition token_reply (t : string) : Response :=
  json_response (VDict [("access_token", VStr t)]).

Definition trigger_reply (job_id : string) : Response :=
  json_response (VDict [("data", VDict [("jobId", VStr job_id)])]).

Definition status_reply (status workspace_id : string) : Response :=
  json_response
    (VDict [("data", VDict [("status", VStr status); ("workspaceId", VStr workspace_id);
                            ("processed", VInt 1); ("total", VInt 2)])]).

Definition export_reply (status download_key : string) : Response :=
  json_response
    (VDict [("data", VList [VDict [("status", VStr status);
                                   ("downloadKey", VStr download_key)]])]).

Definition binary_reply (code : Z) (body : list byte) : Response :=
  {| status_code := code; json_body := None; content := body |}.

Definition error_reply (code : Z) : Response :=
  {| status_code := code; json_body := None; content := [] |}.

(** a round in which token [t] is handed out and the job has [status] *)
Definition example_poll (t status : string) : Poll :=
  {| auth_response := token_reply t;
     token := t;
     poll_response := status_reply status "ws-1";
     job_status := VStr status;
     workspace := VStr "ws-1";
     processed := VInt 1;
     total := VInt 2 |}.

(** the object [__init__] builds from [proxy_config] *)
Definition example_self : LeanIX :=
  {| config := proxy_config;
     instance := "https://eu.leanix.net";
     base_path := "/services/pathfinder/v1";
     poll_url := "/services/poll/v2";
     apitoken := "secret";
     header := None;
     timeout := 7200;
     proxies := None |}.

(** that object after a first [connect] has obtained token [t0], facing
    a server that will answer with [script] *)
Definition example_state (script : list Response) : State :=
  {| self := with_header (Some (bearer_header "t0")) example_self;
     world := world_of script |}.

(** answers that take [take_snapshot] to the binary download, to which
    the server answers [binary] *)
Definition download_script (binary : Response) (rest : list Response) : list Response :=
  trigger_reply "job-1" ::
  poll_script ([example_poll "t1" "RUNNING"] ++ [example_poll "t2" "DONE"]) ++
  export_reply "COMPLETED" "key-1" :: binary :: rest.

(** a listing of the surveys, or of the runs of a survey, with the
    given ids *)
Definition ids_reply (ids : list string) : Response :=
  json_response (VDict [("data", VList (map (fun i => VDict [("id", VStr i)]) ids))]).

(** Survey S1 with its one run R9 has been downloaded, and so has run
    R1 of survey S2; the result of run R2 of S2 is refused; survey S3
    is never reached. *)
Definition example_failure : survey_failure :=
  ResultFails (ids_reply ["S1"; "S2"; "S3"])
    [{| survey_id := "S1";
        runs_response := ids_reply ["R9"];
        results := [("R9", binary_reply 200 [x50; x4b])] |}]
    "S2" ["S3"]
    (ids_reply ["R1"; "R2"; "R3"])
    [("R1", binary_reply 200 [x51])] "R2" ["R3"].

(** the state of [example_state] for an object whose configuration is
    [cfg] *)
Definition configured_state (cfg : gmap string dict) (script : list Response) : State :=
  {| self := {| config := cfg;
                instance := "https://eu.leanix.net";
                base_path := "/services/pathfinder/v1";
                poll_url := "/services/poll/v2";
                apitoken := "secret";
                header := Some (bearer_header "t0");
                timeout := 7200;
                proxies := None |};
     world := world_of script |}.

(** a round in which the job is done and the workspace id is a number *)
Definition numeric_workspace_poll : Poll :=
  {| auth_response := token_reply "t2";
     token := "t2";
     poll_response :=
       json_response
         (VDict [("data", VDict [("status", VStr "DONE"); ("workspaceId", VInt 7);
                                 ("processed", VInt 2); ("total", VInt 2)])]);
     job_status := VStr "DONE";
     workspace := VInt 7;
     processed := VInt 2;
     total := VInt 2 |}.

(** an export listing without entries *)
Definition empty_listing_reply : Response := json_response (VDict [("data", VList [])]).

(** survey S1 with its one run R9 *)
Definition example_survey : Survey :=
  {| survey_id := "S1";
     runs_response := ids_reply ["R9"];
     results := [("R9", binary_reply 200 [x50; x4b])] |}.


(** the configuration [proxy_config] without the option WORKSPACEID *)
Definition no_workspace_config : gmap string dict :=
  {[ "MANDATORY" :=
       {[ "HOSTNAME" := "https://eu.leanix.net";
          "APITOKEN" := "secret";
          "HTTP_PROXY" := "http://proxy.example:8080";
          "HTTPS_PROXY" := "http://proxy.example:8443";
          "PROXY_REQUIRED" := "True" ]};
     "OPTIONAL" :=
       {[ "EXPORT_FILENAME" := "export_{cdate}.xlsx";
          "SURVEY_FILENAME" := "survey_{id}_{run}_{cdate}.xlsx" ]} ]}.

(** a survey for which the server lists no run *)
Definition runless_survey (sid : string) : Survey :=
  {| survey_id := sid; runs_response := ids_reply []; results := [] |}.

(** * Properties *)

(** ** Running the monad *)

Lemma bind_Ok {A B} (m : M A) (k : A -> M B) st a st' :
  m st = (Ok a, st') -> bind m k st = k a st'.
Proof. intros H. unfold bind. now rewrite H. Qed.

Lemma bind_Raise {A B} (m : M A) (k : A -> M B) st e st' :
  m st = (Raise e, st') -> bind m k st = (Raise e, st').
Proof. intros H. unfold bind. now rewrite H. Qed.

Lemma bind_lift_Ok {A B} (o : outcome A) (k : A -> M B) st a :
  o = Ok a -> bind (lift o) k st = k a st.
Proof. intros ->. reflexivity. Qed.

Lemma bind_lift_Raise {A B} (o : outcome A) (k : A -> M B) st e :
  o = Raise e -> bind (lift o) k st = (Raise e, st).
Proof. intros ->. reflexivity. Qed.

(** ** The gateway *)

Lemma supported_cases method :
  supported method = true <-> method = "GET" \/ method = "POST" \/ method = "PUT".
Proof.
  unfold supported. rewrite !orb_true_iff, !String.eqb_eq. tauto.
Qed.

(** On a supported method the gateway is one [requests] call followed
    by [raise_for_status]. *)
Lemma access_supported url method data params stream st :
  supported method = true ->
  access_leanix_api url method data params stream st =
  (r <- requests_call method url (header (self st)) (proxies (self st)) params data stream ;;
   raise_for_status r ;;; ret r)%py st.
Proof.
  intros H. apply supported_cases in H.
  destruct H as [-> | [-> | ->]]; unfold access_leanix_api, bind, get_self;
    cbn -[requests_call raise_for_status ret];
    destruct (requests_call _ _ _ _ _ _ _ st) as [[r | e |] st']; reflexivity.
Qed.

Lemma access_unsupported url method data params stream st :
  supported method = false ->
  access_leanix_api url method data params stream st = (Raise AttributeError, st).
Proof.
  unfold supported. rewrite !orb_false_iff. intros [[H1 H2] H3].
  unfold access_leanix_api, bind, get_self. now rewrite H1, H2, H3.
Qed.

Lemma access_ok url method data params stream st r rest :
  supported method = true ->
  pending (world st) = r :: rest ->
  is_error r = false ->
  access_leanix_api url method data params stream st =
  (Ok r, pending_st rest
           (emit_st (EvRequest (request_of (header (self st)) (proxies (self st))
                                  method url data params stream)) st)).
Proof.
  intros Hm Hp He. rewrite access_supported by assumption.
  unfold bind, requests_call, emit, receive, raise_for_status. cbn.
  now rewrite Hp, He.
Qed.

Lemma access_error url method data params stream st r rest :
  supported method = true ->
  pending (world st) = r :: rest ->
  is_error r = true ->
  access_leanix_api url method data params stream st =
  (Raise (HTTPError (status_code r)),
   pending_st rest
     (emit_st (EvRequest (request_of (header (self st)) (proxies (self st))
                            method url data params stream)) st)).
Proof.
  intros Hm Hp He. rewrite access_supported by assumption.
  unfold bind, requests_call, emit, receive, raise_for_status. cbn.
  now rewrite Hp, He.
Qed.

(** Whatever the server answers, a supported call puts exactly one
    request on the wire, carrying the object's current header and proxy
    table. *)
Lemma access_trace url method data params stream st :
  supported method = true ->
  trace (world (snd (access_leanix_api url method data params stream st))) =
  trace (world st) ++
  [EvRequest (request_of (header (self st)) (proxies (self st)) method url data params stream)].
Proof.
  intros Hm. rewrite access_supported by assumption.
  unfold bind, requests_call, emit, receive, raise_for_status. cbn.
  destruct (pending (world st)) as [| r rest]; [reflexivity |].
  destruct (is_error r); reflexivity.
Qed.

(** ** Reading responses *)

Lemma field_inv r k v :
  field r k = Ok v -> exists b, json r = Ok b /\ py_getitem b k = Ok v.
Proof.
  unfold field, obind. destruct (json r) as [b | |]; try discriminate. eauto.
Qed.

Lemma field2_inv r k1 k2 v :
  field2 r k1 k2 = Ok v ->
  exists b, json r = Ok b /\ (d <~ py_getitem b k1 ;; py_getitem d k2)%py = Ok v.
Proof.
  unfold field2. unfold obind at 1. destruct (json r) as [b | |]; try discriminate. eauto.
Qed.

Lemma field_first_inv r k1 k2 v :
  field_first r k1 k2 = Ok v ->
  exists b, json r = Ok b /\
            (d <~ py_getitem b k1 ;; e <~ py_getitem0 d ;; py_getitem e k2)%py = Ok v.
Proof.
  unfold field_first. unfold obind at 1. destruct (json r) as [b | |]; try discriminate. eauto.
Qed.

(** Code without state never meets the bound of the loop. *)
Create HintDb steady.

Lemma defined_Ok {A} (a : A) : defined (Ok a).
Proof. discriminate. Qed.

Lemma defined_Raise {A} e : defined (@Raise A e).
Proof. discriminate. Qed.

Lemma defined_obind {A B} (o : outcome A) (k : A -> outcome B) :
  defined o -> (forall a, defined (k a)) -> defined (obind o k).
Proof. intros Ho Hk. destruct o; [apply Hk | discriminate | contradiction]. Qed.

Lemma defined_py_getitem v k : defined (py_getitem v k).
Proof. destruct v; try discriminate. cbn. destruct (assoc k kvs); discriminate. Qed.

Lemma defined_py_getitem0 v : defined (py_getitem0 v).
Proof. destruct v as [| | | [|] | [|] |]; discriminate. Qed.

Lemma defined_py_iter v : defined (py_iter v).
Proof. destruct v; discriminate. Qed.

Lemma defined_py_str_add s v : defined (py_str_add s v).
Proof. destruct v; discriminate. Qed.

Lemma defined_json r : defined (json r).
Proof. unfold json. destruct (json_body r); discriminate. Qed.

Lemma defined_config_get cfg section key : defined (config_get cfg section key).
Proof.
  unfold config_get. destruct (cfg !! section) as [sec |]; [| discriminate].
  destruct (sec !! key); discriminate.
Qed.

Lemma defined_comprehension {A B} (f : A -> outcome B) l :
  (forall a, defined (f a)) -> defined (comprehension f l).
Proof.
  intros Hf. induction l as [| x l IH]; [discriminate |].
  cbn [comprehension]. apply defined_obind; [apply Hf |]. intros y.
  apply defined_obind; [exact IH | discriminate].
Qed.

#[local] Hint Resolve defined_Ok defined_Raise defined_py_getitem defined_py_getitem0
  defined_py_iter defined_py_str_add defined_json defined_config_get : steady.

(** ** [connect] *)

Lemma connect_ok st r rest t :
  pending (world st) = r :: rest ->
  token_response r t ->
  connect st =
  (Ok tt, header_st (Some (bearer_header t))
            (pending_st rest (emit_st (auth_event (self st)) st))).
Proof.
  intros Hp [He Hf]. apply field_inv in Hf as (b & Hj & Hg).
  unfold connect, bind, get_self, emit, receive, raise_for_status, lift, set_header.
  cbn [self world pending emit_st with_event]. rewrite Hp, He. cbn [ret].
  rewrite Hj, Hg. reflexivity.
Qed.

Lemma connect_error st r rest :
  pending (world st) = r :: rest ->
  is_error r = true ->
  connect st =
  (Raise (HTTPError (status_code r)), pending_st rest (emit_st (auth_event (self st)) st)).
Proof.
  intros Hp He.
  unfold connect, bind, get_self, emit, receive, raise_for_status.
  cbn [self world pending emit_st with_event]. rewrite Hp, He. reflexivity.
Qed.

(** ** States in canonical form *)

Lemma evolved_id st :
  evolved (header (self st)) (pending (world st)) (files (world st)) [] st = st.
Proof.
  destruct st as [s w]. destruct s, w. unfold evolved, with_header. cbn.
  now rewrite app_nil_r.
Qed.

Section Canonical.
Context (h : option dict) (rest : list Response) (f : gmap string (list byte))
        (evs : list event) (st : State).

Lemma emit_evolved e :
  emit e (evolved h rest f evs st) = (Ok tt, evolved h rest f (evs ++ [e]) st).
Proof. unfold emit, emit_st, evolved, with_event. cbn. now rewrite <- app_assoc. Qed.

Lemma print_evolved m :
  print m (evolved h rest f evs st) = (Ok tt, evolved h rest f (evs ++ [EvPrint m]) st).
Proof. apply emit_evolved. Qed.

Lemma sleep_evolved n :
  sleep n (evolved h rest f evs st) = (Ok tt, evolved h rest f (evs ++ [EvSleep n]) st).
Proof. apply emit_evolved. Qed.

Lemma set_header_evolved h' :
  set_header h' (evolved h rest f evs st) = (Ok tt, evolved h' rest f evs st).
Proof. reflexivity. Qed.

Lemma get_self_evolved :
  get_self (evolved h rest f evs st) =
  (Ok (with_header h (self st)), evolved h rest f evs st).
Proof. reflexivity. Qed.

Lemma get_today_date_evolved :
  get_today_date (evolved h rest f evs st) =
  (Ok (today (world st)), evolved h rest f evs st).
Proof. reflexivity. Qed.

Lemma open_wb_evolved name :
  open_wb name (evolved h rest f evs st) =
  (Ok tt, evolved h rest (<[name := []]> f) (evs ++ [EvOpen name]) st).
Proof.
  unfold open_wb, emit_st, files_st, evolved, with_event, with_files.
  cbn [self world pending today files trace]. now rewrite <- app_assoc.
Qed.

Lemma file_write_evolved name chunk :
  file_write name chunk (evolved h rest f evs st) =
  (Ok tt, evolved h rest (<[name := default [] (f !! name) ++ chunk]> f)
            (evs ++ [EvWrite name chunk]) st).
Proof.
  unfold file_write, emit_st, files_st, evolved, with_event, with_files.
  cbn [self world pending today files trace]. now rewrite <- app_assoc.
Qed.
End Canonical.

Lemma connect_evolved h r rest f evs st t :
  token_response r t ->
  connect (evolved h (r :: rest) f evs st) =
  (Ok tt, evolved (Some (bearer_header t)) rest f (evs ++ [auth_event (self st)]) st).
Proof.
  intros Ht. erewrite connect_ok; [| reflexivity | exact Ht].
  unfold header_st, pending_st, emit_st, evolved, with_event, with_pending, with_header.
  cbn [self world pending today files trace]. now rewrite <- app_assoc.
Qed.

Lemma access_evolved_ok url method data params stream h r rest f evs st :
  supported method = true ->
  is_error r = false ->
  access_leanix_api url method data params stream (evolved h (r :: rest) f evs st) =
  (Ok r, evolved h rest f
           (evs ++ [EvRequest (request_of h (proxies (self st)) method url data params stream)])
           st).
Proof.
  intros Hm He. erewrite access_ok; [| exact Hm | reflexivity | exact He].
  unfold pending_st, emit_st, evolved, with_event, with_pending.
  cbn [self world pending today files trace]. now rewrite <- app_assoc.
Qed.

Lemma access_evolved_error url method data params stream h r rest f evs st :
  supported method = true ->
  is_error r = true ->
  access_leanix_api url method data params stream (evolved h (r :: rest) f evs st) =
  (Raise (HTTPError (status_code r)),
   evolved h rest f
     (evs ++ [EvRequest (request_of h (proxies (self st)) method url data params stream)])
     st).
Proof.
  intros Hm He. erewrite access_error; [| exact Hm | reflexivity | exact He].
  unfold pending_st, emit_st, evolved, with_event, with_pending.
  cbn [self world pending today files trace]. now rewrite <- app_assoc.
Qed.

(** ** The examples are what they are meant to be *)

Lemma example_self_init : __init__ proxy_config = Ok example_self.
Proof. vm_compute. reflexivity. Qed.

Lemma example_poll_ok t status : poll_ok (example_poll t status).
Proof. unfold poll_ok, token_response. repeat split. Defined.

Lemma example_poll_not_done t : not_done (example_poll t "RUNNING").
Proof. reflexivity. Defined.

Lemma example_poll_done t : done (example_poll t "DONE").
Proof. reflexivity. Defined.

Lemma trigger_reply_ok job_id : trigger_response (trigger_reply job_id) job_id.
Proof. split; reflexivity. Defined.

Lemma export_reply_ok status key :
  export_response (export_reply status key) (VStr status) (VStr key).
Proof. repeat split. Defined.

Lemma example_rounds :
  rounds 7200 [example_poll "t1" "RUNNING"] (example_poll "t2" "DONE").
Proof.
  split; [| split].
  - repeat constructor; apply example_poll_ok.
  - repeat constructor.
  - reflexivity.
Defined.

Lemma example_reaches_download binary rest :
  reaches_download (example_state (download_script binary rest)) "job-1"
    [example_poll "t1" "RUNNING"] (example_poll "t2" "DONE") "ws-1" (VStr "key-1")
    binary rest.
Proof.
  exists (trigger_reply "job-1"), (export_reply "COMPLETED" "key-1").
  split; [reflexivity |]. split; [apply trigger_reply_ok |].
  split; [apply example_rounds |]. split; [apply example_poll_done |].
  split; [reflexivity |]. split; [reflexivity | apply export_reply_ok].
Defined.

Lemma ids_reply_ok ids : listing_response (ids_reply ids) ids.
Proof.
  split; [reflexivity |]. unfold ids_of, ids_reply, json_response.
  cbn [json json_body obind py_getitem assoc String.eqb Ascii.eqb Bool.eqb py_iter].
  induction ids as [| i ids IH]; [reflexivity |].
  cbn [map comprehension obind py_getitem assoc String.eqb Ascii.eqb Bool.eqb].
  now rewrite IH.
Defined.

Lemma configured_reaches_download cfg binary rest :
  reaches_download (configured_state cfg (download_script binary rest)) "job-1"
    [example_poll "t1" "RUNNING"] (example_poll "t2" "DONE") "ws-1" (VStr "key-1")
    binary rest.
Proof.
  exists (trigger_reply "job-1"), (export_reply "COMPLETED" "key-1").
  split; [reflexivity |]. split; [apply trigger_reply_ok |].
  split; [apply example_rounds |]. split; [apply example_poll_done |].
  split; [reflexivity |]. split; [reflexivity | apply export_reply_ok].
Defined.

Lemma example_survey_ok : survey_ok example_survey.
Proof. split; [apply (ids_reply_ok ["R9"]) | repeat constructor]. Defined.

Lemma numeric_workspace_poll_ok : poll_ok numeric_workspace_poll.
Proof. unfold poll_ok, token_response. repeat split. Defined.

Lemma example_failure_ok : failure_ok example_failure.
Proof.
  split; [apply (ids_reply_ok ["S1"; "S2"; "S3"]) |].
  split; [| split].
  - repeat constructor.
  - apply (ids_reply_ok ["R1"; "R2"; "R3"]).
  - repeat constructor.
Defined.

(** ** The proxy table *)

(** The constructor compares a configuration string with [True] by
    identity, so no configuration yields a proxy table. *)
Lemma init_proxies_None cfg o : __init__ cfg = Ok o -> proxies o = None.
Proof.
  unfold __init__, obind.
  repeat match goal with
         | |- context [config_get ?c ?s ?k] => destruct (config_get c s k)
         end; try discriminate.
  intros [= <-]. reflexivity.
Qed.

(** C1 (the code departs from the claim).  With [PROXY_REQUIRED = True]
    in the configuration, the client logs in and sends one request: the
    request carries the bearer token just obtained, but neither it nor
    the login carries the configured proxies. *)
Theorem C1_proxy_flag_set_but_no_proxies :
  exists o,
    __init__ proxy_config = Ok o /\
    trace (world (snd ((connect ;;;
                        access_leanix_api "https://eu.leanix.net/x" "GET" None [] false)%py
                         {| self := o;
                            world := world_of
                              [json_response (VDict [("access_token", VStr "abc")]);
                               json_response VNone] |}))) =
    [EvAuth "https://eu.leanix.net/services/mtm/v1/oauth2/token" "apitoken" "secret" None;
     EvRequest {| rq_method := "GET"; rq_url := "https://eu.leanix.net/x";
                  rq_headers := Some {["Authorization" := "Bearer abc"]};
                  rq_proxies := None; rq_params := []; rq_data := None;
                  rq_stream := false |}].
Proof.
  eexists. split; [vm_compute; reflexivity |]. vm_compute. reflexivity.
Qed.

(** ** The method argument of the gateway *)

(** C10.  [access_leanix_api] ends in the [AttributeError] of
    [None.raise_for_status()] exactly when its method is none of GET,
    POST and PUT; in that case nothing was sent and the state is as
    before, and otherwise exactly one request was sent. *)
Theorem C10_method_precondition url method data params stream st :
  let run := access_leanix_api url method data params stream st in
  (fst run = Raise AttributeError <->
   ~ (method = "GET" \/ method = "POST" \/ method = "PUT")) /\
  (~ (method = "GET" \/ method = "POST" \/ method = "PUT") ->
   run = (Raise AttributeError, st)) /\
  (method = "GET" \/ method = "POST" \/ method = "PUT" ->
   trace (world (snd run)) =
   trace (world st) ++
   [EvRequest (request_of (header (self st)) (proxies (self st))
                 method url data params stream)]).
Proof.
  cbn zeta. rewrite <- supported_cases.
  destruct (supported method) eqn:Hm.
  - split; [| split].
    + split; [| intros H; now destruct H].
      rewrite access_supported by assumption.
      unfold bind, requests_call, emit, receive, raise_for_status. cbn.
      destruct (pending (world st)) as [| r rest]; [discriminate |].
      destruct (is_error r); discriminate.
    + intros H. now destruct H.
    + intros _. now apply access_trace.
  - rewrite access_unsupported by assumption.
    split; [| split].
    + split; [intros _ H; discriminate | reflexivity].
    + reflexivity.
    + discriminate.
Qed.

Lemma C10_method_precondition_witness :
  access_leanix_api "https://eu.leanix.net/x" "DELETE" None [] false
    {| self := with_header None (mkLeanIX ∅ "https://eu.leanix.net" "" "" "" None 7200 None);
       world := world_of [json_response VNone] |} =
  (Raise AttributeError,
   {| self := with_header None (mkLeanIX ∅ "https://eu.leanix.net" "" "" "" None 7200 None);
      world := world_of [json_response VNone] |}).
Proof.
  apply (C10_method_precondition "https://eu.leanix.net/x" "DELETE" None [] false).
  intros [H | [H | H]]; discriminate H.
Defined.

(** ** The poll loop *)

Lemma poll_loop_exit fuel url status w ws st :
  py_ne_str status "DONE" && (w <? timeout (self st))%Z = false ->
  poll_loop fuel url status w ws st = (Ok (status, w, ws), st).
Proof.
  intros H. destruct fuel; cbn [poll_loop]; unfold bind, get_self; now rewrite H.
Qed.

Lemma poll_loop_step fuel url status w ws h rest f evs st p :
  poll_ok p ->
  py_ne_str status "DONE" = true ->
  (w < timeout (self st))%Z ->
  poll_loop (S fuel) url status w ws
    (evolved h (auth_response p :: poll_response p :: rest) f evs st) =
  poll_loop fuel url (job_status p) (w + 5) (workspace p)
    (evolved (Some (bearer_header (token p))) rest f
       (evs ++ poll_events (self st) url p) st).
Proof.
  intros (Ht & He & Hs & Hw & Hpr & Hto) Hnd Hlt.
  apply field2_inv in Hs as (b & Hj & Hs).
  apply field2_inv in Hw as (b' & Hj' & Hw). rewrite Hj in Hj'. injection Hj' as <-.
  apply field2_inv in Hpr as (b' & Hj' & Hpr). rewrite Hj in Hj'. injection Hj' as <-.
  apply field2_inv in Hto as (b' & Hj' & Hto). rewrite Hj in Hj'. injection Hj' as <-.
  cbn [poll_loop]. rewrite (bind_Ok _ _ _ _ _ (get_self_evolved _ _ _ _ _)).
  cbn [timeout with_header]. rewrite Hnd. apply Z.ltb_lt in Hlt as ->. cbn [andb].
  rewrite (bind_Ok _ _ _ _ _ (connect_evolved _ _ _ _ _ _ _ Ht)).
  erewrite bind_Ok by (apply access_evolved_ok; [reflexivity | exact He]).
  rewrite (bind_lift_Ok _ _ _ _ Hj).
  rewrite (bind_lift_Ok _ _ _ _ Hs), (bind_lift_Ok _ _ _ _ Hw),
          (bind_lift_Ok _ _ _ _ Hpr), (bind_lift_Ok _ _ _ _ Hto).
  rewrite (bind_Ok _ _ _ _ _ (print_evolved _ _ _ _ _ _)).
  rewrite (bind_Ok _ _ _ _ _ (sleep_evolved _ _ _ _ _ _)).
  rewrite <- !app_assoc. reflexivity.
Qed.

Lemma poll_loop_run ps : forall fuel url status w ws h rest f evs st,
  Forall poll_ok ps ->
  Forall not_done ps ->
  py_ne_str status "DONE" = true ->
  (w + 5 * Z.of_nat (length ps) < timeout (self st) + 5)%Z ->
  poll_loop (length ps + fuel) url status w ws (evolved h (poll_script ps ++ rest) f evs st) =
  poll_loop fuel url (status_after status ps) (w + 5 * Z.of_nat (length ps))
    (workspace_after ws ps)
    (evolved (header_after h ps) rest f (evs ++ flat_map (poll_events (self st) url) ps) st).
Proof.
  induction ps as [| p ps IH]; intros fuel url status w ws h rest f evs st Hok Hnd Hst Hw.
  - cbn [length Nat.add status_after workspace_after header_after fold_left flat_map
         poll_script app].
    rewrite app_nil_r. replace (w + 5 * Z.of_nat 0)%Z with w by lia. reflexivity.
  - inversion Hok as [| ? ? Hp1 Hok']; subst. inversion Hnd as [| ? ? Hn1 Hnd']; subst.
    cbn [length] in Hw.
    cbn [length Nat.add poll_script flat_map app].
    rewrite poll_loop_step; [| assumption | assumption | lia].
    fold (poll_script ps).
    rewrite IH; [| assumption | assumption | assumption | lia].
    cbn [status_after workspace_after header_after fold_left].
    rewrite <- app_assoc.
    replace (w + 5 + 5 * Z.of_nat (length ps))%Z with (w + 5 * Z.of_nat (S (length ps)))%Z by lia.
    reflexivity.
Qed.

Lemma status_after_not_done ps : forall status,
  Forall not_done ps ->
  py_ne_str status "DONE" = true ->
  py_ne_str (status_after status ps) "DONE" = true.
Proof.
  induction ps as [| p ps IH]; intros status Hnd Hs; [exact Hs |].
  inversion Hnd; subst. cbn [status_after fold_left]. now apply IH.
Qed.

Lemma status_after_last pre p status : status_after status (pre ++ [p]) = job_status p.
Proof. unfold status_after. now rewrite fold_left_app. Qed.

Lemma workspace_after_last pre p ws : workspace_after ws (pre ++ [p]) = workspace p.
Proof. unfold workspace_after. now rewrite fold_left_app. Qed.

Lemma header_after_last pre p h :
  header_after h (pre ++ [p]) = Some (bearer_header (token p)).
Proof. unfold header_after. now rewrite fold_left_app. Qed.

Lemma poll_script_app ps qs : poll_script (ps ++ qs) = poll_script ps ++ poll_script qs.
Proof. unfold poll_script. now rewrite flat_map_app. Qed.

(** The loop ends after round [p] when that round reports the job done
    or the counter has reached the timeout by then. *)
Lemma poll_loop_end fuel url h rest f evs st pre p :
  rounds (timeout (self st)) pre p ->
  done p \/ (timeout (self st) <= waited (length pre + 1))%Z ->
  poll_loop (length pre + 1 + fuel) url VNone 0 VNone
    (evolved h (poll_script (pre ++ [p]) ++ rest) f evs st) =
  (Ok (job_status p, waited (length pre + 1), workspace p),
   evolved (Some (bearer_header (token p))) rest f
     (evs ++ flat_map (poll_events (self st) url) (pre ++ [p])) st).
Proof.
  intros (Hok & Hnd & Hlt) Hend.
  apply Forall_app in Hok as [Hpre Hp]. inversion Hp as [| ? ? Hp1 _]; subst.
  rewrite poll_script_app, <- app_assoc, <- Nat.add_assoc.
  rewrite poll_loop_run; [| assumption | assumption | reflexivity | lia].
  cbn [poll_script flat_map app Nat.add].
  rewrite poll_loop_step;
    [| assumption | now apply status_after_not_done | lia].
  rewrite poll_loop_exit.
  - rewrite flat_map_app, <- app_assoc. cbn [flat_map]. rewrite app_nil_r.
    unfold waited. repeat f_equal. lia.
  - cbn [self evolved timeout with_header]. unfold waited in Hend.
    destruct Hend as [Hd | Ht].
    + unfold done in Hd. now rewrite Hd.
    + apply andb_false_iff. right. apply Z.ltb_ge. lia.
Qed.

(** ** [take_snapshot] up to the end of its loop *)

Lemma emit_st_canonical e st :
  emit_st e st = evolved (header (self st)) (pending (world st)) (files (world st)) [e] st.
Proof.
  destruct st as [s w]. destruct s, w. reflexivity.
Qed.

Lemma trigger_export_evolved s h r rest f evs st job_id :
  trigger_response r job_id ->
  trigger_export s (evolved h (r :: rest) f evs st) =
  (Ok (status_check_url s job_id),
   evolved h rest f
     (evs ++ [EvRequest (request_of h (proxies (self st)) "POST" (trigger_url s) None
                           [("exportType", VStr "SNAPSHOT")] false);
              EvPrint (MsgJobId (VStr job_id));
              EvPrint MsgWaiting]) st).
Proof.
  intros [He Hf]. apply field2_inv in Hf as (b & Hj & Hf).
  unfold trigger_export.
  erewrite bind_Ok by (apply access_evolved_ok; [reflexivity | exact He]).
  rewrite (bind_lift_Ok _ _ _ _ Hj), (bind_lift_Ok _ _ _ _ Hf).
  rewrite (bind_Ok _ _ _ _ _ (print_evolved _ _ _ _ _ _)).
  rewrite (bind_Ok _ _ _ _ _ (print_evolved _ _ _ _ _ _)).
  rewrite <- !app_assoc. reflexivity.
Qed.

Lemma poll_fuel_enough s n :
  (5 * Z.of_nat n < timeout s)%Z -> exists fuel, poll_fuel s = n + 1 + fuel.
Proof.
  intros H. exists (poll_fuel s - (n + 1)).
  assert (n + 1 <= poll_fuel s); [| lia].
  unfold poll_fuel.
  assert (Z.of_nat n + 1 <= (timeout s + 4) / 5)%Z; [| lia].
  apply Z.div_le_lower_bound; lia.
Qed.

(** [take_snapshot] up to the end of its loop. *)
Lemma take_snapshot_polled st r rest job_id pre p :
  pending (world st) = r :: poll_script (pre ++ [p]) ++ rest ->
  trigger_response r job_id ->
  rounds (timeout (self st)) pre p ->
  done p \/ (timeout (self st) <= waited (length pre + 1))%Z ->
  take_snapshot st =
  (if (waited (length pre + 1) >=? timeout (self st))%Z then
     print MsgTimeoutExceeded ;;; ret (VBool false)
   else request_download_key (self st) (workspace p))%py
    (evolved (Some (bearer_header (token p))) rest (files (world st))
       (trigger_events (self st) (header (self st)) job_id ++
        flat_map (poll_events (self st) (status_check_url (self st) job_id)) (pre ++ [p]))
       st).
Proof.
  intros Hp Ht Hr Hend.
  destruct (poll_fuel_enough (self st) (length pre)) as [fuel Hfuel]; [apply Hr |].
  unfold take_snapshot.
  unfold bind at 1, print at 1, emit at 1. unfold bind at 1, get_self at 1.
  replace (self (emit_st (EvPrint MsgCreatingSnapshot) st)) with (self st) by reflexivity.
  rewrite emit_st_canonical, Hp.
  rewrite (bind_Ok _ _ _ _ _ (trigger_export_evolved _ _ _ _ _ _ _ _ Ht)).
  rewrite Hfuel.
  rewrite (bind_Ok _ _ _ _ _ (poll_loop_end _ _ _ _ _ _ _ _ _ Hr Hend)).
  reflexivity.
Qed.

(** ** Order of token exchange and status poll *)

Lemma poll_events_lookup s url ps : forall n q,
  ps !! n = Some q ->
  flat_map (poll_events s url) ps !! (4 * n) = Some (auth_event s) /\
  flat_map (poll_events s url) ps !! (4 * n + 1) =
  Some (EvRequest (request_of (Some (bearer_header (token q))) (proxies s)
                     "GET" url None [] false)).
Proof.
  induction ps as [| p ps IH]; intros n q Hq; [discriminate |].
  destruct n as [| n].
  - injection Hq as ->. split; reflexivity.
  - replace (4 * S n) with (S (S (S (S (4 * n))))) by lia.
    cbn [flat_map poll_events app Nat.add lookup list_lookup].
    apply (IH n q Hq).
Qed.

(** C8.  In the poll loop as [take_snapshot] runs it, round by round:
    the events of round [n] begin with the token exchange, and the very
    next event is the status request, whose header carries the token
    handed out in that round's exchange. *)
Theorem C8_reauth_precedes_each_poll url st pre p rest :
  pending (world st) = poll_script (pre ++ [p]) ++ rest ->
  rounds (timeout (self st)) pre p ->
  done p \/ (timeout (self st) <= waited (length pre + 1))%Z ->
  let final := snd (poll_loop (poll_fuel (self st)) url VNone 0 VNone st) in
  let during := flat_map (poll_events (self st) url) (pre ++ [p]) in
  trace (world final) = trace (world st) ++ during /\
  forall n q,
    (pre ++ [p]) !! n = Some q ->
    token_response (auth_response q) (token q) /\
    during !! (4 * n) = Some (auth_event (self st)) /\
    during !! (4 * n + 1) =
    Some (EvRequest (request_of (Some (bearer_header (token q))) (proxies (self st))
                       "GET" url None [] false)).
Proof.
  intros Hp Hr Hend final during.
  destruct (poll_fuel_enough (self st) (length pre)) as [fuel Hfuel]; [apply Hr |].
  split.
  - subst final. rewrite <- (evolved_id st) at 2. rewrite Hfuel, Hp.
    rewrite (poll_loop_end _ _ _ _ _ _ _ _ _ Hr Hend). reflexivity.
  - intros n q Hq. split.
    + destruct Hr as (Hok & _). rewrite Forall_lookup in Hok. apply (Hok n q Hq).
    + apply poll_events_lookup, Hq.
Qed.

Lemma C8_reauth_precedes_each_poll_witness :
  trace (world (snd (poll_loop (poll_fuel example_self)
                       (status_check_url example_self "job-1") VNone 0 VNone
                       (example_state (poll_script ([example_poll "t1" "RUNNING"] ++
                                                    [example_poll "t2" "DONE"]) ++ []))))) =
  [] ++ flat_map (poll_events example_self (status_check_url example_self "job-1"))
          ([example_poll "t1" "RUNNING"] ++ [example_poll "t2" "DONE"]).
Proof.
  apply (C8_reauth_precedes_each_poll (status_check_url example_self "job-1")
           (example_state (poll_script ([example_poll "t1" "RUNNING"] ++
                                        [example_poll "t2" "DONE"]) ++ []))
           [example_poll "t1" "RUNNING"] (example_poll "t2" "DONE") []).
  - reflexivity.
  - split; [| split].
    + repeat constructor; apply example_poll_ok.
    + repeat constructor.
    + reflexivity.
  - left. apply example_poll_done.
Defined.

(** ** The metadata lookup *)

Lemma request_download_key_error h r rest f evs st ws :
  is_error r = true ->
  request_download_key (self st) ws (evolved h (r :: rest) f evs st) =
  (Raise (HTTPError (status_code r)),
   evolved h rest f (evs ++ [EvRequest (lookup_request (self st) h)]) st).
Proof.
  intros He. unfold request_download_key. cbv zeta.
  erewrite bind_Raise by (apply access_evolved_error; [reflexivity | exact He]).
  reflexivity.
Qed.

Lemma request_download_key_read h r rest f evs st ws status key :
  export_response r status key ->
  request_download_key (self st) ws (evolved h (r :: rest) f evs st) =
  (if py_ne_str status "COMPLETED"
   then print (MsgNotCompleted status) ;;; ret (VBool false)
   else request_and_store_data (self st) ws key)%py
    (evolved h rest f (evs ++ [EvRequest (lookup_request (self st) h)]) st).
Proof.
  intros (He & Hs & Hk).
  apply field_first_inv in Hs as (b & Hj & Hs).
  apply field_first_inv in Hk as (b' & Hj' & Hk). rewrite Hj in Hj'. injection Hj' as <-.
  unfold request_download_key. cbv zeta.
  erewrite bind_Ok by (apply access_evolved_ok; [reflexivity | exact He]).
  rewrite (bind_lift_Ok _ _ _ _ Hj), (bind_lift_Ok _ _ _ _ Hs), (bind_lift_Ok _ _ _ _ Hk).
  reflexivity.
Qed.

Lemma request_download_key_not_completed h r rest f evs st ws status key :
  export_response r status key ->
  py_ne_str status "COMPLETED" = true ->
  request_download_key (self st) ws (evolved h (r :: rest) f evs st) =
  (Ok (VBool false),
   evolved h rest f
     (evs ++ [EvRequest (lookup_request (self st) h); EvPrint (MsgNotCompleted status)]) st).
Proof.
  intros Hr Hs. rewrite (request_download_key_read _ _ _ _ _ _ _ _ _ Hr), Hs.
  rewrite (bind_Ok _ _ _ _ _ (print_evolved _ _ _ _ _ _)).
  rewrite <- app_assoc. reflexivity.
Qed.

(** ** Outcomes of [take_snapshot] *)

Lemma nonempty_snoc {A} (l : list A) : 0 < length l -> exists pre x, l = pre ++ [x].
Proof.
  destruct l as [| a l] using rev_ind; [cbn; lia |]. eauto.
Qed.

(** When the counter has reached the timeout after the last round, the
    method gives up, whatever that round reported. *)
Lemma take_snapshot_gives_up st r rest job_id pre p :
  pending (world st) = r :: poll_script (pre ++ [p]) ++ rest ->
  trigger_response r job_id ->
  rounds (timeout (self st)) pre p ->
  (timeout (self st) <= waited (length pre + 1))%Z ->
  take_snapshot st =
  (Ok (VBool false),
   evolved (Some (bearer_header (token p))) rest (files (world st))
     (trigger_events (self st) (header (self st)) job_id ++
      flat_map (poll_events (self st) (status_check_url (self st) job_id)) (pre ++ [p]) ++
      [EvPrint MsgTimeoutExceeded])
     st).
Proof.
  intros Hp Ht Hr Hto.
  rewrite (take_snapshot_polled _ _ _ _ _ _ Hp Ht Hr (or_intror Hto)).
  replace (waited (length pre + 1) >=? timeout (self st))%Z with true
    by (symmetry; apply Z.geb_le; lia).
  rewrite (bind_Ok _ _ _ _ _ (print_evolved _ _ _ _ _ _)).
  rewrite <- app_assoc. reflexivity.
Qed.

(** When the last round reports the job done and the counter is still
    below the timeout after it, the method goes on to the metadata
    lookup. *)
Lemma take_snapshot_looks_up st r rest job_id pre p :
  pending (world st) = r :: poll_script (pre ++ [p]) ++ rest ->
  trigger_response r job_id ->
  rounds (timeout (self st)) pre p ->
  done p ->
  (waited (length pre + 1) < timeout (self st))%Z ->
  take_snapshot st =
  request_download_key (self st) (workspace p)
    (evolved (Some (bearer_header (token p))) rest (files (world st))
       (trigger_events (self st) (header (self st)) job_id ++
        flat_map (poll_events (self st) (status_check_url (self st) job_id)) (pre ++ [p]))
       st).
Proof.
  intros Hp Ht Hr Hd Hlt.
  rewrite (take_snapshot_polled _ _ _ _ _ _ Hp Ht Hr (or_introl Hd)).
  replace (waited (length pre + 1) >=? timeout (self st))%Z with false; [reflexivity |].
  symmetry. rewrite Z.geb_leb. apply Z.leb_gt. lia.
Qed.

(** C5.  With the timeout of 7200 seconds, when all of the 1440 rounds
    that fit into it report an unfinished job, [take_snapshot] returns
    [False] without raising; it has sent the trigger and the status
    requests and nothing else, and no file has changed. *)
Theorem C5_never_done_returns_False st r rest job_id ps :
  timeout (self st) = 7200%Z ->
  pending (world st) = r :: poll_script ps ++ rest ->
  trigger_response r job_id ->
  Forall poll_ok ps ->
  Forall not_done ps ->
  length ps = 1440 ->
  take_snapshot st =
  (Ok (VBool false),
   evolved (header_after (header (self st)) ps) rest (files (world st))
     (trigger_events (self st) (header (self st)) job_id ++
      flat_map (poll_events (self st) (status_check_url (self st) job_id)) ps ++
      [EvPrint MsgTimeoutExceeded])
     st).
Proof.
  intros HT Hp Ht Hok Hnd Hlen.
  destruct (nonempty_snoc ps) as (pre & p & ->); [lia |].
  rewrite length_app in Hlen. cbn [length] in Hlen.
  rewrite header_after_last.
  apply (take_snapshot_gives_up _ r _ job_id); try assumption.
  - split; [assumption |]. split; [now apply Forall_app in Hnd as [? _] | lia].
  - unfold waited. lia.
Qed.

Lemma C5_never_done_returns_False_witness :
  fst (take_snapshot
         (example_state (trigger_reply "job-1" ::
                         poll_script (replicate 1440 (example_poll "t1" "RUNNING")) ++ []))) =
  Ok (VBool false).
Proof.
  rewrite (C5_never_done_returns_False _ (trigger_reply "job-1") [] "job-1"
             (replicate 1440 (example_poll "t1" "RUNNING"))).
  - reflexivity.
  - reflexivity.
  - reflexivity.
  - apply trigger_reply_ok.
  - apply Forall_replicate, example_poll_ok.
  - apply Forall_replicate, example_poll_not_done.
  - apply length_replicate.
Defined.

(** C2 (the code departs from the claim at the last round).  With the
    timeout of 7200 seconds, when the job is first reported done in
    round 1440, which starts with the counter at 7195, [take_snapshot]
    takes the timeout path: it prints the timeout message and returns
    [False] without looking the export up. *)
Theorem C2_done_in_last_round_times_out st r rest job_id pre p :
  timeout (self st) = 7200%Z ->
  pending (world st) = r :: poll_script (pre ++ [p]) ++ rest ->
  trigger_response r job_id ->
  Forall poll_ok (pre ++ [p]) ->
  Forall not_done pre ->
  done p ->
  length pre = 1439 ->
  take_snapshot st =
  (Ok (VBool false),
   evolved (Some (bearer_header (token p))) rest (files (world st))
     (trigger_events (self st) (header (self st)) job_id ++
      flat_map (poll_events (self st) (status_check_url (self st) job_id)) (pre ++ [p]) ++
      [EvPrint MsgTimeoutExceeded])
     st).
Proof.
  intros HT Hp Ht Hok Hnd _ Hlen.
  apply (take_snapshot_gives_up _ r _ job_id); try assumption.
  - split; [assumption |]. split; [assumption | lia].
  - unfold waited. lia.
Qed.

Lemma C2_done_in_last_round_times_out_witness :
  fst (take_snapshot
         (example_state (trigger_reply "job-1" ::
                         poll_script (replicate 1439 (example_poll "t1" "RUNNING") ++
                                      [example_poll "t2" "DONE"]) ++
                         [export_reply "COMPLETED" "key-1"; binary_reply 200 [x50; x4b]]))) =
  Ok (VBool false).
Proof.
  rewrite (C2_done_in_last_round_times_out _ (trigger_reply "job-1")
             [export_reply "COMPLETED" "key-1"; binary_reply 200 [x50; x4b]] "job-1"
             (replicate 1439 (example_poll "t1" "RUNNING")) (example_poll "t2" "DONE")).
  - reflexivity.
  - reflexivity.
  - reflexivity.
  - apply trigger_reply_ok.
  - apply Forall_app. split; [apply Forall_replicate | apply Forall_singleton];
      apply example_poll_ok.
  - apply Forall_replicate, example_poll_not_done.
  - apply example_poll_done.
  - apply length_replicate.
Defined.

(** In every earlier round the claim of C2 holds: the method goes on to
    the metadata lookup. *)
Lemma take_snapshot_done_before_last_round st r rest job_id pre p :
  timeout (self st) = 7200%Z ->
  pending (world st) = r :: poll_script (pre ++ [p]) ++ rest ->
  trigger_response r job_id ->
  Forall poll_ok (pre ++ [p]) ->
  Forall not_done pre ->
  done p ->
  length pre < 1439 ->
  take_snapshot st =
  request_download_key (self st) (workspace p)
    (evolved (Some (bearer_header (token p))) rest (files (world st))
       (trigger_events (self st) (header (self st)) job_id ++
        flat_map (poll_events (self st) (status_check_url (self st) job_id)) (pre ++ [p]))
       st).
Proof.
  intros HT Hp Ht Hok Hnd Hd Hlen.
  apply (take_snapshot_looks_up _ r _ job_id); try assumption.
  - split; [assumption |]. split; [assumption | lia].
  - unfold waited. lia.
Qed.




(** Also when the newest export carries no readable download key, an
    export that is not COMPLETED is never downloaded: the method stops
    at the lookup, with the exception of the missing key or, as in C6,
    with [False]. *)
Lemma take_snapshot_not_completed_never_downloads st r rest job_id pre p meta status :
  pending (world st) = r :: poll_script (pre ++ [p]) ++ meta :: rest ->
  trigger_response r job_id ->
  rounds (timeout (self st)) pre p ->
  done p ->
  (waited (length pre + 1) < timeout (self st))%Z ->
  is_error meta = false ->
  field_first meta "data" "status" = Ok status ->
  py_ne_str status "COMPLETED" = true ->
  files (world (snd (take_snapshot st))) = files (world st) /\
  pending (world (snd (take_snapshot st))) = rest /\
  (fst (take_snapshot st) = Ok (VBool false) \/
   exists e, fst (take_snapshot st) = Raise e /\
             field_first meta "data" "downloadKey" = Raise e).
Proof.
  intros Hp Ht Hr Hd Hlt He Hs Hne.
  destruct (field_first meta "data" "downloadKey") as [key | e |] eqn:Hk.
  - rewrite (take_snapshot_looks_up _ _ _ _ _ _ Hp Ht Hr Hd Hlt).
    rewrite (request_download_key_not_completed _ _ _ _ _ _ _ _ _
               (conj He (conj Hs Hk)) Hne).
    repeat split. now left.
  - rewrite (take_snapshot_looks_up _ _ _ _ _ _ Hp Ht Hr Hd Hlt).
    pose proof Hs as Hs'. apply field_first_inv in Hs' as (b & Hj & Hs').
    assert (Hk' : (d <~ py_getitem b "data" ;; e0 <~ py_getitem0 d ;;
                   py_getitem e0 "downloadKey")%py = Raise e).
    { unfold field_first in Hk. rewrite Hj in Hk. exact Hk. }
    unfold request_download_key. cbv zeta.
    erewrite bind_Ok by (apply access_evolved_ok; [reflexivity | exact He]).
    rewrite (bind_lift_Ok _ _ _ _ Hj), (bind_lift_Ok _ _ _ _ Hs').
    rewrite (bind_lift_Raise _ _ _ _ Hk').
    repeat split. right. exists e. split; reflexivity.
  - exfalso. unfold field_first in Hk.
    pose proof Hs as Hs'. apply field_first_inv in Hs' as (b & Hj & _).
    rewrite Hj in Hk. cbn [obind] in Hk.
    destruct (py_getitem b "data") as [d | |] eqn:Hd'; cbn [obind] in Hk; try discriminate.
    + destruct (py_getitem0 d) as [x | |] eqn:H0; cbn [obind] in Hk; try discriminate.
      * now apply (defined_py_getitem x "downloadKey").
      * now apply (defined_py_getitem0 d).
    + now apply (defined_py_getitem b "data").
Qed.

(** ** Writing files *)

Lemma iter_content_from_concat n l : forall cur room,
  concat (iter_content_from n cur room l) = rev cur ++ l.
Proof.
  induction l as [| b l IH]; intros cur room; cbn [iter_content_from].
  - destruct cur; [reflexivity |]. cbn [concat]. now rewrite app_nil_r.
  - destruct room as [| room].
    + cbn [concat]. rewrite IH. reflexivity.
    + rewrite IH. cbn [rev]. now rewrite <- app_assoc.
Qed.

Lemma iter_content_concat n r : concat (iter_content n r) = content r.
Proof. unfold iter_content. now rewrite iter_content_from_concat. Qed.

Lemma write_chunks name chunks : forall h rest (f : gmap string (list byte)) evs st acc,
  f !! name = Some acc ->
  for_each chunks (file_write name) (evolved h rest f evs st) =
  (Ok tt, evolved h rest (<[name := acc ++ concat chunks]> f)
            (evs ++ map (EvWrite name) chunks) st).
Proof.
  induction chunks as [| c cs IH]; intros h rest f evs st acc Hf; cbn [for_each concat map].
  - rewrite !app_nil_r. now rewrite insert_id.
  - rewrite (bind_Ok _ _ _ _ _ (file_write_evolved _ _ _ _ _ _ _)).
    rewrite Hf. cbn [default].
    rewrite (IH _ _ _ _ _ (acc ++ c)) by apply lookup_insert_eq.
    rewrite insert_insert_eq, <- !app_assoc. reflexivity.
Qed.

(** ** The download step *)

Lemma header_setitem_evolved h rest f evs st k v :
  header_setitem k v (evolved (Some h) rest f evs st) =
  (Ok tt, evolved (Some (<[k := v]> h)) rest f evs st).
Proof. reflexivity. Qed.

Lemma header_delitem_evolved (h : dict) rest f evs st k v :
  h !! k = Some v ->
  header_delitem k (evolved (Some h) rest f evs st) =
  (Ok tt, evolved (Some (delete k h)) rest f evs st).
Proof.
  intros Hk. unfold header_delitem.
  rewrite (bind_Ok _ _ _ _ _ (get_self_evolved _ _ _ _ _)).
  cbn [header with_header]. now rewrite Hk.
Qed.

Lemma request_and_store_data_ok h binary rest f evs st w key template :
  is_error binary = false ->
  config_get (config (self st)) "OPTIONAL" "EXPORT_FILENAME" = Ok template ->
  let name := replace template "{cdate}" (today (world st)) in
  request_and_store_data (self st) (VStr w) key (evolved (Some h) (binary :: rest) f evs st) =
  (Ok VNone,
   evolved (Some (delete "Accept" (accept_header h))) rest (stored_files name binary f)
     (evs ++ store_events (self st) h w key name binary) st).
Proof.
  intros He Hc name. unfold request_and_store_data.
  rewrite (bind_Ok _ _ _ _ _ (print_evolved _ _ _ _ _ _)).
  rewrite bind_lift_Ok with (a := download_url (self st) w) by reflexivity.
  rewrite (bind_Ok _ _ _ _ _ (header_setitem_evolved _ _ _ _ _ _ _)).
  assert (Hbody :
    (binary0 <- access_leanix_api (download_url (self st) w) "GET" None [("key", key)] true ;;
     template0 <- lift (config_get (config (self st)) "OPTIONAL" "EXPORT_FILENAME") ;;
     cdate <- get_today_date ;;
     print (MsgWriting (replace template0 "{cdate}" cdate)) ;;;
     (if (status_code binary0 =? 200)%Z
      then open_wb (replace template0 "{cdate}" cdate) ;;;
           for_each (iter_content 1024 binary0) (file_write (replace template0 "{cdate}" cdate))
      else ret tt) ;;;
     print (MsgSaved (replace template0 "{cdate}" cdate)) ;;; ret false)%py
      (evolved (Some (<["Accept" := "application/octet-stream"]> h)) (binary :: rest) f
         (evs ++ [EvPrint MsgDownloading]) st) =
    (Ok false,
     evolved (Some (accept_header h)) rest (stored_files name binary f)
       (evs ++ store_events (self st) h w key name binary) st)).
  { erewrite bind_Ok by (apply access_evolved_ok; [reflexivity | exact He]).
    rewrite (bind_lift_Ok _ _ _ _ Hc).
    rewrite (bind_Ok _ _ _ _ _ (get_today_date_evolved _ _ _ _ _)).
    rewrite (bind_Ok _ _ _ _ _ (print_evolved _ _ _ _ _ _)).
    fold name. unfold store_events, stored_files.
    destruct (status_code binary =? 200)%Z.
    - erewrite bind_Ok.
      2:{ rewrite (bind_Ok _ _ _ _ _ (open_wb_evolved _ _ _ _ _ _)).
          apply write_chunks with (acc := []). apply lookup_insert_eq. }
      rewrite (bind_Ok _ _ _ _ _ (print_evolved _ _ _ _ _ _)).
      rewrite iter_content_concat, insert_insert_eq. cbn [app].
      unfold ret. do 2 f_equal. rewrite <- !app_assoc. reflexivity.
    - rewrite bind_Ok with (a := tt)
        (st' := evolved (Some (accept_header h)) rest f
                  (((evs ++ [EvPrint MsgDownloading]) ++
                    [EvRequest (download_request (self st) h w key)]) ++
                   [EvPrint (MsgWriting name)]) st) by reflexivity.
      rewrite (bind_Ok _ _ _ _ _ (print_evolved _ _ _ _ _ _)).
      unfold ret. do 2 f_equal. rewrite <- !app_assoc. reflexivity. }
  rewrite bind_Ok with (a := false)
    (st' := evolved (Some (accept_header h)) rest (stored_files name binary f)
              (evs ++ store_events (self st) h w key name binary) st).
  2:{ unfold try_except_HTTPError. cbv zeta. fold name. 
      change (replace template "{cdate}" (today (world st))) with name in Hbody.
      rewrite Hbody. reflexivity. }
  cbv iota.
  erewrite bind_Ok by (eapply header_delitem_evolved; unfold accept_header; apply lookup_insert_eq).
  reflexivity.
Qed.

Lemma request_and_store_data_error h binary rest f evs st w key :
  is_error binary = true ->
  request_and_store_data (self st) (VStr w) key (evolved (Some h) (binary :: rest) f evs st) =
  (Ok VNone,
   evolved (Some (accept_header h)) rest f
     (evs ++ failed_download_events (self st) h w key (status_code binary)) st).
Proof.
  intros He. unfold request_and_store_data.
  rewrite (bind_Ok _ _ _ _ _ (print_evolved _ _ _ _ _ _)).
  rewrite bind_lift_Ok with (a := download_url (self st) w) by reflexivity.
  rewrite (bind_Ok _ _ _ _ _ (header_setitem_evolved _ _ _ _ _ _ _)).
  erewrite bind_Ok with (a := true).
  2:{ unfold try_except_HTTPError.
      erewrite bind_Raise by (apply access_evolved_error; [reflexivity | exact He]).
      cbv beta iota.
      rewrite (bind_Ok _ _ _ _ _ (print_evolved _ _ _ _ _ _)). reflexivity. }
  cbv iota. unfold ret, failed_download_events, download_request, accept_header.
  rewrite <- !app_assoc. reflexivity.
Qed.

(** ** The download step within [take_snapshot] *)

Lemma take_snapshot_at_download st job_id pre p w key binary rest :
  reaches_download st job_id pre p w key binary rest ->
  take_snapshot st =
  request_and_store_data (self st) (VStr w) key
    (evolved (Some (bearer_header (token p))) (binary :: rest) (files (world st))
       (lookup_events (self st) (header (self st)) job_id (pre ++ [p]) (token p)) st).
Proof.
  intros (r & meta & Hp & Ht & Hr & Hd & Hlt & Hw & Hm).
  rewrite (take_snapshot_looks_up _ _ _ _ _ _ Hp Ht Hr Hd Hlt).
  rewrite (request_download_key_read _ _ _ _ _ _ _ _ _ Hm).
  cbn [py_ne_str String.eqb Ascii.eqb Bool.eqb negb]. rewrite Hw.
  unfold lookup_events. rewrite <- app_assoc. reflexivity.
Qed.

Lemma bearer_header_no_Accept t : bearer_header t !! "Accept" = None.
Proof. unfold bearer_header. now apply lookup_singleton_ne. Qed.

Lemma accept_header_removed t : delete "Accept" (accept_header (bearer_header t)) = bearer_header t.
Proof. unfold accept_header. apply delete_insert_id, bearer_header_no_Accept. Qed.

(** The download step when the server answers without an HTTP error. *)
Lemma take_snapshot_stores st job_id pre p w key binary rest template :
  reaches_download st job_id pre p w key binary rest ->
  is_error binary = false ->
  config_get (config (self st)) "OPTIONAL" "EXPORT_FILENAME" = Ok template ->
  let name := replace template "{cdate}" (today (world st)) in
  take_snapshot st =
  (Ok VNone,
   evolved (Some (bearer_header (token p))) rest
     (stored_files name binary (files (world st)))
     (lookup_events (self st) (header (self st)) job_id (pre ++ [p]) (token p) ++
      store_events (self st) (bearer_header (token p)) w key name binary)
     st).
Proof.
  intros Hr He Hc name.
  rewrite (take_snapshot_at_download _ _ _ _ _ _ _ _ Hr).
  rewrite (request_and_store_data_ok _ _ _ _ _ _ _ _ _ He Hc).
  now rewrite accept_header_removed.
Qed.

(** The download step when the server answers with an HTTP error. *)
Lemma take_snapshot_download_fails st job_id pre p w key binary rest :
  reaches_download st job_id pre p w key binary rest ->
  is_error binary = true ->
  take_snapshot st =
  (Ok VNone,
   evolved (Some (accept_header (bearer_header (token p)))) rest (files (world st))
     (lookup_events (self st) (header (self st)) job_id (pre ++ [p]) (token p) ++
      failed_download_events (self st) (bearer_header (token p)) w key (status_code binary))
     st).
Proof.
  intros Hr He.
  rewrite (take_snapshot_at_download _ _ _ _ _ _ _ _ Hr).
  now rewrite (request_and_store_data_error _ _ _ _ _ _ _ _ He).
Qed.

(** C9.  When the download is answered without an HTTP error,
    [take_snapshot] returns [None] after printing that the file was
    saved; the file holds the body when the status code is 200, and for
    any other code no file is opened or written. *)
Theorem C9_file_written_only_on_200 st job_id pre p w key binary rest template :
  reaches_download st job_id pre p w key binary rest ->
  is_error binary = false ->
  config_get (config (self st)) "OPTIONAL" "EXPORT_FILENAME" = Ok template ->
  let name := replace template "{cdate}" (today (world st)) in
  let before := lookup_events (self st) (header (self st)) job_id (pre ++ [p]) (token p) ++
                [EvPrint MsgDownloading;
                 EvRequest (download_request (self st) (bearer_header (token p)) w key);
                 EvPrint (MsgWriting name)] in
  let run := take_snapshot st in
  fst run = Ok VNone /\
  (status_code binary = 200%Z ->
   files (world (snd run)) = <[name := content binary]> (files (world st)) /\
   trace (world (snd run)) =
   trace (world st) ++ before ++
   EvOpen name :: map (EvWrite name) (iter_content 1024 binary) ++ [EvPrint (MsgSaved name)]) /\
  (status_code binary <> 200%Z ->
   files (world (snd run)) = files (world st) /\
   trace (world (snd run)) = trace (world st) ++ before ++ [EvPrint (MsgSaved name)]).
Proof.
  intros Hr He Hc name before run. subst run.
  rewrite (take_snapshot_stores _ _ _ _ _ _ _ _ _ Hr He Hc). fold name.
  cbn [fst snd evolved world files trace]. unfold stored_files, store_events.
  split; [reflexivity |]. split.
  - intros ->. cbn [Z.eqb Pos.eqb]. subst before. now rewrite <- !app_assoc.
  - intros Hne. apply Z.eqb_neq in Hne as ->. subst before. now rewrite <- !app_assoc.
Qed.

Lemma C9_file_written_only_on_200_witness :
  files (world (snd (take_snapshot
                       (example_state (download_script (binary_reply 204 []) []))))) =
  files (world (example_state (download_script (binary_reply 204 []) []))).
Proof.
  apply (C9_file_written_only_on_200 _ _ _ _ _ _ _ _ "export_{cdate}.xlsx"
           (example_reaches_download (binary_reply 204 []) [])).
  - reflexivity.
  - vm_compute. reflexivity.
  - discriminate.
Defined.

(** C3 (the code departs from the claim on the error path).  When the
    download is answered with an HTTP error, the handler returns before
    the [del]: the header [take_snapshot] leaves behind still has the
    Accept entry, which the header before the download step had not. *)
Theorem C3_accept_stays_after_caught_error st job_id pre p w key binary rest :
  reaches_download st job_id pre p w key binary rest ->
  is_error binary = true ->
  header (self (snd (take_snapshot st))) = Some (accept_header (bearer_header (token p))) /\
  accept_header (bearer_header (token p)) !! "Accept" = Some "application/octet-stream" /\
  bearer_header (token p) !! "Accept" = None.
Proof.
  intros Hr He. rewrite (take_snapshot_download_fails _ _ _ _ _ _ _ _ Hr He).
  split; [reflexivity |]. split; [apply lookup_insert_eq | apply bearer_header_no_Accept].
Qed.

Lemma C3_accept_stays_after_caught_error_witness :
  header (self (snd (take_snapshot
                       (example_state (download_script (error_reply 404) []))))) =
  Some (accept_header (bearer_header "t2")).
Proof.
  apply (C3_accept_stays_after_caught_error _ _ _ _ _ _ _ _
           (example_reaches_download (error_reply 404) [])).
  reflexivity.
Defined.

(** On the path without HTTP error the claim of C3 holds: the header is
    again the one [connect] installed last. *)
Lemma take_snapshot_restores_header st job_id pre p w key binary rest template :
  reaches_download st job_id pre p w key binary rest ->
  is_error binary = false ->
  config_get (config (self st)) "OPTIONAL" "EXPORT_FILENAME" = Ok template ->
  header (self (snd (take_snapshot st))) = Some (bearer_header (token p)).
Proof.
  intros Hr He Hc. now rewrite (take_snapshot_stores _ _ _ _ _ _ _ _ _ Hr He Hc).
Qed.

(** The whole script on answers that refuse the binary download: the
    Accept entry left behind goes out with the survey listing that
    [download_surveys] requests next. *)
Lemma stale_accept_reaches_surveys :
  let '(r, st) :=
    main proxy_config
      (world_of [token_reply "t0"; trigger_reply "job-1";
                 token_reply "t1"; status_reply "DONE" "ws-1";
                 export_reply "COMPLETED" "key-1"; error_reply 404;
                 ids_reply []]) in
  r = Ok VNone /\
  (st ≫= fun s => last (trace (world s))) =
  Some (EvRequest (survey_request example_self
                     (Some (accept_header (bearer_header "t1"))) "ws-1"
                     (surveys_url example_self))).
Proof. vm_compute. split; reflexivity. Qed.

(** ** HTTP errors before the download *)

Lemma trigger_export_error s h r rest f evs st :
  is_error r = true ->
  trigger_export s (evolved h (r :: rest) f evs st) =
  (Raise (HTTPError (status_code r)),
   evolved h rest f
     (evs ++ [EvRequest (request_of h (proxies (self st)) "POST" (trigger_url s) None
                           [("exportType", VStr "SNAPSHOT")] false)]) st).
Proof.
  intros He. unfold trigger_export. cbv zeta.
  erewrite bind_Raise by (apply access_evolved_error; [reflexivity | exact He]).
  reflexivity.
Qed.

Lemma take_snapshot_trigger_fails st r rest :
  pending (world st) = r :: rest ->
  is_error r = true ->
  take_snapshot st =
  (Raise (HTTPError (status_code r)),
   evolved (header (self st)) rest (files (world st))
     [EvPrint MsgCreatingSnapshot;
      EvRequest (request_of (header (self st)) (proxies (self st)) "POST"
                   (trigger_url (self st)) None [("exportType", VStr "SNAPSHOT")] false)]
     st).
Proof.
  intros Hp He. unfold take_snapshot.
  unfold bind at 1, print at 1, emit at 1. unfold bind at 1, get_self at 1.
  replace (self (emit_st (EvPrint MsgCreatingSnapshot) st)) with (self st) by reflexivity.
  rewrite emit_st_canonical, Hp.
  rewrite (bind_Raise _ _ _ _ _ (trigger_export_error _ _ _ _ _ _ _ He)).
  reflexivity.
Qed.

Lemma take_snapshot_loop_raises st r rest job_id e st' :
  pending (world st) = r :: rest ->
  trigger_response r job_id ->
  poll_loop (poll_fuel (self st)) (status_check_url (self st) job_id) VNone 0 VNone
    (evolved (header (self st)) rest (files (world st))
       (trigger_events (self st) (header (self st)) job_id) st) = (Raise e, st') ->
  take_snapshot st = (Raise e, st').
Proof.
  intros Hp Ht Hloop. unfold take_snapshot.
  unfold bind at 1, print at 1, emit at 1. unfold bind at 1, get_self at 1.
  replace (self (emit_st (EvPrint MsgCreatingSnapshot) st)) with (self st) by reflexivity.
  rewrite emit_st_canonical, Hp.
  rewrite (bind_Ok _ _ _ _ _ (trigger_export_evolved _ _ _ _ _ _ _ _ Ht)).
  apply bind_Raise. exact Hloop.
Qed.

Lemma poll_loop_step_error fuel url status w ws h rest f evs st a t e :
  token_response a t ->
  is_error e = true ->
  py_ne_str status "DONE" = true ->
  (w < timeout (self st))%Z ->
  poll_loop (S fuel) url status w ws (evolved h (a :: e :: rest) f evs st) =
  (Raise (HTTPError (status_code e)),
   evolved (Some (bearer_header t)) rest f
     (evs ++ [auth_event (self st);
              EvRequest (request_of (Some (bearer_header t)) (proxies (self st))
                           "GET" url None [] false)]) st).
Proof.
  intros Ht He Hnd Hlt.
  cbn [poll_loop]. rewrite (bind_Ok _ _ _ _ _ (get_self_evolved _ _ _ _ _)).
  cbn [timeout with_header]. rewrite Hnd. apply Z.ltb_lt in Hlt as ->. cbn [andb].
  rewrite (bind_Ok _ _ _ _ _ (connect_evolved _ _ _ _ _ _ _ Ht)).
  erewrite bind_Raise by (apply access_evolved_error; [reflexivity | exact He]).
  rewrite <- app_assoc. reflexivity.
Qed.

Lemma take_snapshot_poll_fails st r job_id pre a t e rest :
  pending (world st) = r :: poll_script pre ++ a :: e :: rest ->
  trigger_response r job_id ->
  Forall poll_ok pre ->
  Forall not_done pre ->
  (waited (length pre) < timeout (self st))%Z ->
  token_response a t ->
  is_error e = true ->
  take_snapshot st =
  (Raise (HTTPError (status_code e)),
   evolved (Some (bearer_header t)) rest (files (world st))
     (trigger_events (self st) (header (self st)) job_id ++
      flat_map (poll_events (self st) (status_check_url (self st) job_id)) pre ++
      [auth_event (self st);
       EvRequest (request_of (Some (bearer_header t)) (proxies (self st))
                    "GET" (status_check_url (self st) job_id) None [] false)])
     st).
Proof.
  intros Hp Htr Hok Hnd Hlt Ht He. unfold waited in Hlt.
  destruct (poll_fuel_enough (self st) (length pre)) as [fuel Hfuel]; [exact Hlt |].
  apply (take_snapshot_loop_raises _ _ _ _ _ _ Hp Htr).
  rewrite Hfuel, <- Nat.add_assoc.
  rewrite poll_loop_run; [| assumption | assumption | reflexivity | lia].
  cbn [Nat.add].
  rewrite (poll_loop_step_error _ _ _ _ _ _ _ _ _ _ _ _ _ Ht He);
    [| now apply status_after_not_done | lia].
  rewrite <- app_assoc. reflexivity.
Qed.

Lemma take_snapshot_lookup_fails st r job_id pre p meta rest :
  pending (world st) = r :: poll_script (pre ++ [p]) ++ meta :: rest ->
  trigger_response r job_id ->
  rounds (timeout (self st)) pre p ->
  done p ->
  (waited (length pre + 1) < timeout (self st))%Z ->
  is_error meta = true ->
  take_snapshot st =
  (Raise (HTTPError (status_code meta)),
   evolved (Some (bearer_header (token p))) rest (files (world st))
     (lookup_events (self st) (header (self st)) job_id (pre ++ [p]) (token p)) st).
Proof.
  intros Hp Ht Hr Hd Hlt He.
  rewrite (take_snapshot_looks_up _ _ _ _ _ _ Hp Ht Hr Hd Hlt).
  rewrite (request_download_key_error _ _ _ _ _ _ _ He).
  unfold lookup_events. rewrite <- app_assoc. reflexivity.
Qed.

(** C4.  An HTTP error answered to the binary download is caught:
    [take_snapshot] prints it and returns [None].  An HTTP error
    answered to the trigger, to a status poll or to the metadata lookup
    comes out of [take_snapshot] as the exception raised. *)
Theorem C4_only_download_errors_are_caught sg st code :
  fails_at sg st code ->
  match sg with
  | AtDownload =>
      fst (take_snapshot st) = Ok VNone /\
      last (trace (world (snd (take_snapshot st)))) =
      Some (EvPrint (MsgSnapshotError (HTTPError code)))
  | AtTrigger | AtPoll | AtLookup =>
      fst (take_snapshot st) = Raise (HTTPError code)
  end.
Proof.
  destruct sg; cbn [fails_at].
  - intros (r & rest & Hp & He & <-).
    now rewrite (take_snapshot_trigger_fails _ _ _ Hp He).
  - intros (r & job_id & pre & a & t & e & rest & Hp & Htr & Hok & Hnd & Hlt & Ht & He & <-).
    now rewrite (take_snapshot_poll_fails _ _ _ _ _ _ _ _ Hp Htr Hok Hnd Hlt Ht He).
  - intros (r & job_id & pre & p & meta & rest & Hp & Ht & Hr & Hd & Hlt & He & <-).
    now rewrite (take_snapshot_lookup_fails _ _ _ _ _ _ _ Hp Ht Hr Hd Hlt He).
  - intros (job_id & pre & p & w & key & binary & rest & Hr & He & <-).
    rewrite (take_snapshot_download_fails _ _ _ _ _ _ _ _ Hr He).
    split; [reflexivity |].
    cbn [snd world trace evolved]. unfold failed_download_events.
    rewrite !app_assoc.
    change [EvPrint MsgDownloading;
            EvRequest (download_request (self st) (bearer_header (token p)) w key);
            EvPrint (MsgSnapshotError (HTTPError (status_code binary)))]
      with ([EvPrint MsgDownloading;
             EvRequest (download_request (self st) (bearer_header (token p)) w key)] ++
            [EvPrint (MsgSnapshotError (HTTPError (status_code binary)))]).
    rewrite app_assoc. apply last_snoc.
Qed.

Lemma C4_only_download_errors_are_caught_witness :
  fst (take_snapshot (example_state [error_reply 500])) = Raise (HTTPError 500) /\
  fst (take_snapshot
         (example_state (trigger_reply "job-1" ::
                         poll_script [example_poll "t1" "RUNNING"] ++
                         [token_reply "t2"; error_reply 502]))) = Raise (HTTPError 502) /\
  fst (take_snapshot
         (example_state (trigger_reply "job-1" ::
                         poll_script ([example_poll "t1" "RUNNING"] ++
                                      [example_poll "t2" "DONE"]) ++
                         [error_reply 503]))) = Raise (HTTPError 503) /\
  fst (take_snapshot (example_state (download_script (error_reply 404) []))) = Ok VNone.
Proof.
  split; [| split; [| split]].
  - apply (C4_only_download_errors_are_caught AtTrigger).
    exists (error_reply 500), []. repeat split.
  - apply (C4_only_download_errors_are_caught AtPoll).
    exists (trigger_reply "job-1"), "job-1", [example_poll "t1" "RUNNING"],
      (token_reply "t2"), "t2", (error_reply 502), [].
    split; [reflexivity |]. split; [apply trigger_reply_ok |].
    split; [repeat constructor; apply example_poll_ok |].
    split; [repeat constructor |].
    repeat split.
  - apply (C4_only_download_errors_are_caught AtLookup).
    exists (trigger_reply "job-1"), "job-1", [example_poll "t1" "RUNNING"],
      (example_poll "t2" "DONE"), (error_reply 503), [].
    split; [reflexivity |]. split; [apply trigger_reply_ok |].
    split; [apply example_rounds |]. split; [apply example_poll_done |].
    repeat split.
  - apply (C4_only_download_errors_are_caught AtDownload _ 404).
    exists "job-1", [example_poll "t1" "RUNNING"], (example_poll "t2" "DONE"),
      "ws-1", (VStr "key-1"), (error_reply 404), [].
    split; [apply example_reaches_download |]. repeat split.
Defined.

(** ** [download_surveys] *)

Lemma for_each_app {A} (body : A -> M unit) l1 : forall l2 st,
  for_each (l1 ++ l2) body st = (for_each l1 body ;;; for_each l2 body)%py st.
Proof.
  induction l1 as [| x l1 IH]; intros l2 st; cbn [app for_each].
  - reflexivity.
  - unfold bind. destruct (body x st) as [[[] | e |] st1]; [| reflexivity..].
    rewrite IH. reflexivity.
Qed.

Lemma ids_of_inv r ids :
  ids_of r = Ok ids ->
  exists b d, json r = Ok b /\ py_getitem b "data" = Ok d /\
              (xs <~ py_iter d ;; comprehension (fun x => py_getitem x "id") xs)%py = Ok ids.
Proof.
  unfold ids_of, obind.
  destruct (json r) as [b | |]; try discriminate.
  destruct (py_getitem b "data") as [d | |] eqn:Hd; try discriminate.
  intros H. exists b, d. auto.
Qed.

Section Runs.
Context (h : option dict) (ws template sid : string) (st : State).
Context (Htemplate : config_get (config (self st)) "OPTIONAL" "SURVEY_FILENAME" = Ok template).

Local Abbreviation params := [("workspaceId", VStr ws)].
Local Abbreviation cdate := (today (world st)).

Lemma get_run_result_ok rid resp rest f evs :
  is_error resp = false ->
  get_run_result (self st) params (VStr sid) (VStr rid) (evolved h (resp :: rest) f evs st) =
  (Ok tt,
   evolved h rest (run_files template cdate sid f (rid, resp))
     (evs ++ run_events (self st) h ws template cdate sid (rid, resp)) st).
Proof.
  intros He. unfold get_run_result.
  rewrite bind_lift_Ok with (a := ("Survey " +:+ sid +:+ " - Run ") +:+ rid) by reflexivity.
  rewrite (bind_Ok _ _ _ _ _ (print_evolved _ _ _ _ _ _)). cbv zeta.
  erewrite bind_Ok by (apply access_evolved_ok; [reflexivity | exact He]).
  rewrite (bind_lift_Ok _ _ _ _ Htemplate).
  rewrite (bind_Ok _ _ _ _ _ (get_today_date_evolved _ _ _ _ _)).
  rewrite (bind_Ok _ _ _ _ _ (open_wb_evolved _ _ _ _ _ _)).
  rewrite file_write_evolved, lookup_insert_eq, insert_insert_eq.
  cbn [default app]. unfold run_files, run_events, result_attempt, survey_request.
  cbn [fst snd]. rewrite <- !app_assoc. reflexivity.
Qed.

Lemma get_run_result_error rid resp rest f evs :
  is_error resp = true ->
  get_run_result (self st) params (VStr sid) (VStr rid) (evolved h (resp :: rest) f evs st) =
  (Raise (HTTPError (status_code resp)),
   evolved h rest f (evs ++ result_attempt (self st) h ws sid rid) st).
Proof.
  intros He. unfold get_run_result.
  rewrite bind_lift_Ok with (a := ("Survey " +:+ sid +:+ " - Run ") +:+ rid) by reflexivity.
  rewrite (bind_Ok _ _ _ _ _ (print_evolved _ _ _ _ _ _)). cbv zeta.
  erewrite bind_Raise by (apply access_evolved_error; [reflexivity | exact He]).
  unfold result_attempt, survey_request. rewrite <- !app_assoc. reflexivity.
Qed.

Lemma runs_loop_ok rs : forall rest f evs,
  Forall result_ok rs ->
  for_each (map VStr (map fst rs)) (get_run_result (self st) params (VStr sid))
    (evolved h (map snd rs ++ rest) f evs st) =
  (Ok tt,
   evolved h rest (runs_files template cdate sid rs f)
     (evs ++ runs_events (self st) h ws template cdate sid rs) st).
Proof.
  induction rs as [| [rid resp] rs IH]; intros rest f evs Hok; cbn [map for_each fst snd app].
  - unfold runs_events. cbn [flat_map]. now rewrite app_nil_r.
  - inversion Hok as [| ? ? H1 Hok']; subst.
    rewrite (bind_Ok _ _ _ _ _ (get_run_result_ok _ _ _ _ _ H1)).
    rewrite IH by assumption.
    unfold runs_files, runs_events. cbn [fold_left flat_map].
    rewrite <- app_assoc. reflexivity.
Qed.

Lemma runs_loop_error rs rid later e rest f evs :
  Forall result_ok rs ->
  is_error e = true ->
  for_each (map VStr (map fst rs ++ rid :: later)) (get_run_result (self st) params (VStr sid))
    (evolved h (map snd rs ++ e :: rest) f evs st) =
  (Raise (HTTPError (status_code e)),
   evolved h rest (runs_files template cdate sid rs f)
     (evs ++ runs_events (self st) h ws template cdate sid rs ++
      result_attempt (self st) h ws sid rid) st).
Proof.
  intros Hok He. rewrite map_app, for_each_app.
  rewrite (bind_Ok _ _ _ _ _ (runs_loop_ok _ _ _ _ Hok)).
  cbn [map for_each].
  rewrite (bind_Raise _ _ _ _ _ (get_run_result_error _ _ _ _ _ He)).
  rewrite <- app_assoc. reflexivity.
Qed.

End Runs.

Section Surveys.
Context (h : option dict) (ws template : string) (st : State).
Context (Htemplate : config_get (config (self st)) "OPTIONAL" "SURVEY_FILENAME" = Ok template).

Local Abbreviation params := [("workspaceId", VStr ws)].
Local Abbreviation cdate := (today (world st)).

Lemma get_survey_runs_ok sv rest f evs :
  survey_ok sv ->
  get_survey_runs (self st) params (VStr (survey_id sv))
    (evolved h (survey_script sv ++ rest) f evs st) =
  (Ok tt,
   evolved h rest (runs_files template cdate (survey_id sv) (results sv) f)
     (evs ++ survey_events (self st) h ws template cdate sv) st).
Proof.
  intros [[He Hids] Hok]. apply ids_of_inv in Hids as (b & d & Hj & Hd & Hids).
  unfold get_survey_runs, survey_script. cbn [app].
  rewrite bind_lift_Ok with (a := runs_url (self st) (survey_id sv)) by reflexivity.
  erewrite bind_Ok by (apply access_evolved_ok; [reflexivity | exact He]).
  rewrite (bind_lift_Ok _ _ _ _ Hj), (bind_lift_Ok _ _ _ _ Hd), (bind_lift_Ok _ _ _ _ Hids).
  rewrite (runs_loop_ok h ws template (survey_id sv) st Htemplate _ _ _ _ Hok).
  unfold survey_events, survey_request. rewrite <- app_assoc. reflexivity.
Qed.

Lemma get_survey_runs_listing_error sid e rest f evs :
  is_error e = true ->
  get_survey_runs (self st) params (VStr sid) (evolved h (e :: rest) f evs st) =
  (Raise (HTTPError (status_code e)),
   evolved h rest f
     (evs ++ [EvRequest (survey_request (self st) h ws (runs_url (self st) sid))]) st).
Proof.
  intros He. unfold get_survey_runs.
  rewrite bind_lift_Ok with (a := runs_url (self st) sid) by reflexivity.
  erewrite bind_Raise by (apply access_evolved_error; [reflexivity | exact He]).
  reflexivity.
Qed.

Lemma get_survey_runs_result_error sid runs rs rid later_runs e rest f evs :
  listing_response runs (map fst rs ++ rid :: later_runs) ->
  Forall result_ok rs ->
  is_error e = true ->
  get_survey_runs (self st) params (VStr sid)
    (evolved h (runs :: map snd rs ++ e :: rest) f evs st) =
  (Raise (HTTPError (status_code e)),
   evolved h rest (runs_files template cdate sid rs f)
     (evs ++ EvRequest (survey_request (self st) h ws (runs_url (self st) sid)) ::
      runs_events (self st) h ws template cdate sid rs ++
      result_attempt (self st) h ws sid rid) st).
Proof.
  intros [Her Hids] Hok He. apply ids_of_inv in Hids as (b & d & Hj & Hd & Hids).
  unfold get_survey_runs.
  rewrite bind_lift_Ok with (a := runs_url (self st) sid) by reflexivity.
  erewrite bind_Ok by (apply access_evolved_ok; [reflexivity | exact Her]).
  rewrite (bind_lift_Ok _ _ _ _ Hj), (bind_lift_Ok _ _ _ _ Hd), (bind_lift_Ok _ _ _ _ Hids).
  rewrite (runs_loop_error h ws template sid st Htemplate _ _ _ _ _ _ _ Hok He).
  unfold survey_request. rewrite <- app_assoc. reflexivity.
Qed.
Lemma surveys_loop_ok svs : forall rest f evs,
  Forall survey_ok svs ->
  for_each (map VStr (map survey_id svs)) (get_survey_runs (self st) params)
    (evolved h (flat_map survey_script svs ++ rest) f evs st) =
  (Ok tt,
   evolved h rest (surveys_files template cdate svs f)
     (evs ++ surveys_events (self st) h ws template cdate svs) st).
Proof.
  induction svs as [| sv svs IH]; intros rest f evs Hok; cbn [map for_each flat_map].
  - unfold surveys_events. cbn [flat_map app]. now rewrite app_nil_r.
  - inversion Hok as [| ? ? H1 Hok']; subst.
    rewrite <- app_assoc.
    rewrite (bind_Ok _ _ _ _ _
               (get_survey_runs_ok sv _ _ _ H1)).
    rewrite IH by assumption.
    unfold surveys_files, surveys_events. cbn [fold_left flat_map].
    rewrite <- app_assoc. reflexivity.
Qed.
End Surveys.

Lemma try_except_HTTPError_caught {A} (body : M A) handler st c st' :
  body st = (Raise (HTTPError c), st') ->
  try_except_HTTPError body handler st = handler (HTTPError c) st'.
Proof. intros H. unfold try_except_HTTPError. now rewrite H. Qed.

(** The [try] block of [download_surveys] up to the error. *)
Lemma surveys_body_fails fl e rest h f evs st ws template :
  failure_ok fl ->
  is_error e = true ->
  config_get (config (self st)) "OPTIONAL" "SURVEY_FILENAME" = Ok template ->
  (response <- access_leanix_api (surveys_url (self st)) "GET" None
                 [("workspaceId", VStr ws)] false ;;
   body <- lift (json response) ;;
   survey_ids <- lift (py_getitem body "data") ;;
   surveys <- lift (xs <~ py_iter survey_ids ;;
                    comprehension (fun x => py_getitem x "id") xs) ;;
   for_each surveys (get_survey_runs (self st) [("workspaceId", VStr ws)]) ;;;
   ret VNone)%py
    (evolved h (failure_script fl e ++ rest) f (evs ++ [EvPrint MsgDownloadingSurveys]) st) =
  (Raise (HTTPError (status_code e)),
   evolved h rest (failure_files template (today (world st)) fl f)
     (evs ++ failure_events (self st) h ws template (today (world st)) fl) st).
Proof.
  intros Hok He Ht. destruct fl as [| listing finished sid later
                                      | listing finished sid later runs rs rid later_runs];
    cbn [failure_script failure_ok failure_files failure_events app] in *.
  - erewrite bind_Raise by (apply access_evolved_error; [reflexivity | exact He]).
    unfold survey_request. rewrite <- app_assoc. reflexivity.
  - destruct Hok as [[Hel Hids] Hfin].
    apply ids_of_inv in Hids as (b & d & Hj & Hd & Hids).
    erewrite bind_Ok by (apply access_evolved_ok; [reflexivity | exact Hel]).
    rewrite (bind_lift_Ok _ _ _ _ Hj), (bind_lift_Ok _ _ _ _ Hd), (bind_lift_Ok _ _ _ _ Hids).
    rewrite map_app. cbn [map]. rewrite <- app_assoc. cbn [app].
    erewrite bind_Raise; [reflexivity |].
    rewrite for_each_app.
    rewrite (bind_Ok _ _ _ _ _ (surveys_loop_ok h ws template st Ht _ _ _ _ Hfin)).
    cbn [for_each].
    rewrite (bind_Raise _ _ _ _ _ (get_survey_runs_listing_error h ws st sid _ _ _ _ He)).
    unfold survey_request. rewrite <- !app_assoc. reflexivity.
  - destruct Hok as ([Hel Hids] & Hfin & Hruns & Hrs).
    apply ids_of_inv in Hids as (b & d & Hj & Hd & Hids).
    erewrite bind_Ok by (apply access_evolved_ok; [reflexivity | exact Hel]).
    rewrite (bind_lift_Ok _ _ _ _ Hj), (bind_lift_Ok _ _ _ _ Hd), (bind_lift_Ok _ _ _ _ Hids).
    rewrite map_app. cbn [map app]. repeat (rewrite <- app_assoc; cbn [app]).
    erewrite bind_Raise; [reflexivity |].
    rewrite for_each_app.
    rewrite (bind_Ok _ _ _ _ _ (surveys_loop_ok h ws template st Ht _ _ _ _ Hfin)).
    cbn [for_each].
    rewrite (bind_Raise _ _ _ _ _
               (get_survey_runs_result_error h ws template st Ht sid _ _ _ _ _ _ _ _ Hruns Hrs He)).
    unfold survey_request. rewrite <- !app_assoc. reflexivity.
Qed.

(** C7.  When the server answers the survey listing, a run listing or a
    result download with an HTTP error, [download_surveys] prints the
    error and returns [None]: the failing request is its last one, the
    server's further answers are left unread, and the files are exactly
    those written for the runs completed before. *)
Theorem C7_http_error_ends_download_surveys fl e rest st ws template :
  pending (world st) = failure_script fl e ++ rest ->
  failure_ok fl ->
  is_error e = true ->
  config_get (config (self st)) "MANDATORY" "WORKSPACEID" = Ok ws ->
  config_get (config (self st)) "OPTIONAL" "SURVEY_FILENAME" = Ok template ->
  download_surveys st =
  (Ok VNone,
   evolved (header (self st)) rest
     (failure_files template (today (world st)) fl (files (world st)))
     (failure_events (self st) (header (self st)) ws template (today (world st)) fl ++
      [EvPrint (MsgSurveysError (HTTPError (status_code e)))])
     st).
Proof.
  intros Hp Hok He Hws Ht. unfold download_surveys.
  unfold bind at 1, print at 1, emit at 1. unfold bind at 1, get_self at 1.
  replace (self (emit_st (EvPrint MsgDownloadingSurveys) st)) with (self st) by reflexivity.
  rewrite emit_st_canonical, Hp. cbv zeta.
  rewrite (bind_lift_Ok _ _ _ _ Hws).
  erewrite try_except_HTTPError_caught
    by (apply (surveys_body_fails fl e rest _ _ [] st ws template Hok He Ht)).
  cbv beta.
  rewrite (bind_Ok _ _ _ _ _ (print_evolved _ _ _ _ _ _)).
  reflexivity.
Qed.

Lemma C7_http_error_ends_download_surveys_witness :
  let run := download_surveys
               (example_state (failure_script example_failure (error_reply 500) ++
                               [ids_reply []])) in
  fst run = Ok VNone /\
  pending (world (snd run)) = [ids_reply []] /\
  files (world (snd run)) =
  <["survey_S2_R1_2024-03-05.xlsx" := [x51]]>
    (<["survey_S1_R9_2024-03-05.xlsx" := [x50; x4b]]> ∅).
Proof.
  cbv zeta.
  rewrite (C7_http_error_ends_download_surveys example_failure (error_reply 500)
             [ids_reply []] _ "ws-1" "survey_{id}_{run}_{cdate}.xlsx").
  - split; [reflexivity |]. split; [reflexivity |]. vm_compute. reflexivity.
  - reflexivity.
  - apply example_failure_ok.
  - reflexivity.
  - vm_compute. reflexivity.
  - vm_compute. reflexivity.
Defined.

(** ** What the [except] clauses let through *)

Lemma try_except_HTTPError_catches {A} (body : M A) handler st c :
  (forall e st', fst (handler e st') <> Raise (HTTPError c)) ->
  fst (try_except_HTTPError body handler st) <> Raise (HTTPError c).
Proof.
  intros Hh. unfold try_except_HTTPError.
  destruct (body st) as [[a | [c' | | | | | |] |] st1]; cbn [fst]; try discriminate.
  apply Hh.
Qed.

(** Whatever the server answers, no HTTP error comes out of
    [download_surveys]. *)
Lemma download_surveys_catches st c : fst (download_surveys st) <> Raise (HTTPError c).
Proof.
  unfold download_surveys.
  unfold bind at 1, print at 1, emit at 1. unfold bind at 1, get_self at 1. cbv zeta.
  unfold bind at 1, lift at 1, config_get at 1.
  destruct (config _ !! "MANDATORY") as [sec |]; [| discriminate].
  destruct (sec !! "WORKSPACEID") as [ws |]; [| discriminate].
  apply try_except_HTTPError_catches. intros e st'. discriminate.
Qed.

(** Whatever the server answers, no HTTP error comes out of the
    download step of [take_snapshot]. *)
Lemma request_and_store_data_catches s ws key st c :
  fst (request_and_store_data s ws key st) <> Raise (HTTPError c).
Proof.
  unfold request_and_store_data.
  unfold bind at 1, print at 1, emit at 1.
  unfold bind at 1, lift at 1.
  destruct ws as [| | | w | |]; try (cbn [py_str_add fst]; congruence). cbn [py_str_add].
  unfold bind at 1, header_setitem at 1, bind at 1, get_self at 1.
  match goal with
  | |- context [header (self ?s)] => destruct (header (self s)) as [hd |]
  end; [| unfold raise; cbn; congruence].
  cbn [set_header]. unfold bind at 1.
  match goal with
  | |- context [try_except_HTTPError ?b ?h ?s] =>
      pose proof (try_except_HTTPError_catches b h s c) as Htry;
      destruct (try_except_HTTPError b h s) as [[[] | e |] st1]
  end; cbn [fst] in *.
  - cbn. congruence.
  - unfold bind, header_delitem, get_self, raise. cbn.
    destruct (header (self st1)) as [hd1 |]; [| cbn; congruence].
    destruct (hd1 !! "Accept"); cbn; congruence.
  - intros H. injection H as ->. apply Htry; [| reflexivity].
    intros e' st'. unfold bind, print, emit, ret. cbn [fst]. congruence.
  - cbn. congruence.
Qed.

(** ** The bound on the loop is never met *)

Lemma steady_ret {A} (a : A) : steady (ret a).
Proof. intros st. split; [discriminate | reflexivity]. Qed.

Lemma steady_raise {A} e : steady (@raise A e).
Proof. intros st. split; [discriminate | reflexivity]. Qed.

Lemma steady_lift {A} (o : outcome A) : defined o -> steady (lift o).
Proof. intros Ho st. split; [exact Ho | reflexivity]. Qed.

Lemma steady_bind {A B} (m : M A) (k : A -> M B) :
  steady m -> (forall a, steady (k a)) -> steady (bind m k).
Proof.
  intros Hm Hk st. unfold bind. destruct (Hm st) as [Hf Ht].
  destruct (m st) as [[a | e |] st1]; cbn [fst snd] in *.
  - destruct (Hk a st1) as [Hf' Ht']. split; [exact Hf' | congruence].
  - split; [discriminate | exact Ht].
  - contradiction.
Qed.

Lemma steady_get_self : steady get_self.
Proof. intros st. split; [discriminate | reflexivity]. Qed.

Lemma steady_emit e : steady (emit e).
Proof. intros st. split; [discriminate | reflexivity]. Qed.

Lemma steady_set_header h : steady (set_header h).
Proof. intros st. split; [discriminate | reflexivity]. Qed.

Lemma steady_receive : steady receive.
Proof.
  intros st. unfold receive. destruct (pending (world st)); split;
    first [discriminate | reflexivity].
Qed.

Lemma steady_get_today_date : steady get_today_date.
Proof. intros st. split; [discriminate | reflexivity]. Qed.

Lemma steady_open_wb name : steady (open_wb name).
Proof. intros st. split; [discriminate | reflexivity]. Qed.

Lemma steady_file_write name chunk : steady (file_write name chunk).
Proof. intros st. split; [discriminate | reflexivity]. Qed.

Lemma steady_raise_for_status r : steady (raise_for_status r).
Proof.
  unfold raise_for_status. destruct (is_error r); [apply steady_raise | apply steady_ret].
Qed.

Lemma steady_try {A} (body : M A) handler :
  steady body -> (forall e, steady (handler e)) -> steady (try_except_HTTPError body handler).
Proof.
  intros Hb Hh st. unfold try_except_HTTPError. destruct (Hb st) as [Hf Ht].
  destruct (body st) as [[a | [c | | | | | |] |] st1]; cbn [fst snd] in *;
    try (split; [discriminate | exact Ht]); try contradiction.
  destruct (Hh (HTTPError c) st1) as [Hf' Ht']. split; [exact Hf' | congruence].
Qed.

Lemma steady_for_each {A} (l : list A) (body : A -> M unit) :
  (forall a, steady (body a)) -> steady (for_each l body).
Proof.
  intros Hb. induction l as [| x l IH]; cbn [for_each]; [apply steady_ret |].
  apply steady_bind; [apply Hb | intros _; exact IH].
Qed.

#[local] Hint Resolve steady_ret steady_raise steady_get_self steady_emit steady_set_header
  steady_receive steady_get_today_date steady_open_wb steady_file_write
  steady_raise_for_status : steady.

(** Breaks a method down to the primitives above. *)
Ltac steady_step :=
  match goal with
  | |- steady (bind _ _) => apply steady_bind; [| intros ?]
  | |- steady (lift _) => apply steady_lift
  | |- steady (print _) => apply steady_emit
  | |- steady (sleep _) => apply steady_emit
  | |- steady (try_except_HTTPError _ _) => apply steady_try; [| intros ?]
  | |- steady (for_each _ _) => apply steady_for_each; intros ?
  | |- steady (if ?b then _ else _) => destruct b
  | |- steady (match ?x with _ => _ end) => destruct x
  | |- steady (let '(_, _) := ?x in _) => destruct x
  | |- defined (obind _ _) => apply defined_obind; [| intros ?]
  | |- defined (comprehension _ _) => apply defined_comprehension; intros ?
  | |- _ => solve [auto with steady]
  end.

Ltac steady_auto := repeat steady_step.

Lemma steady_connect : steady connect.
Proof. unfold connect. steady_auto. Qed.

Lemma steady_access url method data params stream :
  steady (access_leanix_api url method data params stream).
Proof. unfold access_leanix_api, requests_call. steady_auto. Qed.

#[local] Hint Resolve steady_connect steady_access : steady.

Lemma steady_header_setitem k v : steady (header_setitem k v).
Proof. unfold header_setitem. steady_auto. Qed.

Lemma steady_header_delitem k : steady (header_delitem k).
Proof. unfold header_delitem. steady_auto. Qed.

#[local] Hint Resolve steady_header_setitem steady_header_delitem : steady.

Lemma steady_trigger_export s : steady (trigger_export s).
Proof. unfold trigger_export. steady_auto. Qed.

Lemma steady_request_and_store_data s ws key : steady (request_and_store_data s ws key).
Proof. unfold request_and_store_data. steady_auto. Qed.

#[local] Hint Resolve steady_trigger_export steady_request_and_store_data : steady.

Lemma steady_request_download_key s ws : steady (request_download_key s ws).
Proof. unfold request_download_key. steady_auto. Qed.

Lemma bounded_bind T {A B} (m : M A) (k : A -> M B) st :
  steady m ->
  timeout (self st) = T ->
  (forall a st', timeout (self st') = T -> bounded T (k a st')) ->
  bounded T (bind m k st).
Proof.
  intros Hm HT Hk. unfold bind. destruct (Hm st) as [Hf Ht].
  destruct (m st) as [[a | e |] st1]; cbn [fst snd] in *.
  - apply Hk. congruence.
  - split; [discriminate | cbn; congruence].
  - contradiction.
Qed.

(** The loop returns or raises whenever its bound covers the rounds the
    timeout leaves room for. *)
Lemma poll_loop_bounded fuel : forall url status w ws st,
  (timeout (self st) - w <= 5 * Z.of_nat fuel)%Z ->
  bounded (timeout (self st)) (poll_loop fuel url status w ws st).
Proof.
  induction fuel as [| fuel IH]; intros url status w ws st Hw; cbn [poll_loop];
    unfold bind at 1, get_self at 1.
  - replace (w <? timeout (self st))%Z with false by (symmetry; apply Z.ltb_ge; lia).
    rewrite andb_false_r. split; [discriminate | reflexivity].
  - destruct (py_ne_str status "DONE" && (w <? timeout (self st))%Z);
      [| split; [discriminate | reflexivity]].
    repeat (apply bounded_bind; [steady_auto | try assumption; try reflexivity |];
            intros ? ? ?).
    match goal with
    | H : timeout (self ?s) = timeout (self st) |- bounded _ (poll_loop _ _ _ _ _ ?s) =>
        rewrite <- H; apply IH; rewrite H; lia
    end.
Qed.

Lemma poll_fuel_covers s : (timeout s - 0 <= 5 * Z.of_nat (poll_fuel s))%Z.
Proof.
  unfold poll_fuel.
  pose proof (Z.mul_succ_div_gt (timeout s + 4) 5).
  destruct (Z.le_gt_cases 0 ((timeout s + 4) / 5)); [rewrite Z2Nat.id by lia |]; lia.
Qed.

(** [take_snapshot] returns or raises: the bound [poll_fuel] it runs the
    loop with is never the reason it stops. *)
Theorem take_snapshot_total st : fst (take_snapshot st) <> OutOfFuel.
Proof.
  unfold take_snapshot.
  apply (bounded_bind (timeout (self st))); [steady_auto | reflexivity |].
  intros _ st1 H1. unfold bind at 1, get_self at 1.
  apply (bounded_bind (timeout (self st))); [steady_auto | exact H1 |].
  intros url st2 H2.
  assert (Hfuel : (timeout (self st2) - 0 <= 5 * Z.of_nat (poll_fuel (self st1)))%Z).
  { rewrite H2, <- H1. apply poll_fuel_covers. }
  pose proof (poll_loop_bounded (poll_fuel (self st1)) url VNone 0 VNone st2 Hfuel)
    as [Hf Ht].
  unfold bind.
  destruct (poll_loop (poll_fuel (self st1)) url VNone 0 VNone st2)
    as [[[[status w] ws] | e |] st3]; cbn [fst snd] in *.
  - destruct (w >=? timeout (self st1))%Z.
    + split; [discriminate | cbn; congruence].
    + pose proof (steady_request_download_key (self st1) ws st3) as [Hf' Ht'].
      split; [exact Hf' | congruence].
  - split; [discriminate | cbn; congruence].
  - contradiction.
Qed.

(** ** [connect] and the header *)

(** X2.  A token exchange that succeeds leaves a header with the one
    entry Authorization, whatever the header held before. *)
Theorem connect_installs_only_the_token st r rest t :
  pending (world st) = r :: rest ->
  token_response r t ->
  exists h,
    header (self (snd (connect st))) = Some h /\
    h !! "Authorization" = Some ("Bearer " +:+ t) /\
    forall k, k <> "Authorization" -> h !! k = None.
Proof.
  intros Hp Ht. rewrite (connect_ok _ _ _ _ Hp Ht).
  exists (bearer_header t). split; [reflexivity |]. unfold bearer_header. split.
  - apply lookup_singleton_eq.
  - intros k Hk. apply lookup_singleton_ne. congruence.
Qed.

Lemma connect_installs_only_the_token_witness :
  exists h,
    header (self (snd (connect (example_state [token_reply "t9"])))) = Some h /\
    h !! "Authorization" = Some "Bearer t9" /\
    forall k, k <> "Authorization" -> h !! k = None.
Proof.
  apply (connect_installs_only_the_token _ (token_reply "t9") [] "t9").
  - reflexivity.
  - split; reflexivity.
Defined.

(** X3.  Whatever the server answers, [connect] touches no file and no
    field of the object but the header, and the header only when it
    returns. *)
Theorem connect_changes_the_header_only st :
  files (world (snd (connect st))) = files (world st) /\
  with_header None (self (snd (connect st))) = with_header None (self st) /\
  (fst (connect st) <> Ok tt -> self (snd (connect st)) = self st).
Proof.
  unfold connect, bind, get_self, emit, receive, raise_for_status, lift.
  cbn [self world pending emit_st with_event].
  destruct (pending (world st)) as [| r rest]; [| destruct (is_error r)];
    cbn [fst snd ret raise]; try (repeat split; reflexivity).
  destruct (json r) as [b | |]; cbn [fst snd]; try (repeat split; reflexivity).
  destruct (py_getitem b "access_token") as [t | |]; cbn [fst snd];
    try (repeat split; reflexivity).
  destruct (py_str_add "Bearer " t) as [bearer | |]; cbn [fst snd set_header];
    try (repeat split; reflexivity).
  split; [reflexivity |]. split; [reflexivity |]. intros H. now destruct H.
Qed.

(** ** The gateway and the state *)

(** X4.  Whatever its arguments and whatever the server answers,
    [access_leanix_api] changes neither the object nor the files and
    reads one answer at most; the response it returns is the answer it
    read, and that answer is no HTTP error. *)
Theorem access_leanix_api_only_reads url method data params stream st :
  let run := access_leanix_api url method data params stream st in
  self (snd run) = self st /\
  files (world (snd run)) = files (world st) /\
  (pending (world (snd run)) = pending (world st) \/
   exists r, pending (world st) = r :: pending (world (snd run))) /\
  forall r, fst run = Ok r ->
            pending (world st) = r :: pending (world (snd run)) /\ is_error r = false.
Proof.
  cbv zeta. destruct (supported method) eqn:Hm.
  - rewrite access_supported by assumption.
    unfold bind, requests_call, emit, receive, raise_for_status. cbn.
    destruct (pending (world st)) as [| r rest] eqn:Hp; cbn; rewrite ?Hp.
    + split; [reflexivity |]. split; [reflexivity |]. split; [now left |]. intros r [=].
    + destruct (is_error r) eqn:He; cbn; rewrite ?Hp;
        (split; [reflexivity |]); (split; [reflexivity |]); (split; [right; now exists r |]).
      * intros r' [=].
      * intros r' [= <-]. split; [reflexivity | exact He].
  - rewrite access_unsupported by assumption. cbn.
    split; [reflexivity |]. split; [reflexivity |]. split; [now left |]. intros r [=].
Qed.

(** ** What the methods leave alone *)

Section Keeps.
Context (I : State -> Prop) (P : event -> Prop).

Lemma keeps_ret {A} (Q : A -> Prop) a : Q a -> keeps I P Q (ret a).
Proof.
  intros Hq st Hi. split; [exact Hi |]. split.
  - exists []. split; [symmetry; apply app_nil_r | constructor].
  - intros a' [= <-]. exact Hq.
Qed.

Lemma keeps_raise {A} (Q : A -> Prop) e : keeps I P Q (raise e).
Proof.
  intros st Hi. split; [exact Hi |]. split.
  - exists []. split; [symmetry; apply app_nil_r | constructor].
  - discriminate.
Qed.

Lemma keeps_out_of_fuel {A} (Q : A -> Prop) : keeps I P Q (fun st => (OutOfFuel, st)).
Proof.
  intros st Hi. split; [exact Hi |]. split.
  - exists []. split; [symmetry; apply app_nil_r | constructor].
  - discriminate.
Qed.

Lemma keeps_lift {A} (Q : A -> Prop) (o : outcome A) :
  (forall a, o = Ok a -> Q a) -> keeps I P Q (lift o).
Proof.
  intros Hq st Hi. split; [exact Hi |]. split.
  - exists []. split; [symmetry; apply app_nil_r | constructor].
  - exact Hq.
Qed.

Lemma keeps_weaken {A} (Q Q' : A -> Prop) (m : M A) :
  keeps I P Q m -> (forall a, Q a -> Q' a) -> keeps I P Q' m.
Proof.
  intros Hm Hq st Hi. destruct (Hm st Hi) as (Hi' & Hev & Hv).
  split; [exact Hi' |]. split; [exact Hev |]. intros a Ha. apply Hq, Hv, Ha.
Qed.

Lemma keeps_bind {A B} (Q : A -> Prop) (R : B -> Prop) (m : M A) (k : A -> M B) :
  keeps I P Q m -> (forall a, Q a -> keeps I P R (k a)) -> keeps I P R (bind m k).
Proof.
  intros Hm Hk st Hi. destruct (Hm st Hi) as (Hi1 & (evs1 & Ht1 & Hp1) & Hv1).
  unfold bind. destruct (m st) as [[a | e |] st1]; cbn [fst snd] in *.
  - destruct (Hk a (Hv1 a eq_refl) st1 Hi1) as (Hi2 & (evs2 & Ht2 & Hp2) & Hv2).
    split; [exact Hi2 |]. split; [| exact Hv2].
    exists (evs1 ++ evs2). split; [now rewrite Ht2, Ht1, app_assoc | now apply Forall_app].
  - split; [exact Hi1 |]. split; [eauto | discriminate].
  - split; [exact Hi1 |]. split; [eauto | discriminate].
Qed.

Lemma keeps_get_self (Q : LeanIX -> Prop) :
  (forall st, I st -> Q (self st)) -> keeps I P Q get_self.
Proof.
  intros Hq st Hi. split; [exact Hi |]. split.
  - exists []. split; [symmetry; apply app_nil_r | constructor].
  - intros a [= <-]. now apply Hq.
Qed.

Lemma keeps_get_today_date (Q : string -> Prop) :
  (forall st, I st -> Q (today (world st))) -> keeps I P Q get_today_date.
Proof.
  intros Hq st Hi. split; [exact Hi |]. split.
  - exists []. split; [symmetry; apply app_nil_r | constructor].
  - intros a [= <-]. now apply Hq.
Qed.

Lemma keeps_emit e : stable I -> P e -> keeps I P any (emit e).
Proof.
  intros Hs Hp st Hi. split; [now apply Hs |]. split; [| constructor].
  exists [e]. split; [reflexivity | now constructor].
Qed.

Lemma keeps_receive : stable I -> keeps I P any receive.
Proof.
  intros Hs st Hi. unfold receive. destruct (pending (world st)) as [| r rest].
  - split; [exact Hi |]. split; [| discriminate].
    exists []. split; [symmetry; apply app_nil_r | constructor].
  - split; [now apply Hs |]. split; [| constructor].
    exists []. split; [symmetry; apply app_nil_r | constructor].
Qed.

Lemma keeps_set_header h : header_free I -> keeps I P any (set_header h).
Proof.
  intros Hh st Hi. split; [now apply Hh |]. split; [| constructor].
  exists []. split; [symmetry; apply app_nil_r | constructor].
Qed.

Lemma keeps_raise_for_status r : keeps I P any (raise_for_status r).
Proof.
  unfold raise_for_status. destruct (is_error r); [apply keeps_raise | now apply keeps_ret].
Qed.

Lemma keeps_open_wb name :
  stable I -> allows_write I name -> P (EvOpen name) -> keeps I P any (open_wb name).
Proof.
  intros Hs Hw Hp st Hi. split; [apply Hs, Hw, Hi |]. split; [| constructor].
  exists [EvOpen name]. split; [reflexivity | now constructor].
Qed.

Lemma keeps_file_write name chunk :
  stable I -> allows_write I name -> P (EvWrite name chunk) ->
  keeps I P any (file_write name chunk).
Proof.
  intros Hs Hw Hp st Hi. split; [apply Hs, Hw, Hi |]. split; [| constructor].
  exists [EvWrite name chunk]. split; [reflexivity | now constructor].
Qed.

Lemma keeps_try {A} (Q : A -> Prop) (body : M A) handler :
  keeps I P Q body -> (forall e, keeps I P Q (handler e)) ->
  keeps I P Q (try_except_HTTPError body handler).
Proof.
  intros Hb Hh st Hi. destruct (Hb st Hi) as (Hi1 & (evs1 & Ht1 & Hp1) & Hv1).
  unfold try_except_HTTPError.
  destruct (body st) as [[a | [c | | | | | |] |] st1]; cbn [fst snd] in *;
    try (split; [exact Hi1 |]; split; [eauto | first [exact Hv1 | discriminate]]).
  destruct (Hh (HTTPError c) st1 Hi1) as (Hi2 & (evs2 & Ht2 & Hp2) & Hv2).
  split; [exact Hi2 |]. split; [| exact Hv2].
  exists (evs1 ++ evs2). split; [now rewrite Ht2, Ht1, app_assoc | now apply Forall_app].
Qed.

Lemma keeps_for_each {A} (l : list A) (body : A -> M unit) :
  (forall a, keeps I P any (body a)) -> keeps I P any (for_each l body).
Proof.
  intros Hb. induction l as [| x l IH]; cbn [for_each]; [now apply keeps_ret |].
  apply (keeps_bind any); [apply Hb | intros _ _; exact IH].
Qed.

Lemma keeps_access url method data params stream :
  stable I ->
  (forall st, I st ->
     P (EvRequest (request_of (header (self st)) (proxies (self st))
                     method url data params stream))) ->
  keeps I P any (access_leanix_api url method data params stream).
Proof.
  intros Hs Hp st Hi. destruct (supported method) eqn:Hm.
  - rewrite access_supported by assumption.
    unfold bind, requests_call, emit, receive, raise_for_status. cbn.
    destruct (pending (world st)) as [| r rest]; [| destruct (is_error r)]; cbn;
      (split; [first [apply Hs, Hs, Hi | apply Hs, Hi] |]);
      (split; [| constructor || discriminate]);
      eexists [_]; (split; [reflexivity |]); constructor; try constructor; now apply Hp.
  - rewrite access_unsupported by assumption.
    split; [exact Hi |]. split; [| discriminate].
    exists []. split; [symmetry; apply app_nil_r | constructor].
Qed.

Lemma keeps_connect :
  stable I -> header_free I ->
  (forall st, I st -> P (auth_event (self st))) ->
  keeps I P any connect.
Proof.
  intros Hs Hh Hp st Hi. unfold connect, bind, get_self, emit, receive, raise_for_status, lift.
  cbn [self world pending emit_st with_event].
  destruct (pending (world st)) as [| r rest]; [| destruct (is_error r)]; cbn [fst snd ret raise].
  1-2: (split; [first [apply Hs, Hs, Hi | apply Hs, Hi] |]); (split; [| discriminate]);
    eexists [_]; (split; [reflexivity |]); constructor; try constructor; now apply Hp.
  destruct (json r) as [b | |]; cbn [fst snd].
  2-3: (split; [apply Hs, Hs, Hi |]); (split; [| discriminate]);
    eexists [_]; (split; [reflexivity |]); constructor; try constructor; now apply Hp.
  destruct (py_getitem b "access_token") as [t | |]; cbn [fst snd].
  2-3: (split; [apply Hs, Hs, Hi |]); (split; [| discriminate]);
    eexists [_]; (split; [reflexivity |]); constructor; try constructor; now apply Hp.
  destruct (py_str_add "Bearer " t) as [bearer | |]; cbn [fst snd set_header].
  2-3: (split; [apply Hs, Hs, Hi |]); (split; [| discriminate]);
    eexists [_]; (split; [reflexivity |]); constructor; try constructor; now apply Hp.
  split; [apply Hh, Hs, Hs, Hi |]. split; [| constructor].
  eexists [_]. split; [reflexivity |]. constructor; try constructor. now apply Hp.
Qed.

Lemma keeps_header_setitem k v : header_free I -> keeps I P any (header_setitem k v).
Proof.
  intros Hh. unfold header_setitem.
  apply (keeps_bind any); [now apply keeps_get_self |]. intros s _.
  destruct (header s); [now apply keeps_set_header | apply keeps_raise].
Qed.

Lemma keeps_header_delitem k : header_free I -> keeps I P any (header_delitem k).
Proof.
  intros Hh. unfold header_delitem.
  apply (keeps_bind any); [now apply keeps_get_self |]. intros s _.
  destruct (header s) as [h |]; [| apply keeps_raise].
  destruct (h !! k); [now apply keeps_set_header | apply keeps_raise].
Qed.
End Keeps.

(** The parts of [take_snapshot], for a condition that ignores the
    header and allows writing the export file, and for events of every
    kind but sleeping. *)
Section SnapshotKeeps.
Context (I : State -> Prop) (P : event -> Prop) (s : LeanIX) (d : string).
Context (Hstable : stable I) (Hheader : header_free I).
Context (Htoday : forall st, I st -> today (world st) = d).
Context (Hwrite : forall template,
            config_get (config s) "OPTIONAL" "EXPORT_FILENAME" = Ok template ->
            allows_write I (replace template "{cdate}" d)).
Context (Hprint : forall m, P (EvPrint m)) (Hrequest : forall r, P (EvRequest r)).
Context (Hauth : forall u a b px, P (EvAuth u a b px)).
Context (Hopen : forall name, P (EvOpen name)).
Context (Hchunk : forall name chunk, P (EvWrite name chunk)).

Lemma keeps_print m : keeps I P any (print m).
Proof. apply keeps_emit; [exact Hstable | apply Hprint]. Qed.

Lemma keeps_access_any url method data params stream :
  keeps I P any (access_leanix_api url method data params stream).
Proof. apply keeps_access; [exact Hstable | intros; apply Hrequest]. Qed.

Lemma keeps_connect_any : keeps I P any connect.
Proof. apply keeps_connect; [exact Hstable | exact Hheader | intros; apply Hauth]. Qed.

Lemma keeps_lift_any {A} (o : outcome A) : keeps I P any (lift o).
Proof. apply keeps_lift. constructor. Qed.

Lemma keeps_trigger_export : keeps I P any (trigger_export s).
Proof.
  unfold trigger_export. cbv zeta.
  apply (keeps_bind _ _ any); [apply keeps_access_any | intros response _].
  apply (keeps_bind _ _ any); [apply keeps_lift_any | intros body _].
  apply (keeps_bind _ _ any); [apply keeps_lift_any | intros job_id _].
  apply (keeps_bind _ _ any); [apply keeps_print | intros _ _].
  apply (keeps_bind _ _ any); [apply keeps_print | intros _ _].
  apply keeps_lift_any.
Qed.

Lemma keeps_request_and_store_data ws key :
  keeps I P any (request_and_store_data s ws key).
Proof.
  unfold request_and_store_data.
  apply (keeps_bind _ _ any); [apply keeps_print | intros _ _].
  apply (keeps_bind _ _ any); [apply keeps_lift_any | intros download_url _].
  apply (keeps_bind _ _ any); [now apply keeps_header_setitem | intros _ _].
  apply (keeps_bind _ _ any).
  - apply keeps_try.
    + apply (keeps_bind _ _ any); [apply keeps_access_any | intros binary _].
      apply (keeps_bind _ _ (fun t => config_get (config s) "OPTIONAL" "EXPORT_FILENAME" = Ok t));
        [apply keeps_lift; auto | intros template Htemplate].
      apply (keeps_bind _ _ (fun c => c = d));
        [apply keeps_get_today_date; exact Htoday | intros cdate ->].
      cbv zeta.
      apply (keeps_bind _ _ any); [apply keeps_print | intros _ _].
      apply (keeps_bind _ _ any).
      * destruct (status_code binary =? 200)%Z; [| now apply keeps_ret].
        apply (keeps_bind _ _ any).
        -- apply keeps_open_wb; [exact Hstable | now apply Hwrite | apply Hopen].
        -- intros _ _. apply keeps_for_each. intros chunk.
           apply keeps_file_write; [exact Hstable | now apply Hwrite | apply Hchunk].
      * intros _ _. apply (keeps_bind _ _ any); [apply keeps_print | intros _ _].
        now apply keeps_ret.
    + intros e. apply (keeps_bind _ _ any); [apply keeps_print | intros _ _].
      now apply keeps_ret.
  - intros [] _; [now apply keeps_ret |].
    apply (keeps_bind _ _ any); [now apply keeps_header_delitem | intros _ _].
    now apply keeps_ret.
Qed.

Lemma keeps_request_download_key ws : keeps I P any (request_download_key s ws).
Proof.
  unfold request_download_key. cbv zeta.
  apply (keeps_bind _ _ any); [apply keeps_access_any | intros response _].
  apply (keeps_bind _ _ any); [apply keeps_lift_any | intros data _].
  apply (keeps_bind _ _ any); [apply keeps_lift_any | intros status _].
  apply (keeps_bind _ _ any); [apply keeps_lift_any | intros key _].
  destruct (py_ne_str status "COMPLETED"); [| apply keeps_request_and_store_data].
  apply (keeps_bind _ _ any); [apply keeps_print | intros _ _].
  now apply keeps_ret.
Qed.

(** One round of the loop up to its [sleep]. *)
Lemma keeps_poll_loop fuel :
  P (EvSleep 5) ->
  forall url status w ws, keeps I P any (poll_loop fuel url status w ws).
Proof.
  intros Hsleep. induction fuel as [| fuel IH]; intros url status w ws; cbn [poll_loop];
    (apply (keeps_bind _ _ any); [now apply keeps_get_self | intros s0 _]);
    destruct (py_ne_str status "DONE" && (w <? timeout s0)%Z); try (now apply keeps_ret).
  - apply keeps_out_of_fuel.
  - apply (keeps_bind _ _ any); [apply keeps_connect_any | intros _ _].
    apply (keeps_bind _ _ any); [apply keeps_access_any | intros response _].
    do 5 (apply (keeps_bind _ _ any); [apply keeps_lift_any | intros ? _]).
    apply (keeps_bind _ _ any); [apply keeps_print | intros _ _].
    cbv zeta.
    apply (keeps_bind _ _ any); [apply keeps_emit; assumption | intros _ _].
    apply IH.
Qed.

(** [take_snapshot] after its first line, [s] being [self]. *)
Lemma keeps_take_snapshot_rest :
  P (EvSleep 5) ->
  keeps I P any
    (status_check_url <- trigger_export s ;;
     loop <- poll_loop (poll_fuel s) status_check_url VNone 0 VNone ;;
     let '(status, waiting_since, workspace_id) := loop in
     if (waiting_since >=? timeout s)%Z then
       print MsgTimeoutExceeded ;;; ret (VBool false)
     else request_download_key s workspace_id)%py.
Proof.
  intros Hsleep.
  apply (keeps_bind _ _ any); [apply keeps_trigger_export | intros url _].
  apply (keeps_bind _ _ any); [now apply keeps_poll_loop | intros [[status w] ws] _].
  destruct (w >=? timeout s)%Z; [| apply keeps_request_download_key].
  apply (keeps_bind _ _ any); [apply keeps_print | intros _ _].
  now apply keeps_ret.
Qed.
End SnapshotKeeps.

(** [take_snapshot] is its first line followed by the rest, run for
    [self] as it is at the start. *)
Lemma take_snapshot_unfold st :
  take_snapshot st =
  (status_check_url <- trigger_export (self st) ;;
   loop <- poll_loop (poll_fuel (self st)) status_check_url VNone 0 VNone ;;
   let '(status, waiting_since, workspace_id) := loop in
   if (waiting_since >=? timeout (self st))%Z then
     print MsgTimeoutExceeded ;;; ret (VBool false)
   else request_download_key (self st) workspace_id)%py
    (emit_st (EvPrint MsgCreatingSnapshot) st).
Proof. reflexivity. Qed.

(** [take_snapshot] as a whole. *)
Lemma keeps_take_snapshot (I : State -> Prop) st :
  stable I -> header_free I ->
  (forall st', I st' -> today (world st') = today (world st)) ->
  (forall template,
     config_get (config (self st)) "OPTIONAL" "EXPORT_FILENAME" = Ok template ->
     allows_write I (replace template "{cdate}" (today (world st)))) ->
  I st ->
  I (snd (take_snapshot st)).
Proof.
  intros Hs Hh Ht Hw Hi. rewrite take_snapshot_unfold.
  apply (keeps_take_snapshot_rest I any (self st) (today (world st)) Hs Hh Ht Hw);
    try (intros; exact Logic.I).
  now apply Hs.
Qed.

(** ** Files that [take_snapshot] does not touch *)

Lemma file_is_stable name v d : stable (file_is name v d).
Proof. split; intros ? st H; exact H. Qed.

Lemma file_is_header_free name v d : header_free (file_is name v d).
Proof. intros h st H. exact H. Qed.

Lemma file_is_allows_write name v d other :
  other <> name -> allows_write (file_is name v d) other.
Proof.
  intros Hne bytes st [Hf Ht]. split; [| exact Ht].
  cbn [files_st world files with_files]. now rewrite lookup_insert_ne.
Qed.

(** X7.  Whatever the server answers, [take_snapshot] leaves every file
    but the export file as it was. *)
Theorem take_snapshot_touches_only_export_file st name :
  (forall template,
     config_get (config (self st)) "OPTIONAL" "EXPORT_FILENAME" = Ok template ->
     name <> replace template "{cdate}" (today (world st))) ->
  files (world (snd (take_snapshot st))) !! name = files (world st) !! name.
Proof.
  intros Hname.
  apply (keeps_take_snapshot (file_is name (files (world st) !! name) (today (world st))) st).
  - apply file_is_stable.
  - apply file_is_header_free.
  - intros st' [_ Ht]. exact Ht.
  - intros template Ht. apply file_is_allows_write. intros Heq. now apply (Hname template Ht).
  - split; reflexivity.
Qed.

Lemma take_snapshot_touches_only_export_file_witness :
  files (world (snd (take_snapshot (example_state (download_script (binary_reply 200 [x50]) [])))))
    !! "notes.txt" =
  files (world (example_state (download_script (binary_reply 200 [x50]) []))) !! "notes.txt".
Proof.
  apply take_snapshot_touches_only_export_file.
  intros template Ht. vm_compute in Ht. injection Ht as <-. vm_compute. discriminate.
Defined.

(** ** How long [take_snapshot] sleeps *)

Lemma slept_app evs1 evs2 : slept (evs1 ++ evs2) = (slept evs1 + slept evs2)%Z.
Proof.
  induction evs1 as [| e evs1 IH]; [reflexivity |].
  destruct e; cbn [app slept]; rewrite IH; lia.
Qed.

Lemma slept_awake evs : Forall awake evs -> slept evs = 0%Z.
Proof.
  induction 1 as [| e evs He _ IH]; [reflexivity |].
  destruct e; cbn [slept]; try exact IH. contradiction.
Qed.

Lemma timeout_is_stable T d : stable (timeout_is T d).
Proof. split; intros ? st H; exact H. Qed.

Lemma timeout_is_header_free T d : header_free (timeout_is T d).
Proof. intros h st H. exact H. Qed.

Lemma timeout_is_allows_write T d name : allows_write (timeout_is T d) name.
Proof. intros bytes st H. exact H. Qed.

Section Sleep.
Context (I : State -> Prop).

Lemma sleeps_weaken {A} (m : M A) n n' :
  sleeps_at_most I n m -> (n <= n')%Z -> sleeps_at_most I n' m.
Proof.
  intros Hm Hn st Hi. destruct (Hm st Hi) as (Hi' & evs & Hev & Hs).
  split; [exact Hi' |]. exists evs. split; [exact Hev | lia].
Qed.

Lemma sleeps_quiet {A} (Q : A -> Prop) (m : M A) n :
  keeps I awake Q m -> (0 <= n)%Z -> sleeps_at_most I n m.
Proof.
  intros Hm Hn st Hi. destruct (Hm st Hi) as (Hi' & (evs & Hev & Ha) & _).
  split; [exact Hi' |]. exists evs. split; [exact Hev |]. rewrite slept_awake by assumption. lia.
Qed.

Lemma sleeps_after_quiet {A B} (Q : A -> Prop) (m : M A) (k : A -> M B) n :
  keeps I awake Q m -> (0 <= n)%Z -> (forall a, Q a -> sleeps_at_most I n (k a)) ->
  sleeps_at_most I n (bind m k).
Proof.
  intros Hm Hn Hk st Hi. destruct (Hm st Hi) as (Hi1 & (evs1 & Hev1 & Ha1) & Hv1).
  unfold bind. destruct (m st) as [[a | e |] st1]; cbn [fst snd] in *.
  - destruct (Hk a (Hv1 a eq_refl) st1 Hi1) as (Hi2 & evs2 & Hev2 & Hs2).
    split; [exact Hi2 |]. exists (evs1 ++ evs2).
    split; [now rewrite Hev2, Hev1, app_assoc |].
    rewrite slept_app, (slept_awake evs1) by assumption. lia.
  - split; [exact Hi1 |]. exists evs1. split; [exact Hev1 |].
    rewrite slept_awake by assumption. lia.
  - split; [exact Hi1 |]. exists evs1. split; [exact Hev1 |].
    rewrite slept_awake by assumption. lia.
Qed.

Lemma sleeps_then_quiet {A B} (m : M A) (k : A -> M B) n :
  sleeps_at_most I n m -> (0 <= n)%Z -> (forall a, keeps I awake any (k a)) ->
  sleeps_at_most I n (bind m k).
Proof.
  intros Hm Hn Hk st Hi. destruct (Hm st Hi) as (Hi1 & evs1 & Hev1 & Hs1).
  unfold bind. destruct (m st) as [[a | e |] st1]; cbn [fst snd] in *.
  - destruct (Hk a st1 Hi1) as (Hi2 & (evs2 & Hev2 & Ha2) & _).
    split; [exact Hi2 |]. exists (evs1 ++ evs2).
    split; [now rewrite Hev2, Hev1, app_assoc |].
    rewrite slept_app, (slept_awake evs2) by assumption. lia.
  - split; [exact Hi1 |]. eauto.
  - split; [exact Hi1 |]. eauto.
Qed.

Lemma sleeps_sleep {B} (k : unit -> M B) seconds n :
  stable I -> (0 <= seconds)%Z -> (0 <= n)%Z ->
  sleeps_at_most I n (k tt) -> sleeps_at_most I (seconds + n) (bind (sleep seconds) k).
Proof.
  intros Hst Hsec Hn Hk st Hi. unfold bind, sleep, emit.
  destruct (Hk (emit_st (EvSleep seconds) st)) as (Hi2 & evs2 & Hev2 & Hs2); [now apply Hst |].
  split; [exact Hi2 |]. exists (EvSleep seconds :: evs2). split.
  - rewrite Hev2. cbn [emit_st world trace with_event]. now rewrite <- app_assoc.
  - cbn [slept]. lia.
Qed.
End Sleep.

Lemma budget_nonneg T w : (0 <= budget T w)%Z.
Proof. unfold budget. lia. Qed.

Lemma budget_step T w : (w < T)%Z -> (5 + budget T (w + 5) = budget T w)%Z.
Proof.
  intros Hw. unfold budget.
  replace (T - (w + 5) + 4)%Z with ((T - w + 4) + (-1) * 5)%Z by lia.
  rewrite Z.div_add by lia.
  assert (1 <= (T - w + 4) / 5)%Z by (apply Z.div_le_lower_bound; lia).
  lia.
Qed.

Lemma budget_start T : (budget T 0 < Z.max 0 T + 5)%Z.
Proof.
  unfold budget.
  pose proof (Z.mul_div_le (T - 0 + 4) 5). lia.
Qed.

Section LoopSleep.
Context (T : Z) (d : string) (s : LeanIX).

Local Abbreviation I := (timeout_is T d).


Lemma poll_loop_sleeps fuel : forall url status w ws,
  sleeps_at_most I (budget T w) (poll_loop fuel url status w ws).
Proof.
  induction fuel as [| fuel IH]; intros url status w ws; cbn [poll_loop];
    (apply (sleeps_after_quiet I (fun s0 => timeout s0 = T));
     [apply keeps_get_self; now intros st [Ht _] | apply budget_nonneg | intros s0 Hs0]);
    destruct (py_ne_str status "DONE" && (w <? timeout s0)%Z) eqn:Hguard;
    try (apply (sleeps_quiet I any); [now apply keeps_ret | apply budget_nonneg]).
  - apply (sleeps_quiet I any); [apply keeps_out_of_fuel | apply budget_nonneg].
  - apply andb_true_iff in Hguard as [_ Hlt]. apply Z.ltb_lt in Hlt. rewrite Hs0 in Hlt.
    assert (Hq : forall A (o : outcome A), keeps I awake any (lift o))
      by (intros; apply keeps_lift; constructor).
    apply (sleeps_after_quiet I any); [| apply budget_nonneg | intros _ _].
    { apply keeps_connect; [apply timeout_is_stable | apply timeout_is_header_free |].
      intros; exact Logic.I. }
    apply (sleeps_after_quiet I any); [| apply budget_nonneg | intros response _].
    { apply keeps_access; [apply timeout_is_stable | intros; exact Logic.I]. }
    do 5 (apply (sleeps_after_quiet I any); [apply Hq | apply budget_nonneg | intros ? _]).
    apply (sleeps_after_quiet I any); [| apply budget_nonneg | intros _ _].
    { apply keeps_emit; [apply timeout_is_stable | exact Logic.I]. }
    cbv zeta. rewrite <- (budget_step T w Hlt).
    apply sleeps_sleep; [apply timeout_is_stable | lia | apply budget_nonneg | apply IH].
Qed.
End LoopSleep.

(** X6.  Whatever the server answers, the seconds [take_snapshot] sleeps
    stay below its timeout, if positive, plus one interval of five. *)
Theorem take_snapshot_sleep_is_bounded st :
  exists evs,
    trace (world (snd (take_snapshot st))) = trace (world st) ++ evs /\
    (slept evs < Z.max 0 (timeout (self st)) + 5)%Z.
Proof.
  rewrite take_snapshot_unfold.
  set (T := timeout (self st)) in *. set (d := today (world st)).
  assert (Hrest : sleeps_at_most (timeout_is T d) (budget T 0)
            (status_check_url <- trigger_export (self st) ;;
             loop <- poll_loop (poll_fuel (self st)) status_check_url VNone 0 VNone ;;
             let '(status, waiting_since, workspace_id) := loop in
             if (waiting_since >=? T)%Z then
               print MsgTimeoutExceeded ;;; ret (VBool false)
             else request_download_key (self st) workspace_id)%py).
  { apply (sleeps_after_quiet _ any); [| apply budget_nonneg | intros url _].
    { apply (keeps_trigger_export _ awake (self st));
        [apply timeout_is_stable | intros; exact Logic.I..]. }
    apply sleeps_then_quiet; [apply poll_loop_sleeps | apply budget_nonneg |].
    intros [[status w] ws].
    destruct (w >=? T)%Z.
    - apply (keeps_bind _ _ any); [| intros _ _; now apply keeps_ret].
      apply keeps_emit; [apply timeout_is_stable | exact Logic.I].
    - apply (keeps_request_download_key _ awake (self st) d);
        try (intros; exact Logic.I).
      + apply timeout_is_stable.
      + apply timeout_is_header_free.
      + now intros st' [_ Hd].
      + intros. apply timeout_is_allows_write. }
  destruct (Hrest (emit_st (EvPrint MsgCreatingSnapshot) st)) as (_ & evs & Hev & Hs);
    [split; reflexivity |].
  exists (EvPrint MsgCreatingSnapshot :: evs). split.
  - fold T. rewrite Hev. cbn [emit_st world trace with_event]. now rewrite <- app_assoc.
  - cbn [slept]. pose proof (budget_start T). lia.
Qed.

(** ** What [download_surveys] leaves alone *)

(** The parts of [download_surveys], for a condition that allows
    writing the result files, and for events that include its prints,
    its file output and its requests. *)
Section SurveyKeeps.
Context (I : State -> Prop) (P : event -> Prop) (s : LeanIX) (d : string).
Context (params : list (string * value)).
Context (Hstable : stable I).
Context (Htoday : forall st, I st -> today (world st) = d).
Context (Hwrite : forall template sid rid,
            config_get (config s) "OPTIONAL" "SURVEY_FILENAME" = Ok template ->
            allows_write I (survey_filename template d sid rid)).
Context (Hprint : forall m, P (EvPrint m)).
Context (Hopen : forall name, P (EvOpen name)).
Context (Hchunk : forall name chunk, P (EvWrite name chunk)).
Context (Hrequest : forall url st, I st ->
            P (EvRequest (request_of (header (self st)) (proxies (self st))
                            "GET" url None params false))).

Lemma keeps_get_run_result survey run : keeps I P any (get_run_result s params survey run).
Proof.
  unfold get_run_result.
  apply (keeps_bind _ _ any); [apply keeps_lift; constructor | intros line _].
  destruct survey as [| | | sid | |]; try apply keeps_raise.
  destruct run as [| | | rid | |]; try apply keeps_raise.
  apply (keeps_bind _ _ any); [apply keeps_emit; [exact Hstable | apply Hprint] | intros _ _].
  cbv zeta.
  apply (keeps_bind _ _ any); [apply keeps_access; [exact Hstable | apply Hrequest] |].
  intros file _.
  apply (keeps_bind _ _ (fun t => config_get (config s) "OPTIONAL" "SURVEY_FILENAME" = Ok t));
    [apply keeps_lift; auto | intros template Htemplate].
  apply (keeps_bind _ _ (fun c => c = d));
    [apply keeps_get_today_date; exact Htoday | intros cdate ->].
  apply (keeps_bind _ _ any).
  - apply keeps_open_wb; [exact Hstable | now apply (Hwrite template sid rid) | apply Hopen].
  - intros _ _.
    apply keeps_file_write; [exact Hstable | now apply (Hwrite template sid rid) | apply Hchunk].
Qed.

Lemma keeps_get_survey_runs survey : keeps I P any (get_survey_runs s params survey).
Proof.
  unfold get_survey_runs.
  apply (keeps_bind _ _ any); [apply keeps_lift; constructor | intros run_url _].
  apply (keeps_bind _ _ any); [apply keeps_access; [exact Hstable | apply Hrequest] |].
  intros response _.
  do 3 (apply (keeps_bind _ _ any); [apply keeps_lift; constructor | intros ? _]).
  apply keeps_for_each. intros run. apply keeps_get_run_result.
Qed.

(** The [try] statement of [download_surveys]. *)
Lemma keeps_surveys_try url :
  keeps I P any
    (try_except_HTTPError
       (response <- access_leanix_api url "GET" None params false ;;
        body <- lift (json response) ;;
        survey_ids <- lift (py_getitem body "data") ;;
        surveys <- lift (xs <~ py_iter survey_ids ;;
                         comprehension (fun x => py_getitem x "id") xs) ;;
        for_each surveys (get_survey_runs s params) ;;;
        ret VNone)
       (fun err => print (MsgSurveysError err) ;;; ret VNone))%py.
Proof.
  apply keeps_try.
  - apply (keeps_bind _ _ any); [apply keeps_access; [exact Hstable | apply Hrequest] |].
    intros response _.
    do 3 (apply (keeps_bind _ _ any); [apply keeps_lift; constructor | intros ? _]).
    apply (keeps_bind _ _ any); [| intros _ _; now apply keeps_ret].
    apply keeps_for_each. intros survey. apply keeps_get_survey_runs.
  - intros e.
    apply (keeps_bind _ _ any); [apply keeps_emit; [exact Hstable | apply Hprint] |].
    intros _ _. now apply keeps_ret.
Qed.
End SurveyKeeps.

(** [download_surveys] is its first line followed by the rest, run for
    [self] as it is at the start. *)
Lemma download_surveys_unfold st :
  download_surveys st =
  (workspace <- lift (config_get (config (self st)) "MANDATORY" "WORKSPACEID") ;;
   try_except_HTTPError
     (response <- access_leanix_api (surveys_url (self st)) "GET" None
                    [("workspaceId", VStr workspace)] false ;;
      body <- lift (json response) ;;
      survey_ids <- lift (py_getitem body "data") ;;
      surveys <- lift (xs <~ py_iter survey_ids ;;
                       comprehension (fun x => py_getitem x "id") xs) ;;
      for_each surveys (get_survey_runs (self st) [("workspaceId", VStr workspace)]) ;;;
      ret VNone)
     (fun err => print (MsgSurveysError err) ;;; ret VNone))%py
    (emit_st (EvPrint MsgDownloadingSurveys) st).
Proof. reflexivity. Qed.

(** [download_surveys] as a whole. *)
Lemma keeps_download_surveys (I : State -> Prop) (P : event -> Prop) st :
  stable I ->
  (forall st', I st' -> today (world st') = today (world st)) ->
  (forall template sid rid,
     config_get (config (self st)) "OPTIONAL" "SURVEY_FILENAME" = Ok template ->
     allows_write I (survey_filename template (today (world st)) sid rid)) ->
  (forall m, P (EvPrint m)) ->
  (forall name, P (EvOpen name)) ->
  (forall name chunk, P (EvWrite name chunk)) ->
  (forall url params st', I st' ->
     P (EvRequest (request_of (header (self st')) (proxies (self st'))
                     "GET" url None params false))) ->
  I st ->
  I (snd (download_surveys st)) /\
  exists evs,
    trace (world (snd (download_surveys st))) = trace (world st) ++ evs /\ Forall P evs.
Proof.
  intros Hs Ht Hw Hp Ho Hc Hr Hi. rewrite download_surveys_unfold.
  assert (Hrest : keeps I P any
            (workspace <- lift (config_get (config (self st)) "MANDATORY" "WORKSPACEID") ;;
             try_except_HTTPError
               (response <- access_leanix_api (surveys_url (self st)) "GET" None
                              [("workspaceId", VStr workspace)] false ;;
                body <- lift (json response) ;;
                survey_ids <- lift (py_getitem body "data") ;;
                surveys <- lift (xs <~ py_iter survey_ids ;;
                                 comprehension (fun x => py_getitem x "id") xs) ;;
                for_each surveys
                  (get_survey_runs (self st) [("workspaceId", VStr workspace)]) ;;;
                ret VNone)
               (fun err => print (MsgSurveysError err) ;;; ret VNone))%py).
  { apply (keeps_bind _ _ any); [apply keeps_lift; constructor | intros workspace _].
    apply (keeps_surveys_try I P (self st) (today (world st))); auto. }
  destruct (Hrest (emit_st (EvPrint MsgDownloadingSurveys) st)) as (Hi' & (evs & Hev & Hpe) & _);
    [now apply Hs |].
  split; [exact Hi' |].
  exists (EvPrint MsgDownloadingSurveys :: evs). split; [| constructor; [apply Hp | exact Hpe]].
  rewrite Hev. cbn [emit_st world trace with_event]. now rewrite <- app_assoc.
Qed.

Lemma object_is_stable s d : stable (object_is s d).
Proof. split; intros ? st H; exact H. Qed.

Lemma object_is_allows_write s d name : allows_write (object_is s d) name.
Proof. intros bytes st H. exact H. Qed.

(** X15.  Whatever the server answers, [download_surveys] leaves the
    object as it found it, header included; it exchanges no token and
    does not sleep, and each request it sends is a GET under the header
    and the proxy table it found. *)
Theorem download_surveys_uses_the_header_it_finds st :
  self (snd (download_surveys st)) = self st /\
  exists evs,
    trace (world (snd (download_surveys st))) = trace (world st) ++ evs /\
    Forall (survey_event (self st)) evs.
Proof.
  destruct (keeps_download_surveys (object_is (self st) (today (world st)))
              (survey_event (self st)) st) as ([Hself _] & Hev).
  - apply object_is_stable.
  - now intros st' [_ Ht].
  - intros. apply object_is_allows_write.
  - intros; exact Logic.I.
  - intros; exact Logic.I.
  - intros; exact Logic.I.
  - intros url params st' [-> _]. repeat split.
  - split; reflexivity.
  - split; assumption.
Qed.

(** X16.  Whatever the server answers, [download_surveys] leaves every
    file as it was whose name the result-file template cannot give. *)
Theorem download_surveys_touches_only_result_files st name :
  (forall template sid rid,
     config_get (config (self st)) "OPTIONAL" "SURVEY_FILENAME" = Ok template ->
     name <> survey_filename template (today (world st)) sid rid) ->
  files (world (snd (download_surveys st))) !! name = files (world st) !! name.
Proof.
  intros Hname.
  apply (keeps_download_surveys (file_is name (files (world st) !! name) (today (world st)))
           any st); try (intros; exact Logic.I).
  - apply file_is_stable.
  - now intros st' [_ Ht].
  - intros template sid rid Ht. apply file_is_allows_write. intros Heq.
    now apply (Hname template sid rid Ht).
  - split; reflexivity.
Qed.

Lemma download_surveys_touches_only_result_files_witness :
  files (world (snd (download_surveys
                       (example_state (ids_reply ["S1"] :: survey_script example_survey)))))
    !! "notes.txt" =
  files (world (example_state (ids_reply ["S1"] :: survey_script example_survey)))
    !! "notes.txt".
Proof.
  apply download_surveys_touches_only_result_files.
  intros template sid rid Ht. vm_compute in Ht. injection Ht as <-.
  unfold survey_filename, replace. simpl. discriminate.
Defined.

(** ** The [try] block of [download_surveys] *)

Lemma try_except_HTTPError_returns {A} (body : M A) handler st a st' :
  body st = (Ok a, st') ->
  try_except_HTTPError body handler st = (Ok a, st').
Proof. intros H. unfold try_except_HTTPError. now rewrite H. Qed.

Lemma config_get_raises cfg section key e :
  config_get cfg section key = Raise e -> e = KeyError section \/ e = KeyError key.
Proof.
  unfold config_get. destruct (cfg !! section) as [sec |]; [| intros [= <-]; now left].
  destruct (sec !! key); [discriminate | intros [= <-]; now right].
Qed.

Lemma try_except_HTTPError_passes {A} (body : M A) handler st e st' :
  body st = (Raise e, st') ->
  (forall c, e <> HTTPError c) ->
  try_except_HTTPError body handler st = (Raise e, st').
Proof.
  intros H He. unfold try_except_HTTPError. rewrite H.
  destruct e; try reflexivity. now destruct (He status).
Qed.

(** ** Surveys without runs *)

Lemma get_survey_runs_no_runs s ws sv h rest f evs st :
  s = self st ->
  listing_response (runs_response sv) [] ->
  get_survey_runs s [("workspaceId", VStr ws)] (VStr (survey_id sv))
    (evolved h (runs_response sv :: rest) f evs st) =
  (Ok tt, evolved h rest f (evs ++ [runs_request (self st) h ws sv]) st).
Proof.
  intros -> [He Hids]. apply ids_of_inv in Hids as (b & d & Hj & Hd & Hids).
  unfold get_survey_runs.
  rewrite bind_lift_Ok with (a := runs_url (self st) (survey_id sv)) by reflexivity.
  erewrite bind_Ok by (apply access_evolved_ok; [reflexivity | exact He]).
  rewrite (bind_lift_Ok _ _ _ _ Hj), (bind_lift_Ok _ _ _ _ Hd), (bind_lift_Ok _ _ _ _ Hids).
  reflexivity.
Qed.

Lemma surveys_loop_no_runs ws svs : forall h rest f evs st,
  Forall (fun sv => listing_response (runs_response sv) []) svs ->
  for_each (map VStr (map survey_id svs))
    (get_survey_runs (self st) [("workspaceId", VStr ws)])
    (evolved h (map runs_response svs ++ rest) f evs st) =
  (Ok tt, evolved h rest f (evs ++ map (runs_request (self st) h ws) svs) st).
Proof.
  induction svs as [| sv svs IH]; intros h rest f evs st Hok; cbn [map for_each app].
  - now rewrite app_nil_r.
  - inversion Hok as [| ? ? H1 Hok']; subst.
    rewrite (bind_Ok _ _ _ _ _ (get_survey_runs_no_runs _ ws sv _ _ _ _ _ eq_refl H1)).
    rewrite IH by assumption. rewrite <- app_assoc. reflexivity.
Qed.

(** X17.  When the survey listing and every run listing are answered
    without HTTP error and no survey has a run, [download_surveys] asks
    for the runs of each listed survey, in the order of the listing,
    and returns [None]: it opens no file, and it does not read the
    option SURVEY_FILENAME. *)
Theorem download_surveys_asks_every_survey_for_runs st listing svs rest ws :
  pending (world st) = listing :: map runs_response svs ++ rest ->
  listing_response listing (map survey_id svs) ->
  Forall (fun sv => listing_response (runs_response sv) []) svs ->
  config_get (config (self st)) "MANDATORY" "WORKSPACEID" = Ok ws ->
  download_surveys st =
  (Ok VNone,
   evolved (header (self st)) rest (files (world st))
     (EvPrint MsgDownloadingSurveys ::
      EvRequest (survey_request (self st) (header (self st)) ws (surveys_url (self st))) ::
      map (runs_request (self st) (header (self st)) ws) svs)
     st).
Proof.
  intros Hp [Hel Hids] Hok Hws.
  apply ids_of_inv in Hids as (b & d & Hj & Hd & Hids).
  rewrite download_surveys_unfold, emit_st_canonical, Hp.
  rewrite (bind_lift_Ok _ _ _ _ Hws).
  apply try_except_HTTPError_returns.
  erewrite bind_Ok by (apply access_evolved_ok; [reflexivity | exact Hel]).
  rewrite (bind_lift_Ok _ _ _ _ Hj), (bind_lift_Ok _ _ _ _ Hd), (bind_lift_Ok _ _ _ _ Hids).
  rewrite (bind_Ok _ _ _ _ _ (surveys_loop_no_runs ws svs _ _ _ _ st Hok)).
  unfold ret, survey_request. rewrite <- app_assoc. reflexivity.
Qed.

Lemma download_surveys_asks_every_survey_for_runs_witness :
  trace (world (snd (download_surveys
                       (example_state (ids_reply ["S1"; "S2"; "S3"] ::
                                       map runs_response
                                         (map runless_survey ["S1"; "S2"; "S3"]) ++ []))))) =
  [EvPrint MsgDownloadingSurveys;
   EvRequest (survey_request example_self (Some (bearer_header "t0")) "ws-1"
                "https://eu.leanix.net/services/poll/v2/polls");
   EvRequest (survey_request example_self (Some (bearer_header "t0")) "ws-1"
                "https://eu.leanix.net/services/poll/v2/polls/S1/pollRuns");
   EvRequest (survey_request example_self (Some (bearer_header "t0")) "ws-1"
                "https://eu.leanix.net/services/poll/v2/polls/S2/pollRuns");
   EvRequest (survey_request example_self (Some (bearer_header "t0")) "ws-1"
                "https://eu.leanix.net/services/poll/v2/polls/S3/pollRuns")].
Proof.
  rewrite (download_surveys_asks_every_survey_for_runs _ (ids_reply ["S1"; "S2"; "S3"])
             (map runless_survey ["S1"; "S2"; "S3"]) [] "ws-1").
  - reflexivity.
  - reflexivity.
  - apply (ids_reply_ok ["S1"; "S2"; "S3"]).
  - repeat constructor; apply (ids_reply_ok []).
  - vm_compute. reflexivity.
Defined.

(** ** Options [download_surveys] cannot read *)

(** X18.  Without the WORKSPACEID option [download_surveys] raises the
    [KeyError] of the lookup after its first print; the lookup stands
    before the [try], and nothing has been requested. *)
Theorem download_surveys_needs_workspace st e :
  config_get (config (self st)) "MANDATORY" "WORKSPACEID" = Raise e ->
  download_surveys st = (Raise e, emit_st (EvPrint MsgDownloadingSurveys) st).
Proof.
  intros Hws. rewrite download_surveys_unfold. now rewrite (bind_lift_Raise _ _ _ _ Hws).
Qed.

Lemma download_surveys_needs_workspace_witness :
  fst (download_surveys (configured_state no_workspace_config [ids_reply []])) =
  Raise (KeyError "WORKSPACEID").
Proof.
  rewrite (download_surveys_needs_workspace _ (KeyError "WORKSPACEID")).
  - reflexivity.
  - vm_compute. reflexivity.
Defined.

(** X19.  An exception that is no HTTP error passes through the [except]
    clause of [download_surveys]: when the first result arrives and the
    SURVEY_FILENAME option is missing, the [KeyError] of the lookup
    leaves the method, and no file has been written. *)
Theorem download_surveys_lets_KeyError_through
    st listing sid later runs rid later_runs result rest ws e :
  pending (world st) = listing :: runs :: result :: rest ->
  listing_response listing (sid :: later) ->
  listing_response runs (rid :: later_runs) ->
  is_error result = false ->
  config_get (config (self st)) "MANDATORY" "WORKSPACEID" = Ok ws ->
  config_get (config (self st)) "OPTIONAL" "SURVEY_FILENAME" = Raise e ->
  download_surveys st =
  (Raise e,
   evolved (header (self st)) rest (files (world st))
     ([EvPrint MsgDownloadingSurveys;
       EvRequest (survey_request (self st) (header (self st)) ws (surveys_url (self st)));
       EvRequest (survey_request (self st) (header (self st)) ws (runs_url (self st) sid))] ++
      result_attempt (self st) (header (self st)) ws sid rid)
     st).
Proof.
  intros Hp [Hel Hids] [Her Hrids] Heres Hws Ht.
  assert (He : forall c, e <> HTTPError c)
    by (intros c; destruct (config_get_raises _ _ _ _ Ht) as [-> | ->]; discriminate).
  apply ids_of_inv in Hids as (b & d & Hj & Hd & Hids).
  apply ids_of_inv in Hrids as (b' & d' & Hj' & Hd' & Hrids).
  rewrite download_surveys_unfold, emit_st_canonical, Hp.
  rewrite (bind_lift_Ok _ _ _ _ Hws).
  apply try_except_HTTPError_passes; [| exact He].
  erewrite bind_Ok by (apply access_evolved_ok; [reflexivity | exact Hel]).
  rewrite (bind_lift_Ok _ _ _ _ Hj), (bind_lift_Ok _ _ _ _ Hd), (bind_lift_Ok _ _ _ _ Hids).
  cbn [map for_each]. apply bind_Raise. apply bind_Raise.
  unfold get_survey_runs.
  rewrite bind_lift_Ok with (a := runs_url (self st) sid) by reflexivity.
  erewrite bind_Ok by (apply access_evolved_ok; [reflexivity | exact Her]).
  rewrite (bind_lift_Ok _ _ _ _ Hj'), (bind_lift_Ok _ _ _ _ Hd'), (bind_lift_Ok _ _ _ _ Hrids).
  cbn [map for_each]. apply bind_Raise.
  unfold get_run_result.
  rewrite bind_lift_Ok with (a := ("Survey " +:+ sid +:+ " - Run ") +:+ rid) by reflexivity.
  rewrite (bind_Ok _ _ _ _ _ (print_evolved _ _ _ _ _ _)). cbv zeta.
  erewrite bind_Ok by (apply access_evolved_ok; [reflexivity | exact Heres]).
  rewrite (bind_lift_Raise _ _ _ _ Ht).
  unfold result_attempt, survey_request. rewrite <- !app_assoc. reflexivity.
Qed.

Lemma download_surveys_lets_KeyError_through_witness :
  fst (download_surveys
         (configured_state (delete "OPTIONAL" proxy_config)
            [ids_reply ["S1"]; ids_reply ["R9"]; binary_reply 200 [x50]])) =
  Raise (KeyError "OPTIONAL").
Proof.
  rewrite (download_surveys_lets_KeyError_through _ (ids_reply ["S1"]) "S1" []
             (ids_reply ["R9"]) "R9" [] (binary_reply 200 [x50]) [] "ws-1"
             (KeyError "OPTIONAL")).
  - reflexivity.
  - reflexivity.
  - apply (ids_reply_ok ["S1"]).
  - apply (ids_reply_ok ["R9"]).
  - reflexivity.
  - vm_compute. reflexivity.
  - vm_compute. reflexivity.
Defined.

(** ** Answers [take_snapshot] cannot use *)

(** X9.  When the export listing is empty, [take_snapshot] raises the
    [IndexError] of [data["data"][0]] after the lookup; nothing is
    downloaded. *)
Theorem take_snapshot_empty_export_listing st r rest job_id pre p meta :
  pending (world st) = r :: poll_script (pre ++ [p]) ++ meta :: rest ->
  trigger_response r job_id ->
  rounds (timeout (self st)) pre p ->
  done p ->
  (waited (length pre + 1) < timeout (self st))%Z ->
  is_error meta = false ->
  field meta "data" = Ok (VList []) ->
  take_snapshot st =
  (Raise IndexError,
   evolved (Some (bearer_header (token p))) rest (files (world st))
     (lookup_events (self st) (header (self st)) job_id (pre ++ [p]) (token p)) st).
Proof.
  intros Hp Ht Hr Hd Hlt He Hf.
  apply field_inv in Hf as (b & Hj & Hg).
  rewrite (take_snapshot_looks_up _ _ _ _ _ _ Hp Ht Hr Hd Hlt).
  unfold request_download_key. cbv zeta.
  erewrite bind_Ok by (apply access_evolved_ok; [reflexivity | exact He]).
  rewrite (bind_lift_Ok _ _ _ _ Hj).
  erewrite bind_lift_Raise by (rewrite Hg; reflexivity).
  unfold lookup_events, lookup_request. rewrite <- app_assoc. reflexivity.
Qed.

Lemma take_snapshot_empty_export_listing_witness :
  fst (take_snapshot
         (example_state (trigger_reply "job-1" ::
                         poll_script ([example_poll "t1" "RUNNING"] ++
                                      [example_poll "t2" "DONE"]) ++
                         empty_listing_reply :: []))) =
  Raise IndexError.
Proof.
  rewrite (take_snapshot_empty_export_listing _ (trigger_reply "job-1") [] "job-1"
             [example_poll "t1" "RUNNING"] (example_poll "t2" "DONE") empty_listing_reply).
  - reflexivity.
  - reflexivity.
  - apply trigger_reply_ok.
  - apply example_rounds.
  - apply example_poll_done.
  - reflexivity.
  - reflexivity.
  - reflexivity.
Defined.

(** X10.  When the job status carried no string as [workspaceId],
    [take_snapshot] raises [TypeError] on building the download URL:
    the export has been looked up, but no download is requested and the
    header gets no Accept entry. *)
Theorem take_snapshot_workspace_not_a_string st r rest job_id pre p meta key :
  pending (world st) = r :: poll_script (pre ++ [p]) ++ meta :: rest ->
  trigger_response r job_id ->
  rounds (timeout (self st)) pre p ->
  done p ->
  (waited (length pre + 1) < timeout (self st))%Z ->
  export_response meta (VStr "COMPLETED") key ->
  (forall w, workspace p <> VStr w) ->
  take_snapshot st =
  (Raise TypeError,
   evolved (Some (bearer_header (token p))) rest (files (world st))
     (lookup_events (self st) (header (self st)) job_id (pre ++ [p]) (token p) ++
      [EvPrint MsgDownloading]) st).
Proof.
  intros Hp Ht Hr Hd Hlt Hm Hw.
  rewrite (take_snapshot_looks_up _ _ _ _ _ _ Hp Ht Hr Hd Hlt).
  rewrite (request_download_key_read _ _ _ _ _ _ _ _ _ Hm).
  cbn [py_ne_str String.eqb Ascii.eqb Bool.eqb negb].
  unfold request_and_store_data.
  rewrite (bind_Ok _ _ _ _ _ (print_evolved _ _ _ _ _ _)).
  erewrite bind_lift_Raise.
  - unfold lookup_events. rewrite <- !app_assoc. reflexivity.
  - destruct (workspace p) as [| | | w | |]; try reflexivity. now destruct (Hw w).
Qed.

Lemma take_snapshot_workspace_not_a_string_witness :
  fst (take_snapshot
         (example_state (trigger_reply "job-1" ::
                         poll_script ([] ++ [numeric_workspace_poll]) ++
                         export_reply "COMPLETED" "key-1" :: []))) =
  Raise TypeError.
Proof.
  rewrite (take_snapshot_workspace_not_a_string _ (trigger_reply "job-1") [] "job-1"
             [] numeric_workspace_poll (export_reply "COMPLETED" "key-1") (VStr "key-1")).
  - reflexivity.
  - reflexivity.
  - apply trigger_reply_ok.
  - split; [| split].
    + repeat constructor; apply numeric_workspace_poll_ok.
    + constructor.
    + reflexivity.
  - reflexivity.
  - reflexivity.
  - apply export_reply_ok.
  - intros w. discriminate.
Defined.

(** X11.  Without the EXPORT_FILENAME option the download is requested
    all the same; then the [KeyError] of the lookup leaves the [try]
    block and the method, the body is written nowhere, and the Accept
    entry stays in the header. *)
Theorem take_snapshot_needs_export_filename st job_id pre p w key binary rest e :
  reaches_download st job_id pre p w key binary rest ->
  is_error binary = false ->
  config_get (config (self st)) "OPTIONAL" "EXPORT_FILENAME" = Raise e ->
  take_snapshot st =
  (Raise e,
   evolved (Some (accept_header (bearer_header (token p)))) rest (files (world st))
     (lookup_events (self st) (header (self st)) job_id (pre ++ [p]) (token p) ++
      [EvPrint MsgDownloading;
       EvRequest (download_request (self st) (bearer_header (token p)) w key)]) st).
Proof.
  intros Hr He Hc.
  assert (Hne : forall c, e <> HTTPError c)
    by (intros c; destruct (config_get_raises _ _ _ _ Hc) as [-> | ->]; discriminate).
  rewrite (take_snapshot_at_download _ _ _ _ _ _ _ _ Hr).
  unfold request_and_store_data.
  rewrite (bind_Ok _ _ _ _ _ (print_evolved _ _ _ _ _ _)).
  rewrite bind_lift_Ok with (a := download_url (self st) w) by reflexivity.
  rewrite (bind_Ok _ _ _ _ _ (header_setitem_evolved _ _ _ _ _ _ _)).
  erewrite bind_Raise.
  - reflexivity.
  - apply try_except_HTTPError_passes; [| exact Hne].
    erewrite bind_Ok by (apply access_evolved_ok; [reflexivity | exact He]).
    rewrite (bind_lift_Raise _ _ _ _ Hc).
    unfold download_request, accept_header. rewrite <- !app_assoc. reflexivity.
Qed.

Lemma take_snapshot_needs_export_filename_witness :
  fst (take_snapshot
         (configured_state (delete "OPTIONAL" proxy_config)
            (download_script (binary_reply 200 [x50]) []))) =
  Raise (KeyError "OPTIONAL").
Proof.
  rewrite (take_snapshot_needs_export_filename _ _ _ _ _ _ _ _ (KeyError "OPTIONAL")
             (configured_reaches_download _ (binary_reply 200 [x50]) [])).
  - reflexivity.
  - reflexivity.
  - vm_compute. reflexivity.
Defined.

(** ** File names from templates *)

Lemma replace_from_skip x : forall old new s,
  replace_from old new (String.length x) (x +:+ s) = replace_from old new 0 s.
Proof.
  induction x as [| a x IH]; intros old new s; [reflexivity |].
  simpl. apply IH.
Qed.

Lemma prefix_append old s : String.prefix old (old +:+ s) = true.
Proof.
  induction old as [| a old IH]; [now destruct s |].
  simpl. destruct (Ascii.ascii_dec a a); [exact IH | contradiction].
Qed.

Lemma replace_at_occurrence c old s new :
  replace (String c old +:+ s) (String c old) new = new +:+ replace s (String c old) new.
Proof.
  unfold replace.
  change (String c old +:+ s) with (String c (old +:+ s)).
  cbn [replace_from].
  change (String c (old +:+ s)) with (String c old +:+ s). rewrite prefix_append.
  change (String.length (String c old) - 1) with (String.length old - 0).
  rewrite Nat.sub_0_r. now rewrite replace_from_skip.
Qed.

Lemma replace_before_occurrence c old new a : forall s,
  mentions c a = false ->
  replace (a +:+ s) (String c old) new = a +:+ replace s (String c old) new.
Proof.
  induction a as [| b a IH]; intros s Ha; [reflexivity |].
  cbn [mentions] in Ha. apply orb_false_iff in Ha as [Hb Ha].
  unfold replace in *. simpl.
  destruct (Ascii.ascii_dec c b) as [-> | _]; [now rewrite Ascii.eqb_refl in Hb |].
  now rewrite IH by assumption.
Qed.

Lemma replace_without_occurrence c old new s :
  mentions c s = false -> replace s (String c old) new = s.
Proof.
  intros Hs. induction s as [| b s IH]; [reflexivity |].
  cbn [mentions] in Hs. apply orb_false_iff in Hs as [Hb Hs].
  unfold replace in *. simpl.
  destruct (Ascii.ascii_dec c b) as [-> | _]; [now rewrite Ascii.eqb_refl in Hb |].
  f_equal. now apply IH.
Qed.

(** In a string that holds the placeholder once, between two texts
    that do not contain its first character, [replace] puts the new
    text in its place and leaves the rest, whatever the new text
    holds. *)
Lemma replace_fills_placeholder c old new a b :
  mentions c a = false ->
  mentions c b = false ->
  replace (a +:+ String c old +:+ b) (String c old) new = a +:+ new +:+ b.
Proof.
  intros Ha Hb.
  rewrite replace_before_occurrence by assumption.
  rewrite replace_at_occurrence.
  now rewrite replace_without_occurrence by assumption.
Qed.

(** ** A token refresh that is refused *)

Lemma connect_evolved_error h r rest f evs st :
  is_error r = true ->
  connect (evolved h (r :: rest) f evs st) =
  (Raise (HTTPError (status_code r)), evolved h rest f (evs ++ [auth_event (self st)]) st).
Proof.
  intros He. erewrite connect_error; [| reflexivity | exact He].
  unfold pending_st, emit_st, evolved, with_event, with_pending, with_header.
  cbn [self world pending today files trace]. now rewrite <- app_assoc.
Qed.

Lemma poll_loop_step_refused fuel url status w ws h rest f evs st a :
  is_error a = true ->
  py_ne_str status "DONE" = true ->
  (w < timeout (self st))%Z ->
  poll_loop (S fuel) url status w ws (evolved h (a :: rest) f evs st) =
  (Raise (HTTPError (status_code a)),
   evolved h rest f (evs ++ [auth_event (self st)]) st).
Proof.
  intros He Hnd Hlt.
  cbn [poll_loop]. rewrite (bind_Ok _ _ _ _ _ (get_self_evolved _ _ _ _ _)).
  cbn [timeout with_header]. rewrite Hnd. apply Z.ltb_lt in Hlt as ->. cbn [andb].
  now rewrite (bind_Raise _ _ _ _ _ (connect_evolved_error _ _ _ _ _ _ He)).
Qed.

(** X8.  When the token refresh at the start of a polling round is
    answered with an HTTP error, [take_snapshot] ends with that error:
    the job status is not asked in that round, and the header is the
    one the round before had left. *)
Theorem take_snapshot_token_refresh_refused st r job_id pre a rest :
  pending (world st) = r :: poll_script pre ++ a :: rest ->
  trigger_response r job_id ->
  Forall poll_ok pre ->
  Forall not_done pre ->
  (waited (length pre) < timeout (self st))%Z ->
  is_error a = true ->
  take_snapshot st =
  (Raise (HTTPError (status_code a)),
   evolved (header_after (header (self st)) pre) rest (files (world st))
     (trigger_events (self st) (header (self st)) job_id ++
      flat_map (poll_events (self st) (status_check_url (self st) job_id)) pre ++
      [auth_event (self st)])
     st).
Proof.
  intros Hp Htr Hok Hnd Hlt He. unfold waited in Hlt.
  destruct (poll_fuel_enough (self st) (length pre)) as [fuel Hfuel]; [exact Hlt |].
  apply (take_snapshot_loop_raises _ _ _ _ _ _ Hp Htr).
  rewrite Hfuel, <- Nat.add_assoc.
  rewrite poll_loop_run; [| assumption | assumption | reflexivity | lia].
  cbn [Nat.add].
  rewrite (poll_loop_step_refused _ _ _ _ _ _ _ _ _ _ _ He);
    [| now apply status_after_not_done | lia].
  rewrite <- app_assoc. reflexivity.
Qed.

Lemma take_snapshot_token_refresh_refused_witness :
  fst (take_snapshot
         (example_state (trigger_reply "job-1" ::
                         poll_script [example_poll "t1" "RUNNING"] ++
                         error_reply 401 :: []))) =
  Raise (HTTPError 401).
Proof.
  rewrite (take_snapshot_token_refresh_refused _ (trigger_reply "job-1") "job-1"
             [example_poll "t1" "RUNNING"] (error_reply 401) []).
  - reflexivity.
  - reflexivity.
  - apply trigger_reply_ok.
  - repeat constructor; apply example_poll_ok.
  - repeat constructor.
  - reflexivity.
  - reflexivity.
Defined.

(** ** The name of the snapshot file *)

Lemma names_only_store name binary :
  Forall (names_only name)
    ((if (status_code binary =? 200)%Z
      then EvOpen name :: map (EvWrite name) (iter_content 1024 binary)
      else []) ++ [EvPrint (MsgSaved name)]).
Proof.
  apply Forall_app. split; [| repeat constructor].
  destruct (status_code binary =? 200)%Z; [| constructor].
  constructor; [reflexivity |].
  induction (iter_content 1024 binary) as [| chunk chunks IH]; constructor;
    [reflexivity | exact IH].
Qed.

(** When the download is answered without HTTP error, the method prints
    the name it has made of the template, and names no other file from
    there on. *)
Lemma take_snapshot_announces st job_id pre p w key binary rest template :
  reaches_download st job_id pre p w key binary rest ->
  is_error binary = false ->
  config_get (config (self st)) "OPTIONAL" "EXPORT_FILENAME" = Ok template ->
  exists evs,
    trace (world (snd (take_snapshot st))) =
    trace (world st) ++
    lookup_events (self st) (header (self st)) job_id (pre ++ [p]) (token p) ++
    [EvPrint MsgDownloading;
     EvRequest (download_request (self st) (bearer_header (token p)) w key);
     EvPrint (MsgWriting (replace template "{cdate}" (today (world st))))] ++ evs /\
    Forall (names_only (replace template "{cdate}" (today (world st)))) evs.
Proof.
  intros Hr He Hc. rewrite (take_snapshot_stores _ _ _ _ _ _ _ _ _ Hr He Hc).
  eexists. split; [| apply (names_only_store _ binary)].
  reflexivity.
Qed.

(** X12.  With a template that holds the placeholder once, between two
    texts without a brace, a download answered without HTTP error is
    announced under the name that has the date of the day in the
    placeholder's place, and the method then opens and writes no file
    of another name. *)
Theorem take_snapshot_names_the_file_by_date st job_id pre p w key binary rest a b :
  reaches_download st job_id pre p w key binary rest ->
  is_error binary = false ->
  config_get (config (self st)) "OPTIONAL" "EXPORT_FILENAME" = Ok (a +:+ "{cdate}" +:+ b) ->
  mentions brace a = false ->
  mentions brace b = false ->
  exists evs,
    trace (world (snd (take_snapshot st))) =
    trace (world st) ++
    lookup_events (self st) (header (self st)) job_id (pre ++ [p]) (token p) ++
    [EvPrint MsgDownloading;
     EvRequest (download_request (self st) (bearer_header (token p)) w key);
     EvPrint (MsgWriting (a +:+ today (world st) +:+ b))] ++ evs /\
    Forall (names_only (a +:+ today (world st) +:+ b)) evs.
Proof.
  intros Hr He Hc Ha Hb.
  destruct (take_snapshot_announces _ _ _ _ _ _ _ _ _ Hr He Hc) as (evs & Ht & Hn).
  assert (Hname : replace (a +:+ "{cdate}" +:+ b) "{cdate}" (today (world st)) =
                  a +:+ today (world st) +:+ b)
    by exact (replace_fills_placeholder brace "cdate}" _ a b Ha Hb).
  rewrite Hname in Ht, Hn. now exists evs.
Qed.

Lemma take_snapshot_names_the_file_by_date_witness :
  exists evs,
    trace (world (snd (take_snapshot
                         (example_state (download_script (binary_reply 200 [x50; x4b]) []))))) =
    lookup_events example_self (Some (bearer_header "t0")) "job-1"
      ([example_poll "t1" "RUNNING"] ++ [example_poll "t2" "DONE"]) "t2" ++
    [EvPrint MsgDownloading;
     EvRequest (download_request example_self (bearer_header "t2") "ws-1" (VStr "key-1"));
     EvPrint (MsgWriting "export_2024-03-05.xlsx")] ++ evs /\
    Forall (names_only "export_2024-03-05.xlsx") evs.
Proof.
  apply (take_snapshot_names_the_file_by_date _ _ _ _ _ _ _ _ "export_" ".xlsx"
           (example_reaches_download (binary_reply 200 [x50; x4b]) [])).
  - reflexivity.
  - vm_compute. reflexivity.
  - reflexivity.
  - reflexivity.
Defined.

(** X13.  With a template without a brace the name does not depend on
    the day: a download answered without HTTP error is announced under
    the template itself, and the method then opens and writes no file
    of another name. *)
Theorem take_snapshot_undated_template_names_one_file
    st job_id pre p w key binary rest template :
  reaches_download st job_id pre p w key binary rest ->
  is_error binary = false ->
  config_get (config (self st)) "OPTIONAL" "EXPORT_FILENAME" = Ok template ->
  mentions brace template = false ->
  exists evs,
    trace (world (snd (take_snapshot st))) =
    trace (world st) ++
    lookup_events (self st) (header (self st)) job_id (pre ++ [p]) (token p) ++
    [EvPrint MsgDownloading;
     EvRequest (download_request (self st) (bearer_header (token p)) w key);
     EvPrint (MsgWriting template)] ++ evs /\
    Forall (names_only template) evs.
Proof.
  intros Hr He Hc Hb.
  destruct (take_snapshot_announces _ _ _ _ _ _ _ _ _ Hr He Hc) as (evs & Ht & Hn).
  assert (Hname : replace template "{cdate}" (today (world st)) = template)
    by exact (replace_without_occurrence brace "cdate}" _ _ Hb).
  rewrite Hname in Ht, Hn. now exists evs.
Qed.

Lemma take_snapshot_undated_template_names_one_file_witness :
  exists evs,
    trace (world (snd (take_snapshot
                         (configured_state
                            (<["OPTIONAL" := {[ "EXPORT_FILENAME" := "export.xlsx" ]}]>
                               proxy_config)
                            (download_script (binary_reply 200 [x50; x4b]) []))))) =
    lookup_events example_self (Some (bearer_header "t0")) "job-1"
      ([example_poll "t1" "RUNNING"] ++ [example_poll "t2" "DONE"]) "t2" ++
    [EvPrint MsgDownloading;
     EvRequest (download_request example_self (bearer_header "t2") "ws-1" (VStr "key-1"));
     EvPrint (MsgWriting "export.xlsx")] ++ evs /\
    Forall (names_only "export.xlsx") evs.
Proof.
  apply (take_snapshot_undated_template_names_one_file _ _ _ _ _ _ _ _ "export.xlsx"
           (configured_reaches_download _ (binary_reply 200 [x50; x4b]) [])).
  - reflexivity.
  - vm_compute. reflexivity.
  - reflexivity.
Defined.

(** ** The script as a whole *)

(** X20.  After a binary download that was refused, every request that
    [download_surveys] sends goes out with the Accept entry that
    [take_snapshot] has left in the header. *)
Theorem refused_download_marks_the_survey_requests st job_id pre p w key binary rest :
  reaches_download st job_id pre p w key binary rest ->
  is_error binary = true ->
  let st1 := snd (take_snapshot st) in
  exists evs : list event,
    trace (world (snd (download_surveys st1))) = trace (world st1) ++ evs /\
    Forall carries_accept evs.
Proof.
  intros Hr He st1.
  assert (Hh : header (self st1) = Some (accept_header (bearer_header (token p))))
    by (unfold st1; now rewrite (take_snapshot_download_fails _ _ _ _ _ _ _ _ Hr He)).
  apply (keeps_download_surveys (object_is (self st1) (today (world st1))) carries_accept st1);
    try (intros; exact Logic.I).
  - apply object_is_stable.
  - now intros st' [_ Ht].
  - intros. apply object_is_allows_write.
  - intros url params st' [-> _]. cbn [carries_accept request_of rq_headers].
    rewrite Hh. eexists. split; [reflexivity |]. apply lookup_insert_eq.
  - split; reflexivity.
Qed.

Lemma refused_download_marks_the_survey_requests_witness :
  exists evs : list event,
    trace (world (snd (download_surveys
                         (snd (take_snapshot
                                 (example_state
                                    (download_script (error_reply 404) [ids_reply []]))))))) =
    trace (world (snd (take_snapshot
                         (example_state
                            (download_script (error_reply 404) [ids_reply []]))))) ++ evs /\
    Forall carries_accept evs.
Proof.
  apply (refused_download_marks_the_survey_requests _ _ _ _ _ _ _ _
           (example_reaches_download (error_reply 404) [ids_reply []])).
  reflexivity.
Defined.

(** X21.  When the first token exchange of the script is answered with an
    HTTP error, the script ends with that error after that one
    exchange: no snapshot is triggered and no survey is asked for. *)
Theorem main_stops_at_a_refused_login cfg w o r rest :
  __init__ cfg = Ok o ->
  pending w = r :: rest ->
  is_error r = true ->
  main cfg w =
  (Raise (HTTPError (status_code r)),
   Some (pending_st rest (emit_st (auth_event o) {| self := o; world := w |}))).
Proof.
  intros Hi Hp He. unfold main. rewrite Hi.
  now rewrite (bind_Raise _ _ _ _ _ (connect_error {| self := o; world := w |} r rest Hp He)).
Qed.

Lemma main_stops_at_a_refused_login_witness :
  fst (main proxy_config (world_of [error_reply 401])) = Raise (HTTPError 401).
Proof.
  rewrite (main_stops_at_a_refused_login _ _ example_self (error_reply 401) []).
  - reflexivity.
  - vm_compute. reflexivity.
  - reflexivity.
  - reflexivity.
Defined.

(** ** What the methods return *)

Lemma returns_ret {A} (Q : A -> Prop) a : Q a -> returns Q (ret a).
Proof. intros Hq st a' [= <-]. exact Hq. Qed.

Lemma returns_bind {A B} (Q : B -> Prop) (m : M A) (k : A -> M B) :
  (forall a, returns Q (k a)) -> returns Q (bind m k).
Proof.
  intros Hk st b. unfold bind. destruct (m st) as [[a | e |] st1]; cbn [fst].
  - apply Hk.
  - discriminate.
  - discriminate.
Qed.

Lemma returns_try {A} (Q : A -> Prop) (body : M A) handler :
  returns Q body -> (forall e, returns Q (handler e)) ->
  returns Q (try_except_HTTPError body handler).
Proof.
  intros Hb Hh st a. unfold try_except_HTTPError. pose proof (Hb st) as Hb'.
  destruct (body st) as [[a' | [c | | | | | |] |] st1]; cbn [fst] in *;
    try discriminate.
  - apply Hb'.
  - apply Hh.
Qed.

Lemma returns_request_and_store_data s ws key :
  returns (fun v => v = VNone) (request_and_store_data s ws key).
Proof.
  unfold request_and_store_data.
  do 4 (apply returns_bind; intros ?).
  destruct a2; [now apply returns_ret |].
  apply returns_bind; intros ?. now apply returns_ret.
Qed.

Lemma returns_request_download_key s ws :
  returns (fun v => v = VNone \/ v = VBool false) (request_download_key s ws).
Proof.
  unfold request_download_key. cbv zeta.
  do 4 (apply returns_bind; intros ?).
  destruct (py_ne_str a1 "COMPLETED").
  - apply returns_bind; intros ?. apply returns_ret. now right.
  - intros st v Hv. left. exact (returns_request_and_store_data _ _ _ _ _ Hv).
Qed.

(** X5.  Whatever the server answers, [take_snapshot] ends: it raises,
    or it returns [None] or [False], never [True]. *)
Theorem take_snapshot_returns_None_or_False st :
  match fst (take_snapshot st) with
  | Ok v => v = VNone \/ v = VBool false
  | Raise _ => True
  | OutOfFuel => False
  end.
Proof.
  pose proof (take_snapshot_total st) as Htotal.
  assert (Hret : returns (fun v => v = VNone \/ v = VBool false) take_snapshot).
  { unfold take_snapshot. do 4 (apply returns_bind; intros ?).
    destruct a2 as [[status w] ws]. destruct (w >=? timeout a0)%Z.
    - apply returns_bind; intros ?. apply returns_ret. now right.
    - apply returns_request_download_key. }
  specialize (Hret st).
  destruct (fst (take_snapshot st)) as [v | e |];
    [now apply Hret | exact Logic.I | now apply Htotal].
Qed.

Lemma steady_get_run_result s params survey run : steady (get_run_result s params survey run).
Proof. unfold get_run_result. steady_auto. Qed.

Lemma steady_get_survey_runs s params survey : steady (get_survey_runs s params survey).
Proof.
  unfold get_survey_runs. steady_auto. apply steady_get_run_result.
Qed.

Lemma steady_download_surveys : steady download_surveys.
Proof.
  unfold download_surveys. steady_auto. apply steady_get_survey_runs.
Qed.

(** X14.  Whatever the server answers, [download_surveys] ends: it
    returns [None], or it raises an exception that is not an HTTP
    error. *)
Theorem download_surveys_returns_None_or_raises_other st :
  match fst (download_surveys st) with
  | Ok v => v = VNone
  | Raise (HTTPError _) => False
  | Raise _ => True
  | OutOfFuel => False
  end.
Proof.
  pose proof (download_surveys_catches st) as Hc.
  pose proof (steady_download_surveys st) as [Hf _].
  assert (Hret : returns (fun v => v = VNone) download_surveys).
  { unfold download_surveys. do 3 (apply returns_bind; intros ?). cbv zeta.
    apply returns_try.
    - do 5 (apply returns_bind; intros ?). now apply returns_ret.
    - intros e. apply returns_bind; intros ?. now apply returns_ret. }
  specialize (Hret st).
  destruct (fst (download_surveys st)) as [v | [c | | | | | |] |];
    first [now apply Hret | exact Logic.I | now apply (Hc c) | now apply Hf].
Qed.
